(** * AI-Therapy: the session-state pipeline, embedded and verified

    A shallow embedding of the text-analysis, profile-update,
    session-state, resource-selection and chat-request code of the
    journaling application:

    - [nlpUtils]        : analyzeSentiment, detectEmotions, extractTopics,
                          analyzeText, weightedAverage, updateUserProfile
    - [apiUtils]        : containsCrisisIndicators
    - [llamaApiUtils]   : sendLlamaRequest, createTherapySystemPrompt
    - [therapistUtils]  : detectEmotions, detectCrisis, extractTopics,
                          updateSessionState, the resource generators,
                          selectAppropriateResource, generateTherapistResponse

    Modelling conventions.

    - A JavaScript string is a [string]: a sequence of code units below 256
      (the Latin-1 part of UTF-16).  [toLowerCase] and the regular-expression
      classes [\s], [\w] are written out for that range.
    - A JavaScript number is a [num]: an exact rational, or one of
      [Infinity], [-Infinity], [NaN].  Finite arithmetic is exact (the
      rounding of IEEE doubles is not modelled, nor is the sign of zero);
      division by zero, and arithmetic and comparison on the three special
      values, behave as in JavaScript.
    - Objects that the code mutates in place live in a store, [Heap], and are
      referred to by location, so that two references to one object see each
      other's writes.  The store is typed: a reference of static type [T]
      denotes an object of type [T], as the TypeScript types promise.
    - [Math.random] reads from a stream of draws that is passed explicitly.
    - A promise is modelled by its outcome, a [completion]: it is fulfilled
      with a value or rejected with an error; [try]/[catch] is [catch_]. *)

From Stdlib Require Import QArith Qround Lqa ZArith Lia Bool List Ascii String.
From Stdlib Require Import Sorted Permutation.
From stdpp Require Import gmap strings list fin_maps functions.

Local Open Scope string_scope.

(* ===================================================================== *)
(** ** JavaScript strings *)
(* ===================================================================== *)

Module JsString.

(** [String.prototype.toLowerCase] on one code unit below 256:
    A-Z, and the Latin-1 capitals U+00C0..U+00DE except the sign U+00D7. *)
Definition lowerChar (c : ascii) : ascii :=
  let n := nat_of_ascii c in
  if (Nat.leb 65 n && Nat.leb n 90)
     || (Nat.leb 192 n && Nat.leb n 222 && negb (Nat.eqb n 215))
  then ascii_of_nat (n + 32) else c.

Fixpoint toLowerCase (s : string) : string :=
  match s with
  | EmptyString => EmptyString
  | String c s' => String (lowerChar c) (toLowerCase s')
  end.

(** [\s] : tab, line feed, vertical tab, form feed, carriage return,
    space, no-break space. *)
Definition isSpace (c : ascii) : bool :=
  let n := nat_of_ascii c in
  (Nat.leb 9 n && Nat.leb n 13) || Nat.eqb n 32 || Nat.eqb n 160.

(** [\w] : [A-Za-z0-9_]. *)
Definition isWordChar (c : ascii) : bool :=
  let n := nat_of_ascii c in
  (Nat.leb 48 n && Nat.leb n 57) || (Nat.leb 65 n && Nat.leb n 90)
  || Nat.eqb n 95 || (Nat.leb 97 n && Nat.leb n 122).

(** [.!?] *)
Definition isTerminator (c : ascii) : bool :=
  let n := nat_of_ascii c in
  Nat.eqb n 46 || Nat.eqb n 33 || Nat.eqb n 63.

Definition isEmpty (s : string) : bool :=
  match s with EmptyString => true | _ => false end.

Definition snoc (s : string) (c : ascii) : string := s ++ String c EmptyString.

(** [s.includes(sub)] : [sub] occurs in [s] at some position. *)
Fixpoint includes (s sub : string) : bool :=
  String.prefix sub s
  || match s with
     | EmptyString => false
     | String _ s' => includes s' sub
     end.

(** [s.match(/\b(\w+)\b/g) || []] : the maximal runs of word characters,
    left to right.  [cur] is the run being read. *)
Fixpoint matchWordsFrom (cur s : string) : list string :=
  match s with
  | EmptyString => if isEmpty cur then [] else [cur]
  | String c s' =>
      if isWordChar c then matchWordsFrom (snoc cur c) s'
      else if isEmpty cur then matchWordsFrom EmptyString s'
           else cur :: matchWordsFrom EmptyString s'
  end.

Definition matchWords (s : string) : list string := matchWordsFrom EmptyString s.

(** [s.split(/C+/)] for a character class [C] : the pieces between the
    maximal runs of separators; a leading or trailing run leaves an empty
    first or last piece, and the empty string splits to one empty piece.
    [inSep] tells that the previous character was a separator. *)
Fixpoint splitFrom (sep : ascii -> bool) (inSep : bool) (cur s : string)
  : list string :=
  match s with
  | EmptyString => [cur]
  | String c s' =>
      if sep c then
        if inSep then splitFrom sep true EmptyString s'
        else cur :: splitFrom sep true EmptyString s'
      else splitFrom sep false (snoc cur c) s'
  end.

Definition splitRuns (sep : ascii -> bool) (s : string) : list string :=
  splitFrom sep false EmptyString s.

(** [s.trim().length > 0] : some character of [s] is not white space. *)
Fixpoint trimNonEmpty (s : string) : bool :=
  match s with
  | EmptyString => false
  | String c s' => negb (isSpace c) || trimNonEmpty s'
  end.

(** [arr.includes(w)] on an array of strings. *)
Definition arrayIncludes (arr : list string) (w : string) : bool :=
  existsb (String.eqb w) arr.

End JsString.

(* ===================================================================== *)
(** ** JavaScript numbers *)
(* ===================================================================== *)

Module JsNum.

Inductive num : Type :=
| Fin (q : Q)
| PInf
| NInf
| NaN.

Definition ofNat (n : nat) : num := Fin (inject_Z (Z.of_nat n)).

Definition qpos (q : Q) : bool := negb (Qle_bool q 0).
Definition qzero (q : Q) : bool := Qeq_bool q 0.

(** The infinity whose sign is that of [q] times [s]; [q] is not zero. *)
Definition signedInf (s : bool) (q : Q) : num :=
  if Bool.eqb s (qpos q) then PInf else NInf.

Definition add (a b : num) : num :=
  match a, b with
  | NaN, _ | _, NaN => NaN
  | Fin x, Fin y => Fin (x + y)
  | PInf, NInf | NInf, PInf => NaN
  | PInf, _ | _, PInf => PInf
  | NInf, _ | _, NInf => NInf
  end.

Definition neg (a : num) : num :=
  match a with
  | Fin x => Fin (- x)
  | PInf => NInf
  | NInf => PInf
  | NaN => NaN
  end.

Definition sub (a b : num) : num := add a (neg b).

Definition mul (a b : num) : num :=
  match a, b with
  | NaN, _ | _, NaN => NaN
  | Fin x, Fin y => Fin (x * y)
  | Fin x, PInf | PInf, Fin x => if qzero x then NaN else signedInf true x
  | Fin x, NInf | NInf, Fin x => if qzero x then NaN else signedInf false x
  | PInf, PInf | NInf, NInf => PInf
  | PInf, NInf | NInf, PInf => NInf
  end.

(** A zero divisor is read as [+0]: every divisor of the program is a
    length or a count. *)
Definition div (a b : num) : num :=
  match a, b with
  | NaN, _ | _, NaN => NaN
  | Fin x, Fin y =>
      if qzero y then (if qzero x then NaN else signedInf true x)
      else Fin (x / y)
  | Fin _, (PInf | NInf) => Fin 0
  | (PInf | NInf), (PInf | NInf) => NaN
  | PInf, Fin y => if qzero y then PInf else signedInf true y
  | NInf, Fin y => if qzero y then NInf else signedInf false y
  end.

(** [a < b]; false as soon as one side is [NaN]. *)
Definition lt (a b : num) : bool :=
  match a, b with
  | NaN, _ | _, NaN => false
  | Fin x, Fin y => negb (Qle_bool y x)
  | _, NInf => false
  | NInf, _ => true
  | PInf, _ => false
  | _, PInf => true
  end.

Definition gt (a b : num) : bool := lt b a.

(** [a <= b]; false as soon as one side is [NaN]. *)
Definition le (a b : num) : bool :=
  match a, b with
  | NaN, _ | _, NaN => false
  | Fin x, Fin y => Qle_bool x y
  | NInf, _ => true
  | _, PInf => true
  | _, NInf => false
  | PInf, _ => false
  end.

Definition ge (a b : num) : bool := le b a.

(** [Math.min], [Math.max] : [NaN] as soon as one argument is. *)
Definition min (a b : num) : num :=
  match a, b with
  | NaN, _ | _, NaN => NaN
  | _, _ => if le a b then a else b
  end.

Definition max (a b : num) : num :=
  match a, b with
  | NaN, _ | _, NaN => NaN
  | _, _ => if le a b then b else a
  end.

(** [!x] on a number: zero and [NaN] are falsy. *)
Definition falsy (a : num) : bool :=
  match a with
  | Fin x => qzero x
  | NaN => true
  | _ => false
  end.

(** Reading a property that may be absent, in a numeric position:
    [undefined] converts to [NaN]. *)
Definition ofLookup (o : option num) : num :=
  match o with Some a => a | None => NaN end.

(** [!obj[k]] : the property is absent, zero or [NaN]. *)
Definition falsyLookup (o : option num) : bool :=
  match o with Some a => falsy a | None => true end.

(** The number is finite and lies in the closed interval. *)
Definition within (lo hi : Q) (a : num) : Prop :=
  match a with
  | Fin x => (lo <= x <= hi)%Q
  | _ => False
  end.

(** Numeric equality ([===] on numbers; never true of [NaN]). *)
Definition numEq (a b : num) : Prop :=
  match a, b with
  | Fin x, Fin y => (x == y)%Q
  | PInf, PInf | NInf, NInf => True
  | _, _ => False
  end.

End JsNum.

Import JsString JsNum.

Arguments Fin q%_Q.

(* ===================================================================== *)
(** ** Objects with string keys, in insertion order *)
(* ===================================================================== *)

(** A JavaScript object used as a dictionary whose entries are walked with
    [Object.entries]: keys keep the order in which they were first set. *)
Module Entries.

Definition t (V : Type) : Type := list (string * V).

Fixpoint get {V} (k : string) (o : t V) : option V :=
  match o with
  | [] => None
  | (k', v) :: o' => if String.eqb k k' then Some v else get k o'
  end.

(** [o[k] = v] : an existing key keeps its place, a new one goes last. *)
Fixpoint set {V} (k : string) (v : V) (o : t V) : t V :=
  match o with
  | [] => [(k, v)]
  | (k', v') :: o' =>
      if String.eqb k k' then (k', v) :: o' else (k', v') :: set k v o'
  end.

Definition keys {V} (o : t V) : list string := map fst o.
Definition values {V} (o : t V) : list V := map snd o.

End Entries.

(* ===================================================================== *)
(** ** nlpUtils: the lexical analyzer *)
(* ===================================================================== *)

Module Nlp.

Inductive SentimentLabel : Type :=
| very_negative | negative | neutral | positive | very_positive.

Record SentimentAnalysis : Type := {
  score : num;
  magnitude : num;
  label : SentimentLabel
}.

(** The result of [analyzeText].  Its [entities] and [keyPhrases] are left
    out: no function modelled here reads them. *)
Record NLPAnalysisResult : Type := {
  sentiment : SentimentAnalysis;
  tokenCount : num;
  complexity : num;
  topics : list string;
  emotions : Entries.t num
}.

Definition positiveWords : list string :=
  [ "good"; "great"; "happy"; "positive"; "excellent"; "wonderful"; "joy";
    "love"; "hope"; "excited"; "grateful"; "thankful"; "appreciate";
    "better"; "calm"; "peaceful"; "relaxed"; "confident"; "proud" ].

Definition negativeWords : list string :=
  [ "bad"; "sad"; "angry"; "negative"; "terrible"; "horrible"; "awful";
    "hate"; "fear"; "worried"; "anxious"; "depressed"; "stressed";
    "worse"; "upset"; "frustrated"; "annoyed"; "disappointed"; "hurt" ].

Definition intensifiers : list string :=
  [ "very"; "extremely"; "incredibly"; "really"; "so"; "absolutely";
    "completely"; "totally"; "utterly"; "thoroughly" ].

(** The counter that [words.forEach] raises once for each word found in
    [table]. *)
Definition countIn (table words : list string) : nat :=
  length (filter (fun w => arrayIncludes table w) words).

Definition labelOf (score : num) : SentimentLabel :=
  if le score (Fin (-0.6)) then very_negative
  else if le score (Fin (-0.2)) then negative
  else if ge score (Fin 0.6) then very_positive
  else if ge score (Fin 0.2) then positive
  else neutral.

Definition analyzeSentiment (text : string) : SentimentAnalysis :=
  let words := matchWords (toLowerCase text) in
  let positiveCount := countIn positiveWords words in
  let negativeCount := countIn negativeWords words in
  let intensifierCount := countIn intensifiers words in
  let totalSentimentWords := (positiveCount + negativeCount)%nat in
  let score :=
    if Nat.eqb totalSentimentWords 0 then Fin 0
    else div (sub (ofNat positiveCount) (ofNat negativeCount))
             (ofNat totalSentimentWords) in
  let magnitude :=
    mul (div (ofNat totalSentimentWords) (ofNat (length words)))
        (add (Fin 1) (div (ofNat intensifierCount) (ofNat (length words)))) in
  {| score := score; magnitude := magnitude; label := labelOf score |}.

Definition initialEmotions : Entries.t num :=
  [ ("anxiety", Fin 0); ("sadness", Fin 0); ("anger", Fin 0);
    ("fear", Fin 0); ("joy", Fin 0); ("surprise", Fin 0);
    ("disgust", Fin 0); ("trust", Fin 0) ].

Definition emotionWords : Entries.t (list string) :=
  [ ("anxiety", [ "anxious"; "nervous"; "worry"; "stress"; "overwhelm";
                  "panic"; "afraid"; "uneasy" ]);
    ("sadness", [ "sad"; "depressed"; "unhappy"; "miserable"; "heartbroken";
                  "down"; "blue"; "grief" ]);
    ("anger", [ "angry"; "mad"; "furious"; "irritated"; "annoyed";
                "frustrated"; "enraged"; "hostile" ]);
    ("fear", [ "scared"; "afraid"; "terrified"; "frightened"; "fearful";
               "panicked"; "alarmed" ]);
    ("joy", [ "happy"; "joyful"; "excited"; "delighted"; "pleased"; "glad";
              "cheerful"; "content" ]);
    ("surprise", [ "surprised"; "shocked"; "amazed"; "astonished";
                   "stunned"; "unexpected" ]);
    ("disgust", [ "disgusted"; "revolted"; "repulsed"; "sickened";
                  "appalled"; "horrified" ]);
    ("trust", [ "trust"; "believe"; "confident"; "faith"; "assured";
                "certain"; "reliance" ]) ].

(** [if (lowerText.includes(word)) emotions[emotion] += 0.2] *)
Definition bumpWord (lowerText emotion : string)
    (emotions : Entries.t num) (word : string) : Entries.t num :=
  if includes lowerText word
  then Entries.set emotion
         (add (ofLookup (Entries.get emotion emotions)) (Fin 0.2)) emotions
  else emotions.

(** One round of the outer [forEach]: every word of the category, then
    the cap [Math.min(emotions[emotion], 1)]. *)
Definition bumpEmotion (lowerText : string) (emotions : Entries.t num)
    (entry : string * list string) : Entries.t num :=
  let emotion := fst entry in
  let emotions1 := fold_left (bumpWord lowerText emotion) (snd entry) emotions in
  Entries.set emotion
    (min (ofLookup (Entries.get emotion emotions1)) (Fin 1)) emotions1.

Definition detectEmotions (text : string) : Entries.t num :=
  fold_left (bumpEmotion (toLowerCase text)) emotionWords initialEmotions.

Definition topicKeywords : Entries.t (list string) :=
  [ ("work", [ "work"; "job"; "career"; "boss"; "office"; "colleague";
               "profession"; "employment" ]);
    ("relationships", [ "relationship"; "partner"; "marriage"; "dating";
                        "spouse"; "boyfriend"; "girlfriend" ]);
    ("family", [ "family"; "parent"; "child"; "mother"; "father"; "sister";
                 "brother"; "son"; "daughter" ]);
    ("health", [ "health"; "illness"; "disease"; "doctor"; "hospital";
                 "pain"; "symptom"; "diagnosis" ]);
    ("mental health", [ "anxiety"; "depression"; "therapy"; "counseling";
                        "mental"; "psychiatrist"; "psychologist" ]);
    ("finance", [ "money"; "finance"; "debt"; "budget"; "saving"; "expense";
                  "income"; "investment" ]);
    ("education", [ "school"; "college"; "university"; "degree"; "study";
                    "learn"; "education"; "student" ]);
    ("housing", [ "home"; "house"; "apartment"; "rent"; "mortgage";
                  "roommate"; "living situation" ]);
    ("self-improvement", [ "goal"; "improvement"; "growth"; "development";
                           "progress"; "better"; "skill" ]);
    ("social life", [ "friend"; "social"; "party"; "gathering"; "community";
                      "connection"; "loneliness" ]) ].

Definition extractTopics (text : string) : list string :=
  let lowerText := toLowerCase text in
  map fst
    (filter (fun entry => existsb (includes lowerText) (snd entry))
            topicKeywords).

(** [words.reduce((sum, word) => sum + word.length, 0)] *)
Definition totalLength (words : list string) : nat :=
  fold_left (fun sum word => (sum + String.length word)%nat) words 0%nat.

(** [sentences.length || 1] *)
Definition orOne (n : nat) : nat := if Nat.eqb n 0 then 1%nat else n.

Definition rawComplexity (text : string) : num :=
  let words := splitRuns isSpace text in
  let avgWordLength := div (ofNat (totalLength words)) (ofNat (length words)) in
  let sentences := filter trimNonEmpty (splitRuns isTerminator text) in
  let avgSentenceLength :=
    div (ofNat (length words)) (ofNat (orOne (length sentences))) in
  min (add (mul (div (sub avgWordLength (Fin 3)) (Fin 3)) (Fin 0.5))
           (mul (div (sub avgSentenceLength (Fin 5)) (Fin 15)) (Fin 0.5)))
      (Fin 1).

Definition analyzeText (text : string) : NLPAnalysisResult :=
  let sentiment := analyzeSentiment text in
  let emotions := detectEmotions text in
  let words := splitRuns isSpace text in
  let complexity := rawComplexity text in
  let topics := extractTopics text in
  {| sentiment := sentiment;
     tokenCount := ofNat (length words);
     complexity := max (Fin 0) complexity;
     topics := topics;
     emotions := emotions |}.

(** [weightedAverage(currentValue, newValue, weight = 0.3)] *)
Definition weightedAverageW (currentValue newValue weight : num) : num :=
  add (mul currentValue (sub (Fin 1) weight)) (mul newValue weight).

Definition weightedAverage (currentValue newValue : num) : num :=
  weightedAverageW currentValue newValue (Fin 0.3).

End Nlp.

(* ===================================================================== *)
(** ** The store of mutable objects *)
(* ===================================================================== *)

Module Store.

Definition loc : Type := positive.

Record PersonalityTraits : Type := {
  openness : num;
  conscientiousness : num;
  extraversion : num;
  agreeableness : num;
  neuroticism : num
}.

Record CommunicationStyle : Type := {
  verbose : num;
  emotional : num;
  analytical : num;
  concrete : num;
  abstract_ : num
}.

(** The three arrays of a learning history are objects of their own. *)
Record LearningHistory : Type := {
  topicsDiscussed : loc;
  insightsGained : loc;
  techniquesLearned : loc
}.

(** A [UserProfile] object: each of its properties holds a reference to a
    nested object.  No modelled code assigns to a property of the profile
    object itself, so the object is given by the references it holds. *)
Record UserProfile : Type := {
  personalityTraits : loc;
  values : loc;
  interests : loc;
  concerns : loc;
  communicationStyle : loc;
  learningHistory : loc
}.

Record Heap : Type := {
  traitsAt : loc -> PersonalityTraits;
  styleAt : loc -> CommunicationStyle;
  dictAt : loc -> gmap string num;
  historyAt : loc -> LearningHistory;
  arrayAt : loc -> list string
}.

Definition setTraits (l : loc) (f : PersonalityTraits -> PersonalityTraits)
    (h : Heap) : Heap :=
  {| traitsAt := <[ l := f (traitsAt h l) ]> (traitsAt h);
     styleAt := styleAt h; dictAt := dictAt h;
     historyAt := historyAt h; arrayAt := arrayAt h |}.

Definition setStyle (l : loc) (f : CommunicationStyle -> CommunicationStyle)
    (h : Heap) : Heap :=
  {| traitsAt := traitsAt h;
     styleAt := <[ l := f (styleAt h l) ]> (styleAt h);
     dictAt := dictAt h; historyAt := historyAt h; arrayAt := arrayAt h |}.

Definition setDict (l : loc) (f : gmap string num -> gmap string num)
    (h : Heap) : Heap :=
  {| traitsAt := traitsAt h; styleAt := styleAt h;
     dictAt := <[ l := f (dictAt h l) ]> (dictAt h);
     historyAt := historyAt h; arrayAt := arrayAt h |}.

Definition setArray (l : loc) (f : list string -> list string)
    (h : Heap) : Heap :=
  {| traitsAt := traitsAt h; styleAt := styleAt h; dictAt := dictAt h;
     historyAt := historyAt h;
     arrayAt := <[ l := f (arrayAt h l) ]> (arrayAt h) |}.

(** Property writes on the nested records. *)
Definition withVerbose (v : num) (s : CommunicationStyle) :=
  {| verbose := v; emotional := emotional s; analytical := analytical s;
     concrete := concrete s; abstract_ := abstract_ s |}.
Definition withEmotional (v : num) (s : CommunicationStyle) :=
  {| verbose := verbose s; emotional := v; analytical := analytical s;
     concrete := concrete s; abstract_ := abstract_ s |}.
Definition withAnalytical (v : num) (s : CommunicationStyle) :=
  {| verbose := verbose s; emotional := emotional s; analytical := v;
     concrete := concrete s; abstract_ := abstract_ s |}.

Definition withOpenness (v : num) (t : PersonalityTraits) :=
  {| openness := v; conscientiousness := conscientiousness t;
     extraversion := extraversion t; agreeableness := agreeableness t;
     neuroticism := neuroticism t |}.
Definition withExtraversion (v : num) (t : PersonalityTraits) :=
  {| openness := openness t; conscientiousness := conscientiousness t;
     extraversion := v; agreeableness := agreeableness t;
     neuroticism := neuroticism t |}.
Definition withAgreeableness (v : num) (t : PersonalityTraits) :=
  {| openness := openness t; conscientiousness := conscientiousness t;
     extraversion := extraversion t; agreeableness := v;
     neuroticism := neuroticism t |}.

(** What a reader of profile [p] sees in store [h]: the values of all its
    nested objects. *)
Record ProfileView : Type := {
  viewTraits : PersonalityTraits;
  viewValues : gmap string num;
  viewInterests : gmap string num;
  viewConcerns : gmap string num;
  viewStyle : CommunicationStyle;
  viewTopicsDiscussed : list string;
  viewInsightsGained : list string;
  viewTechniquesLearned : list string
}.

Definition view (h : Heap) (p : UserProfile) : ProfileView :=
  let lh := historyAt h (learningHistory p) in
  {| viewTraits := traitsAt h (personalityTraits p);
     viewValues := dictAt h (values p);
     viewInterests := dictAt h (interests p);
     viewConcerns := dictAt h (concerns p);
     viewStyle := styleAt h (communicationStyle p);
     viewTopicsDiscussed := arrayAt h (topicsDiscussed lh);
     viewInsightsGained := arrayAt h (insightsGained lh);
     viewTechniquesLearned := arrayAt h (techniquesLearned lh) |}.

End Store.

Import Store.

(* ===================================================================== *)
(** ** nlpUtils: the profile updater *)
(* ===================================================================== *)

Module Profile.

Import Nlp.

(** The three-bucket targets of the communication-style axes. *)
Definition bucket (metric hi lo : num) : num :=
  if gt metric hi then Fin 0.8 else if gt metric lo then Fin 0.5 else Fin 0.2.

(** One round of [textAnalysis.topics.forEach] over the interests. *)
Definition bumpInterest (p : UserProfile) (h : Heap) (topic : string) : Heap :=
  if falsyLookup (dictAt h (interests p) !! topic)
  then setDict (interests p) (fun d => <[ topic := Fin 0.6 ]> d) h
  else setDict (interests p)
         (fun d => <[ topic := weightedAverage (ofLookup (d !! topic)) (Fin 0.8) ]> d) h.

Definition negativeEmotions : list string :=
  [ "anxiety"; "sadness"; "anger"; "fear"; "disgust" ].

(** One round of [Object.entries(textAnalysis.emotions).forEach]. *)
Definition bumpConcern (p : UserProfile) (h : Heap) (entry : string * num) : Heap :=
  let emotion := fst entry in
  let intensity := snd entry in
  if gt intensity (Fin 0.5) && arrayIncludes negativeEmotions emotion then
    if falsyLookup (dictAt h (concerns p) !! emotion)
    then setDict (concerns p) (fun d => <[ emotion := intensity ]> d) h
    else setDict (concerns p)
           (fun d => <[ emotion := weightedAverage (ofLookup (d !! emotion)) intensity ]> d) h
  else h.

(** One round of the learning-history [forEach]: [push] on the array
    object itself. *)
Definition noteTopic (p : UserProfile) (h : Heap) (topic : string) : Heap :=
  let arr := topicsDiscussed (historyAt h (learningHistory p)) in
  if negb (arrayIncludes (arrayAt h arr) topic)
  then setArray arr (fun a => (a ++ [topic])%list) h
  else h.

(** The statements of [updateUserProfile], block by block.  Each reads
    and writes through the references held by [currentProfile] and by its
    copy [updatedProfile]. *)
Definition updateCommunicationStyle (currentProfile updatedProfile : UserProfile)
    (textAnalysis : NLPAnalysisResult) (h : Heap) : Heap :=
  let h1 :=
    setStyle (communicationStyle updatedProfile)
      (withVerbose
         (weightedAverage
            (verbose (styleAt h (communicationStyle currentProfile)))
            (bucket (tokenCount textAnalysis) (Fin 100) (Fin 50)))) h in
  let h2 :=
    setStyle (communicationStyle updatedProfile)
      (withEmotional
         (weightedAverage
            (emotional (styleAt h1 (communicationStyle currentProfile)))
            (bucket (magnitude (sentiment textAnalysis)) (Fin 0.7) (Fin 0.3)))) h1 in
  setStyle (communicationStyle updatedProfile)
    (withAnalytical
       (weightedAverage
          (analytical (styleAt h2 (communicationStyle currentProfile)))
          (bucket (complexity textAnalysis) (Fin 0.7) (Fin 0.4)))) h2.

Definition updateInterests (updatedProfile : UserProfile)
    (textAnalysis : NLPAnalysisResult) (h : Heap) : Heap :=
  fold_left (bumpInterest updatedProfile) (topics textAnalysis) h.

Definition updateConcerns (updatedProfile : UserProfile)
    (textAnalysis : NLPAnalysisResult) (h : Heap) : Heap :=
  fold_left (bumpConcern updatedProfile) (emotions textAnalysis) h.

Definition updatePersonalityTraits (updatedProfile : UserProfile)
    (textAnalysis : NLPAnalysisResult) (h : Heap) : Heap :=
  let h1 :=
    if gt (score (sentiment textAnalysis)) (Fin 0.5) then
      let h0 :=
        setTraits (personalityTraits updatedProfile)
          (fun t => withExtraversion (weightedAverage (extraversion t) (Fin 0.6)) t) h in
      setTraits (personalityTraits updatedProfile)
        (fun t => withAgreeableness (weightedAverage (agreeableness t) (Fin 0.6)) t) h0
    else h in
  if gt (complexity textAnalysis) (Fin 0.6) then
    setTraits (personalityTraits updatedProfile)
      (fun t => withOpenness (weightedAverage (openness t) (Fin 0.7)) t) h1
  else h1.

Definition updateLearningHistory (updatedProfile : UserProfile)
    (textAnalysis : NLPAnalysisResult) (h : Heap) : Heap :=
  fold_left (noteTopic updatedProfile) (topics textAnalysis) h.

(** [updateUserProfile].  [{ ...currentProfile }] copies the six
    references of the profile object and none of the nested objects: the
    copy [updatedProfile] and [currentProfile] hold the same locations, and
    every statement writes through them into the store. *)
Definition updateUserProfile (h : Heap) (currentProfile : UserProfile)
    (textAnalysis : NLPAnalysisResult) (userText : string)
  : Heap * UserProfile :=
  let updatedProfile :=
    {| personalityTraits := personalityTraits currentProfile;
       values := values currentProfile;
       interests := interests currentProfile;
       concerns := concerns currentProfile;
       communicationStyle := communicationStyle currentProfile;
       learningHistory := learningHistory currentProfile |} in
  let h := updateCommunicationStyle currentProfile updatedProfile textAnalysis h in
  let h := updateInterests updatedProfile textAnalysis h in
  let h := updateConcerns updatedProfile textAnalysis h in
  let h := updatePersonalityTraits updatedProfile textAnalysis h in
  let h := updateLearningHistory updatedProfile textAnalysis h in
  (h, updatedProfile).

Definition initialTraits : PersonalityTraits :=
  {| openness := Fin 0.5; conscientiousness := Fin 0.5; extraversion := Fin 0.5;
     agreeableness := Fin 0.5; neuroticism := Fin 0.5 |}.

Definition initialStyle : CommunicationStyle :=
  {| verbose := Fin 0.5; emotional := Fin 0.5; analytical := Fin 0.5;
     concrete := Fin 0.5; abstract_ := Fin 0.5 |}.

(** [createInitialUserProfile] builds its nested objects afresh: in each
    part of the store, the locations from [base] on are taken to be
    unused. *)
Definition createInitialUserProfile (h : Heap) (base : loc) : Heap * UserProfile :=
  let lValues := base in
  let lInterests := Pos.succ lValues in
  let lConcerns := Pos.succ lInterests in
  let lTopics := base in
  let lInsights := Pos.succ lTopics in
  let lTechniques := Pos.succ lInsights in
  ({| traitsAt := <[ base := initialTraits ]> (traitsAt h);
      styleAt := <[ base := initialStyle ]> (styleAt h);
      dictAt := <[ lValues := ∅ ]> (<[ lInterests := ∅ ]> (<[ lConcerns := ∅ ]> (dictAt h)));
      historyAt := <[ base := {| topicsDiscussed := lTopics;
                                  insightsGained := lInsights;
                                  techniquesLearned := lTechniques |} ]> (historyAt h);
      arrayAt := <[ lTopics := [] ]> (<[ lInsights := [] ]> (<[ lTechniques := [] ]> (arrayAt h))) |},
   {| personalityTraits := base; values := lValues; interests := lInterests;
      concerns := lConcerns; communicationStyle := base;
      learningHistory := base |}).

(** A store with nothing of interest in it. *)
Definition emptyHeap : Heap :=
  {| traitsAt := fun _ => initialTraits;
     styleAt := fun _ => initialStyle;
     dictAt := fun _ => ∅;
     historyAt := fun _ => {| topicsDiscussed := 1%positive;
                              insightsGained := 1%positive;
                              techniquesLearned := 1%positive |};
     arrayAt := fun _ => [] |}.

End Profile.

(* ===================================================================== *)
(** ** Outcomes: values and exceptions *)
(* ===================================================================== *)

Module Outcome.

Inductive error : Type :=
| ApiKeyNotFound
| NetworkFailed
| ApiRequestFailed (status : nat) (errorData : string)
| JsonSyntaxError
| NoResponseFromModel
| TypeError.

(** How a call ends: it returns, or it throws.  For an [async] function
    these are the promise fulfilled and the promise rejected. *)
Inductive completion (A : Type) : Type :=
| Return (a : A)
| Throw (e : error).

Arguments Return {A} a.
Arguments Throw {A} e.

Definition returns {A} (c : completion A) : bool :=
  match c with Return _ => true | Throw _ => false end.

(** [try { body } catch (error) { handler }] over a state [S]. *)
Definition catch_ {S A} (body : completion A * S)
    (handler : error -> S -> completion A * S) : completion A * S :=
  match body with
  | (Return a, s) => (Return a, s)
  | (Throw e, s) => handler e s
  end.

Definition mapReturn {A B} (f : A -> B) (c : completion A) : completion B :=
  match c with Return a => Return (f a) | Throw e => Throw e end.

End Outcome.

Import Outcome.

(* ===================================================================== *)
(** ** apiUtils *)
(* ===================================================================== *)

Module Api.

Definition crisisKeywords : list string :=
  [ "suicide"; "kill myself"; "end my life"; "want to die";
    "harm myself"; "hurt myself"; "self-harm";
    "no reason to live"; "better off dead" ].

Definition containsCrisisIndicators (text : string) : bool :=
  let lowerText := toLowerCase text in
  existsb (fun keyword => includes lowerText keyword) crisisKeywords.

End Api.

(* ===================================================================== *)
(** ** llamaApiUtils: the chat-completion request *)
(* ===================================================================== *)

Module Llama.

Inductive Role : Type := system | user | assistant.

Record LlamaMessage : Type := { role : Role; content : string }.

(** What [fetch] is called with. *)
Record Request : Type := {
  url : string;
  authorization : string;
  referer : string;
  xTitle : string;
  model : string;
  messages : list LlamaMessage;
  temperature : Q;
  max_tokens : nat
}.

(** One element of [data.choices]: the content of its [message], or no
    [message] at all. *)
Record Choice : Type := { message : option string }.

(** What [response.json()] gives. *)
Inductive Body : Type :=
| Unparsable                                  (* the promise rejects *)
| JsonNull                                    (* [null] *)
| JsonObject (choices : option (list Choice)) (* [choices] absent, or an array *).

(** What [fetch] gives. *)
Inductive FetchResult : Type :=
| NetworkFailure
| Response (ok : bool) (status : nat) (text : string) (body : Body).

(** The requests sent so far. *)
Definition World : Type := list Request.

(** The surroundings of the module: the key read from the environment at
    load time, the page's host name, and the far end, which may answer
    from what it has been sent before. *)
Record Env : Type := {
  LLAMA_API_KEY : option string;
  hostname : string;
  fetch : World -> Request -> FetchResult
}.

(** Truthiness of an optional string: present and not empty. *)
Definition truthy (o : option string) : bool :=
  match o with
  | Some s => negb (isEmpty s)
  | None => false
  end.

Definition API_URL : string := "https://openrouter.ai/api/v1/chat/completions".

Definition fallbackText : string :=
  "I apologize, but I encountered an issue processing your request. Please try again.".

(** The request that [sendLlamaRequest] hands to [fetch]: the optional
    system message first, then the conversation. *)
Definition requestFor (env : Env) (msgs : list LlamaMessage)
    (systemPrompt : option string) : Request :=
  let conversationHistory :=
    ((if truthy systemPrompt
      then [ {| role := system; content := default "" systemPrompt |} ]
      else []) ++ msgs)%list in
  let referer :=
    if String.eqb (hostname env) "localhost"
    then "http://localhost:5173"
    else "https://" ++ hostname env in
  {| url := API_URL;
     authorization := "Bearer " ++ default "" (LLAMA_API_KEY env);
     referer := referer;
     xTitle := "AI Therapy Assistant";
     model := "meta-llama/llama-3-8b-instruct";
     messages := conversationHistory;
     temperature := 0.7%Q;
     max_tokens := 800 |}.

(** The [try] block of [sendLlamaRequest]. *)
Definition sendLlamaRequestTry (env : Env) (w : World)
    (msgs : list LlamaMessage) (systemPrompt : option string)
  : completion string * World :=
  if negb (truthy (LLAMA_API_KEY env)) then (Throw ApiKeyNotFound, w)
  else
    let request := requestFor env msgs systemPrompt in
    let w' := (w ++ [request])%list in
    match fetch env w request with
    | NetworkFailure => (Throw NetworkFailed, w')
    | Response ok status text body =>
        if negb ok then (Throw (ApiRequestFailed status text), w')
        else
          match body with
          | Unparsable => (Throw JsonSyntaxError, w')
          | JsonNull => (Throw TypeError, w')
          | JsonObject None => (Throw NoResponseFromModel, w')
          | JsonObject (Some []) => (Throw NoResponseFromModel, w')
          | JsonObject (Some (c :: _)) =>
              match message c with
              | Some text => (Return text, w')
              | None => (Throw TypeError, w')
              end
          end
    end.

Definition sendLlamaRequest (env : Env) (w : World)
    (msgs : list LlamaMessage) (systemPrompt : option string)
  : completion string * World :=
  catch_ (sendLlamaRequestTry env w msgs systemPrompt)
         (fun _ w' => (Return fallbackText, w')).

(** [createTherapySystemPrompt]; the template literal's line breaks are
    line feeds. *)
Definition nl : string := String (ascii_of_nat 10) EmptyString.

Definition createTherapySystemPrompt : string :=
  "You are an AI Therapy Assistant designed to provide supportive, empathetic responses." ++ nl ++
  "Your goal is to help users explore their thoughts and feelings in a safe space." ++ nl ++
  nl ++
  "Guidelines:" ++ nl ++
  "- Respond with empathy and without judgment" ++ nl ++
  "- Ask thoughtful follow-up questions to encourage reflection" ++ nl ++
  "- Provide evidence-based insights when appropriate" ++ nl ++
  "- Recognize emotional states and respond accordingly" ++ nl ++
  "- Suggest coping strategies and resources when helpful" ++ nl ++
  "- Never diagnose medical or psychological conditions" ++ nl ++
  "- Maintain a warm, supportive tone throughout the conversation" ++ nl ++
  "- If the user is in crisis, encourage them to seek professional help" ++ nl ++
  nl ++
  "Remember that your purpose is to support the user's emotional wellbeing through conversation," ++ nl ++
  "not to replace professional mental health care.".

End Llama.

(* ===================================================================== *)
(** ** therapistUtils: the session state machine *)
(* ===================================================================== *)

Module Therapist.

Inductive TherapyApproach : Type :=
| cbt | mindfulness | supportive | solution_focused | existential.

Inductive EmotionCategory : Type :=
| anxiety | depression | anger | grief | joy | confusion | neutral.

Definition emotionEqb (a b : EmotionCategory) : bool :=
  match a, b with
  | anxiety, anxiety | depression, depression | anger, anger
  | grief, grief | joy, joy | confusion, confusion | neutral, neutral => true
  | _, _ => false
  end.

(** [emotions.includes(e)] *)
Definition emotionsInclude (emotions : list EmotionCategory)
    (e : EmotionCategory) : bool :=
  existsb (emotionEqb e) emotions.

Record TherapySessionState : Type := {
  dominantEmotions : list EmotionCategory;
  recentTopics : list string;
  approachUsed : list TherapyApproach;
  questionTypes : list string;
  sessionDepth : Z;
  crisisDetected : bool;
  lastQuestionType : string;
  userInsights : list string;
  userProfile : UserProfile;
  lastAnalysis : option Nlp.NLPAnalysisResult
}.

Definition createInitialSessionState (h : Heap) (base : loc)
  : Heap * TherapySessionState :=
  let (h', profile) := Profile.createInitialUserProfile h base in
  (h',
   {| dominantEmotions := [neutral];
      recentTopics := [];
      approachUsed := [supportive];
      questionTypes := [];
      sessionDepth := 0;
      crisisDetected := false;
      lastQuestionType := "opening";
      userInsights := [];
      userProfile := profile;
      lastAnalysis := None |}).

(** [result.push(e)] when [test] holds. *)
Definition pushIf (test : bool) (e : EmotionCategory)
    (result : list EmotionCategory) : list EmotionCategory :=
  if test then (result ++ [e])%list else result.

Definition detectEmotions (text : string) : list EmotionCategory :=
  let analysis := Nlp.analyzeText text in
  let emotions := Nlp.emotions analysis in
  let intensity k := ofLookup (Entries.get k emotions) in
  let result := [] in
  let result := pushIf (gt (intensity "anxiety") (Fin 0.4)) anxiety result in
  let result := pushIf (gt (intensity "sadness") (Fin 0.4)) depression result in
  let result := pushIf (gt (intensity "anger") (Fin 0.4)) anger result in
  let result := pushIf (gt (intensity "joy") (Fin 0.4)) joy result in
  let lowerText := toLowerCase text in
  let result :=
    pushIf (includes lowerText "grief" || includes lowerText "loss"
            || includes lowerText "miss" || includes lowerText "gone"
            || includes lowerText "died" || includes lowerText "death")
           grief result in
  let result :=
    pushIf (gt (intensity "surprise") (Fin 0.4)
            || includes lowerText "confus" || includes lowerText "unsure")
           confusion result in
  if Nat.eqb (length result) 0 then [neutral] else result.

Definition detectCrisis (text : string) : bool :=
  Api.containsCrisisIndicators text.

Definition extractTopics (text : string) : list string :=
  Nlp.topics (Nlp.analyzeText text).

Definition selectApproach (emotions : list EmotionCategory)
  : list TherapyApproach :=
  if emotionsInclude emotions anxiety then [cbt; mindfulness]
  else if emotionsInclude emotions depression then [cbt; supportive]
  else if emotionsInclude emotions grief then [supportive; existential]
  else if emotionsInclude emotions confusion then [solution_focused; existential]
  else [supportive; solution_focused].

(** [updateSessionState].  [newState] is a fresh object that receives the
    properties of [currentState] and is then assigned to; the profile is
    updated through the store. *)
Definition updateSessionState (h : Heap) (currentState : TherapySessionState)
    (userInput : string) : Heap * TherapySessionState :=
  let textAnalysis := Nlp.analyzeText userInput in
  let (h', updatedProfile) :=
    Profile.updateUserProfile h (userProfile currentState) textAnalysis userInput in
  let emotions := detectEmotions userInput in
  let isCrisis := detectCrisis userInput in
  let topics := extractTopics userInput in
  (h',
   {| dominantEmotions := emotions;
      recentTopics := firstn 3 (topics ++ recentTopics currentState)%list;
      approachUsed := selectApproach emotions;
      questionTypes := questionTypes currentState;
      sessionDepth := sessionDepth currentState + 1;
      crisisDetected := isCrisis;
      lastQuestionType := lastQuestionType currentState;
      userInsights := userInsights currentState;
      userProfile := updatedProfile;
      lastAnalysis := Some textAnalysis |}).

(** The session after a sequence of user turns, oldest first. *)
Definition runTurns (h : Heap) (s : TherapySessionState) (inputs : list string)
  : Heap * TherapySessionState :=
  fold_left (fun hs input => updateSessionState (fst hs) (snd hs) input)
            inputs (h, s).

(** *** The response orchestrator *)

Inductive MessageType : Type := entry | response_.

(** A [Message] of the conversation log; its [timestamp] and [analysis]
    are not read here. *)
Record Message : Type := { type : MessageType; text : string }.

Record Reply : Type := {
  response : string;
  updatedState : TherapySessionState
}.

Definition crisisResponse : string :=
  "I'm concerned about what you're sharing. If you're in immediate danger, please call 988 or 911, or text HOME to 741741 to reach the Crisis Text Line. Your safety is the top priority. Would it be helpful to talk about some immediate coping strategies or resources available to you right now?".

Definition listenText : string :=
  "I'm here to listen and support you. Could you tell me more about how you're feeling?".

(** [conversationHistory.slice(-10)] *)
Definition lastTen {A} (l : list A) : list A := skipn (length l - 10) l.

Definition toLlama (msg : Message) : Llama.LlamaMessage :=
  {| Llama.role := match type msg with
                   | entry => Llama.user
                   | response_ => Llama.assistant
                   end;
     Llama.content := text msg |}.

(** The [try] block of [generateTherapistResponse]. *)
Definition generateTherapistResponseTry (env : Llama.Env) (w : Llama.World)
    (userInput : string) (updatedState : TherapySessionState)
    (conversationHistory : list Message) : completion Reply * Llama.World :=
  let recentMessages := lastTen conversationHistory in
  let llamaMessages :=
    (map toLlama recentMessages
     ++ [ {| Llama.role := Llama.user; Llama.content := userInput |} ])%list in
  let systemPrompt := Llama.createTherapySystemPrompt in
  match Llama.sendLlamaRequest env w llamaMessages (Some systemPrompt) with
  | (Return response, w') =>
      (Return {| response := response; updatedState := updatedState |}, w')
  | (Throw e, w') => (Throw e, w')
  end.

Definition generateTherapistResponse (env : Llama.Env) (h : Heap)
    (w : Llama.World) (userInput : string) (sessionState : TherapySessionState)
    (conversationHistory : list Message)
  : completion Reply * Heap * Llama.World :=
  let (h', updatedState) := updateSessionState h sessionState userInput in
  if crisisDetected updatedState then
    (Return {| response := crisisResponse; updatedState := updatedState |}, h', w)
  else
    let (r, w') :=
      catch_ (generateTherapistResponseTry env w userInput updatedState
                conversationHistory)
             (fun _ w' =>
                (Return {| response := listenText; updatedState := updatedState |},
                 w')) in
    (r, h', w').

End Therapist.

(* ===================================================================== *)
(** ** therapistUtils: the resource selector *)
(* ===================================================================== *)

Module Resources.

Import Therapist.

Inductive ResourceType : Type :=
| quote | breathing | mindfulness | coping | resource.

(** A [Resource] object.  A property that was never set reads as
    [undefined], here [None]. *)
Record Resource : Type := {
  type : ResourceType;
  content : option string;
  title : option string;
  source : option string;
  url : option string
}.

Record HelpEntry : Type := {
  helpTitle : string;
  helpContent : string;
  helpUrl : string;
  helpContact : option string
}.

(** The draws of [Math.random], in the order they will be made. *)
Definition Rng : Type := nat -> Q.

Definition draw (rng : Rng) : Q * Rng := (rng 0%nat, fun n => rng (S n)).

(** [arr[Math.floor(r * arr.length)]] *)
Definition pick {A} (arr : list A) (r : Q) : option A :=
  let i := Qfloor (r * inject_Z (Z.of_nat (length arr))) in
  if (i <? 0)%Z then None else nth_error arr (Z.to_nat i).

(** The tables below are those of the source; characters outside ASCII
    stand as their UTF-8 bytes. *)

(** [generateQuote]: (content, source). *)
Definition quotes : list (string * string) :=
  [
    ("You don't have to control your thoughts. You just have to stop letting them control you.",
     "Dan Millman");
    ("You are not your illness. You have an individual story to tell. You have a name, a history, a personality. Staying yourself is part of the battle.",
     "Julian Seifter");
    ("There is hope, even when your brain tells you there isn't.",
     "John Green");
    ("Promise me you'll always remember: You're braver than you believe, stronger than you seem, and smarter than you think.",
     "A.A. Milne");
    ("You are not a drop in the ocean. You are the entire ocean in a drop.",
     "Rumi");
    ("The greatest glory in living lies not in never falling, but in rising every time we fall.",
     "Nelson Mandela");
    ("Your present circumstances don't determine where you can go; they merely determine where you start.",
     "Nido Qubein");
    ("Nothing is impossible. The word itself says 'I'm possible!'",
     "Audrey Hepburn");
    ("In the middle of difficulty lies opportunity.",
     "Albert Einstein");
    ("Self-care is not self-indulgence, it is self-preservation.",
     "Audre Lorde");
    ("You are allowed to take up space. You are allowed to have a voice. You are allowed to tell people how you feel.",
     "Megan Jayne Crabbe");
    ("The way I see it, if you want the rainbow, you gotta put up with the rain.",
     "Dolly Parton");
    ("Sometimes the bravest and most important thing you can do is just show up.",
     "Brené Brown");
    ("What mental health needs is more sunlight, more candor, and more unashamed conversation.",
     "Glenn Close");
    ("Happiness can be found even in the darkest of times, if one only remembers to turn on the light.",
     "J.K. Rowling") ].

(** [generateBreathingExercise]: (title, content). *)
Definition exercises : list (string * string) :=
  [
    ("4-7-8 Breathing",
     "Find a comfortable position. Inhale quietly through your nose for 4 seconds. Hold your breath for 7 seconds. Exhale completely through your mouth for 8 seconds, making a whoosh sound. Repeat this cycle 4 times.");
    ("Box Breathing",
     "Inhale slowly through your nose for 4 seconds. Hold your breath for 4 seconds. Exhale through your mouth for 4 seconds. Hold your breath for 4 seconds. Repeat this square pattern for 1-2 minutes.");
    ("Diaphragmatic Breathing",
     "Place one hand on your chest and the other on your abdomen. Breathe in slowly through your nose, feeling your abdomen expand (not your chest). Exhale slowly through pursed lips. Focus on the movement of your abdomen rather than your chest.");
    ("Alternate Nostril Breathing",
     "Use your right thumb to close your right nostril. Inhale deeply through your left nostril. Close your left nostril with your ring finger, release your thumb, and exhale through your right nostril. Inhale through your right nostril, then close it, and exhale through your left. Repeat for 5-10 cycles.");
    ("Calming Breath",
     "Breathe in through your nose for 3 seconds. Breathe out through your mouth for 6 seconds (twice as long as the inhale). Focus on making your exhale slow and controlled. Continue for 2-3 minutes.") ].

(** [generateMindfulnessPractice]: (title, content). *)
Definition practices : list (string * string) :=
  [
    ("Body Scan",
     "Find a comfortable position sitting or lying down. Close your eyes and bring awareness to your body. Starting from your toes and moving upward, notice any sensations, tension, or discomfort in each part of your body. Don't try to change anything—simply observe with curiosity and without judgment.");
    ("Five Senses Grounding",
     "Take a moment to notice: 5 things you can see, 4 things you can touch, 3 things you can hear, 2 things you can smell, and 1 thing you can taste. This exercise helps bring you back to the present moment when feeling overwhelmed.");
    ("Mindful Walking",
     "Take a slow, deliberate walk. Pay attention to the sensation of your feet touching the ground, the movement of your legs, and your breathing. Notice the environment around you—colors, sounds, smells—without getting caught up in thoughts about them.");
    ("Loving-Kindness Meditation",
     "Close your eyes and bring to mind someone you care about. Silently repeat: 'May you be happy. May you be healthy. May you be safe. May you live with ease.' Then direct these wishes toward yourself, and gradually extend them to others, including those you find difficult.");
    ("Mindful Eating",
     "Choose a small piece of food (like a raisin or piece of chocolate). Examine it as if you've never seen it before. Notice its color, texture, and smell. Place it in your mouth without chewing, noticing the sensations. Slowly chew, fully experiencing the taste and texture.");
    ("Thought Clouds",
     "Imagine your thoughts as clouds passing across the sky of your mind. Don't try to push them away or hold onto them—simply observe them forming and dissolving. Notice the space between thoughts, the clear blue sky that's always present.") ].

(** [generateCopingStrategy], [strategies.anxiety]: (title, content). *)
Definition strategies_anxiety : list (string * string) :=
  [
    ("Progressive Muscle Relaxation",
     "Tense and then release each muscle group in your body, starting from your toes and working up to your head. Hold the tension for 5 seconds, then release for 10 seconds, noticing the difference between tension and relaxation.");
    ("Worry Time",
     "Schedule a specific 15-30 minute period each day as your 'worry time.' When worries arise outside this time, note them down and postpone thinking about them until your designated worry time. This helps contain anxiety to a specific timeframe.");
    ("Grounding Techniques",
     "When anxiety spikes, focus on concrete details in your environment. Name 5 blue things you can see, 4 textures you can feel, 3 sounds you can hear, 2 things you can smell, and 1 thing you can taste.") ].

(** [generateCopingStrategy], [strategies.depression]: (title, content). *)
Definition strategies_depression : list (string * string) :=
  [
    ("Behavioral Activation",
     "Make a list of activities that typically bring you joy or satisfaction. Choose one small activity each day and complete it, even when motivation is low. Notice any positive feelings, however small, that result from taking action.");
    ("Gratitude Practice",
     "Each evening, write down three specific things you're grateful for from that day. They can be as simple as 'the warm sunshine' or 'the taste of my morning coffee.' This helps shift attention toward positive aspects of life.");
    ("Movement for Mood",
     "Commit to just 5 minutes of physical movement. Walk around your home, stretch, or dance to one song. Movement releases endorphins that can help lift your mood, even when done in small amounts.") ].

(** [generateCopingStrategy], [strategies.anger]: (title, content). *)
Definition strategies_anger : list (string * string) :=
  [
    ("Timeout Technique",
     "When you notice anger rising, give yourself permission to take a timeout. Remove yourself from the triggering situation for at least 20 minutes (the time it takes for stress hormones to dissipate) before responding.");
    ("Physical Release",
     "Channel the physical energy of anger into a constructive activity: go for a run, punch a pillow, tear up paper, or squeeze a stress ball. This helps discharge the bodily tension that accompanies anger.");
    ("Anger Journaling",
     "Write uncensored thoughts about what's making you angry. Include what happened, your thoughts about it, and the emotions underneath your anger (often hurt, fear, or disappointment). This helps process anger rather than acting on it impulsively.") ].

(** [generateCopingStrategy], [strategies.grief]: (title, content). *)
Definition strategies_grief : list (string * string) :=
  [
    ("Memory Box",
     "Create a special container to hold meaningful items connected to your loss. Include photos, letters, or objects that hold significance. This provides a tangible way to honor your connection while containing grief in a designated space.");
    ("Grief Journaling",
     "Write letters to the person or thing you've lost. Share your feelings, things you wish you'd said, or updates about your life. This maintains a sense of connection while acknowledging the reality of the loss.");
    ("Grief Rituals",
     "Create a simple ritual to honor your loss—light a candle, visit a meaningful place, play a special song, or cook a favorite meal. Rituals provide structure for expressing grief and commemorating what matters to you.") ].

(** [generateCopingStrategy], [strategies.neutral]: (title, content). *)
Definition strategies_neutral : list (string * string) :=
  [
    ("Values Reflection",
     "Take time to identify your core values—what matters most to you in life. Then reflect on one small action you could take today that aligns with these values. This builds a sense of meaning and purpose in everyday choices.");
    ("Mindful Moments",
     "Set reminders to take three mindful breaths throughout your day. During these brief pauses, simply notice your breath and bodily sensations, allowing yourself to fully arrive in the present moment before continuing your activities.");
    ("Strength Inventory",
     "Make a list of your personal strengths and resources—qualities, skills, supportive relationships, and past successes. Review this list regularly, especially when facing challenges, to remind yourself of your capacity for resilience.") ].

(** [generateMentalHealthResource]. *)
Definition resources : list HelpEntry :=
  [
    {| helpTitle := "Crisis Text Line";
       helpContent := "Free 24/7 text-based mental health support and crisis intervention";
       helpUrl := "https://www.crisistextline.org/";
       helpContact := (Some "Text HOME to 741741") |};
    {| helpTitle := "National Suicide Prevention Lifeline";
       helpContent := "Free and confidential support for people in distress";
       helpUrl := "https://988lifeline.org/";
       helpContact := (Some "Call or text 988") |};
    {| helpTitle := "SAMHSA's National Helpline";
       helpContent := "Treatment referral and information service for individuals facing mental health or substance use disorders";
       helpUrl := "https://www.samhsa.gov/find-help/national-helpline";
       helpContact := (Some "1-800-662-HELP (4357)") |};
    {| helpTitle := "Psychology Today Therapist Finder";
       helpContent := "Directory to find therapists, psychiatrists, treatment centers and support groups near you";
       helpUrl := "https://www.psychologytoday.com/us/therapists";
       helpContact := None |};
    {| helpTitle := "MentalHealth.gov";
       helpContent := "U.S. government information and resources on mental health";
       helpUrl := "https://www.mentalhealth.gov/";
       helpContact := None |};
    {| helpTitle := "National Alliance on Mental Illness (NAMI)";
       helpContent := "Nation's largest grassroots mental health organization dedicated to building better lives for Americans affected by mental illness";
       helpUrl := "https://www.nami.org/";
       helpContact := (Some "NAMI Helpline: 1-800-950-NAMI (6264)") |};
    {| helpTitle := "Headspace";
       helpContent := "Meditation and mindfulness app with exercises for stress, anxiety, sleep, and focus";
       helpUrl := "https://www.headspace.com/";
       helpContact := None |};
    {| helpTitle := "Calm";
       helpContent := "App for sleep, meditation and relaxation";
       helpUrl := "https://www.calm.com/";
       helpContact := None |};
    {| helpTitle := "7 Cups";
       helpContent := "Online therapy and free emotional support";
       helpUrl := "https://www.7cups.com/";
       helpContact := None |};
    {| helpTitle := "Talkspace";
       helpContent := "Online therapy platform connecting users with licensed therapists";
       helpUrl := "https://www.talkspace.com/";
       helpContact := None |} ].
(** [{ type: 'quote', ...quotes[i] }] : spreading [undefined] adds
    nothing. *)
Definition generateQuote (rng : Rng) : completion Resource :=
  let (r, _) := draw rng in
  match pick quotes r with
  | Some q =>
      Return {| type := quote; content := Some (fst q); title := None;
                source := Some (snd q); url := None |}
  | None =>
      Return {| type := quote; content := None; title := None;
                source := None; url := None |}
  end.

(** Reading [.content] of [undefined] throws. *)
Definition titled (t : ResourceType) (table : list (string * string))
    (rng : Rng) : completion Resource :=
  let (r, _) := draw rng in
  match pick table r with
  | Some e =>
      Return {| type := t; content := Some (snd e); title := Some (fst e);
                source := None; url := None |}
  | None => Throw TypeError
  end.

Definition generateBreathingExercise (rng : Rng) : completion Resource :=
  titled breathing exercises rng.

Definition generateMindfulnessPractice (rng : Rng) : completion Resource :=
  titled mindfulness practices rng.

(** [strategies[emotion]], absent for joy and confusion. *)
Definition strategies (emotion : EmotionCategory)
  : option (list (string * string)) :=
  match emotion with
  | anxiety => Some strategies_anxiety
  | depression => Some strategies_depression
  | anger => Some strategies_anger
  | grief => Some strategies_grief
  | neutral => Some strategies_neutral
  | joy | confusion => None
  end.

Definition generateCopingStrategy (emotion : option EmotionCategory)
    (rng : Rng) : completion Resource :=
  let table :=
    match emotion with
    | Some e => match strategies e with
                | Some t => t
                | None => strategies_neutral
                end
    | None => strategies_neutral
    end in
  titled coping table rng.

Definition generateMentalHealthResource (rng : Rng) : completion Resource :=
  let (r, _) := draw rng in
  match pick resources r with
  | Some e =>
      Return {| type := resource; content := Some (helpContent e);
                title := Some (helpTitle e); source := helpContact e;
                url := Some (helpUrl e) |}
  | None => Throw TypeError
  end.

Definition resourceTypes : list ResourceType :=
  [ quote; breathing; mindfulness; coping; resource ].

Definition qlt (a b : Q) : bool := negb (Qle_bool b a).

Definition selectAppropriateResource (sessionState : TherapySessionState)
    (messageCount : Z) (rng : Rng) : completion (option Resource) :=
  if (messageCount <? 3)%Z then Return None
  else if negb (Z.rem messageCount 6 =? 0)%Z then Return None
  else
    let dominantEmotion := hd neutral (dominantEmotions sessionState) in
    if crisisDetected sessionState then
      mapReturn Some (generateMentalHealthResource rng)
    else
      let (randomFactor, rng1) := draw rng in
      if emotionEqb dominantEmotion anxiety && qlt randomFactor 0.6 then
        let (r, rng2) := draw rng1 in
        mapReturn Some
          (if qlt r 0.5 then generateBreathingExercise rng2
           else generateMindfulnessPractice rng2)
      else if emotionEqb dominantEmotion depression && qlt randomFactor 0.6 then
        let (r, rng2) := draw rng1 in
        mapReturn Some
          (if qlt r 0.5 then generateCopingStrategy (Some depression) rng2
           else generateQuote rng2)
      else if emotionEqb dominantEmotion anger && qlt randomFactor 0.6 then
        let (r, rng2) := draw rng1 in
        mapReturn Some
          (if qlt r 0.5 then generateBreathingExercise rng2
           else generateCopingStrategy (Some anger) rng2)
      else if emotionEqb dominantEmotion grief && qlt randomFactor 0.6 then
        mapReturn Some (generateCopingStrategy (Some grief) rng1)
      else
        let (r, rng2) := draw rng1 in
        mapReturn Some
          match pick resourceTypes r with
          | Some quote => generateQuote rng2
          | Some breathing => generateBreathingExercise rng2
          | Some mindfulness => generateMindfulnessPractice rng2
          | Some coping => generateCopingStrategy (Some dominantEmotion) rng2
          | Some resource => generateMentalHealthResource rng2
          | None => generateQuote rng2
          end.

End Resources.

(* ===================================================================== *)
(** ** useConversation: the typing delay *)
(* ===================================================================== *)

Module Conversation.


End Conversation.

(* ===================================================================== *)
(** ** therapistUtils: the greeting, the resource text, the question *)
(* ===================================================================== *)

Module Greeting.

Definition fallbackGreeting : string :=
  "Hello, I'm your AI Therapy Assistant. I'm here to listen and support you. How are you feeling today?".

Definition initialMessage : Llama.LlamaMessage :=
  {| Llama.role := Llama.user;
     Llama.content := "Hello, I would like to start a therapy session." |}.

(** [getInitialGreeting] *)
Definition getInitialGreeting (env : Llama.Env) (w : Llama.World)
  : completion string * Llama.World :=
  catch_ (Llama.sendLlamaRequest env w [initialMessage]
            (Some Llama.createTherapySystemPrompt))
         (fun _ w' => (Return fallbackGreeting, w')).

End Greeting.

Module Format.

Import Resources.

Definition dquote : string := String (ascii_of_nat 34) EmptyString.

(** A property inside a template literal: [undefined] prints as such. *)
Definition shown (o : option string) : string :=
  match o with Some s => s | None => "undefined" end.

(** [formatResourceForMessage]; the argument may be null. *)
Definition formatResourceForMessage (r : option Resource) : string :=
  match r with
  | None => ""
  | Some res =>
      match type res with
      | quote =>
          dquote ++ shown (content res) ++ dquote ++ " - " ++ shown (source res)
      | breathing => "Breathing Exercise: " ++ shown (content res)
      | mindfulness =>
          "Mindfulness Practice - " ++ shown (title res) ++ ":" ++ Llama.nl
          ++ shown (content res)
      | coping =>
          "Coping Strategy - " ++ shown (title res) ++ ":" ++ Llama.nl
          ++ shown (content res)
      | resource =>
          "Resource: " ++ shown (title res) ++ " - " ++ shown (content res)
          ++ Llama.nl
          ++ (if Llama.truthy (url res)
              then "Website: " ++ shown (url res) else "")
          ++ (if Llama.truthy (source res)
              then Llama.nl ++ "Contact: " ++ shown (source res) else "")
      end
  end.

End Format.

Module Question.

Import Therapist.

Definition crisisQuestion : string :=
  "I'm concerned about what you're sharing. Would you be willing to reach out to a crisis helpline right now? The National Suicide Prevention Lifeline is available 24/7 at 988 or 1-800-273-8255. Would it be okay if we focused on keeping you safe right now?".

Definition defaultQuestion : string :=
  "What feels most important for us to explore today?".

Definition questionTypes : list string :=
  [ "emotion-exploration"; "thought-patterns"; "coping-strategies";
    "values-exploration"; "behavioral-patterns"; "future-oriented";
    "meaning-making"; "social-support"; "self-compassion" ].

(** [availableTypes[Math.floor(Math.random() * availableTypes.length)]],
    where [availableTypes] are the types other than the last one used. *)
Definition chooseQuestionType (sessionState : TherapySessionState)
    (rng : Resources.Rng) : option string :=
  let availableTypes :=
    List.filter (fun t => negb (String.eqb t (lastQuestionType sessionState)))
                questionTypes in
  Resources.pick availableTypes (fst (Resources.draw rng)).

(** [questionType === t], where [questionType] may be undefined. *)
Definition isType (questionType : option string) (t : string) : bool :=
  match questionType with Some q => String.eqb q t | None => false end.

(** [latestTopic === t], where [latestTopic] may be null. *)
Definition isTopic (latestTopic : option string) (t : string) : bool :=
  match latestTopic with Some q => String.eqb q t | None => false end.

(** The [switch] on the question type. *)
Definition questionFor (questionType : option string)
    (latestEmotion : EmotionCategory) (latestTopic : option string) : string :=
  if isType questionType "emotion-exploration" then
    match latestEmotion with
    | anxiety => "When you notice this anxiety rising, where do you feel it in your body? What sensations are present?"
    | depression => "When these feelings of sadness come up, what thoughts typically accompany them?"
    | anger => "Underneath this anger, are there other emotions present that might be harder to access?"
    | grief => "What aspects of this loss feel most difficult to process right now?"
    | joy => "What does this moment of joy teach you about what matters most to you?"
    | confusion => "When you sit with this uncertainty, what possibilities start to emerge?"
    | neutral => "What emotions have been most present for you lately?"
    end
  else if isType questionType "thought-patterns" then
    if isTopic latestTopic "work" then
      "What expectations do you hold about your work that might be contributing to how you're feeling?"
    else if isTopic latestTopic "relationships" || isTopic latestTopic "family" then
      "Are there any recurring thoughts or assumptions about relationships that might be influencing your perspective?"
    else if isTopic latestTopic "self-esteem" then
      "If you were to write down the core beliefs you hold about yourself, what would they be?"
    else
      "Have you noticed any patterns in your thinking that seem to intensify difficult emotions?"
  else if isType questionType "coping-strategies" then
    match latestEmotion with
    | anxiety => "When anxiety feels overwhelming, what strategies have you found most helpful for grounding yourself?"
    | depression => "On days when motivation is low, what small actions have helped you move forward?"
    | _ => "What has helped you navigate similar situations or feelings in the past?"
    end
  else if isType questionType "values-exploration" then
    if isTopic latestTopic "work" then
      "What aspects of your work align with your personal values, and where do you feel disconnection?"
    else if isTopic latestTopic "relationships" then
      "In your relationships, what qualities do you value most?"
    else
      "What matters most to you in this situation? What core values are guiding you?"
  else if isType questionType "behavioral-patterns" then
    "How do these feelings typically influence your actions? What patterns have you noticed?"
  else if isType questionType "future-oriented" then
    "If you were to imagine this situation resolved in a way that feels right to you, what would that look like?"
  else if isType questionType "meaning-making" then
    "How has this experience shaped your understanding of yourself or your life?"
  else if isType questionType "social-support" then
    "Who in your life helps you feel understood and supported? How might they be able to support you now?"
  else if isType questionType "self-compassion" then
    "What would you say to a friend facing a similar situation? Could you offer yourself the same kindness?"
  else defaultQuestion.

(** [generateTherapeuticQuestion] *)
Definition generateTherapeuticQuestion (sessionState : TherapySessionState)
    (latestEmotion : EmotionCategory) (latestTopic : option string)
    (rng : Resources.Rng) : string :=
  if crisisDetected sessionState then crisisQuestion
  else questionFor (chooseQuestionType sessionState rng) latestEmotion latestTopic.

End Question.

(* ===================================================================== *)
(** ** nlpUtils: entities *)
(* ===================================================================== *)

Module Entities.

Inductive EntityType : Type :=
| PERSON | LOCATION | ORGANIZATION | EVENT | DATE | CONSUMER_GOOD | OTHER.

(** An [EntityAnalysis]; [mentions] is a counter that starts at 1. *)
Record EntityAnalysis : Type := {
  name : string;
  type : EntityType;
  salience : num;
  mentions : nat
}.

Definition isUpperAZ (c : ascii) : bool :=
  let n := nat_of_ascii c in Nat.leb 65 n && Nat.leb n 90.

Definition isLowerAZ (c : ascii) : bool :=
  let n := nat_of_ascii c in Nat.leb 97 n && Nat.leb n 122.

Fixpoint allLower (s : string) : bool :=
  match s with
  | EmptyString => true
  | String c s' => isLowerAZ c && allLower s'
  end.

(** A whole word of the form [[A-Z][a-z]+]. *)
Definition isProperNoun (w : string) : bool :=
  match w with
  | EmptyString => false
  | String c rest => isUpperAZ c && negb (isEmpty rest) && allLower rest
  end.

(** [text.match(/\b[A-Z][a-z]+\b/g) || []] : a match starts at the start
    of a maximal run of word characters and ends at its end, so the
    matches are the words of the text that have that form. *)
Definition properNouns (text : string) : list string :=
  List.filter isProperNoun (matchWords text).

Definition mentionedAgain (e : EntityAnalysis) : EntityAnalysis :=
  {| name := name e; type := type e;
     salience := min (add (salience e) (Fin 0.1)) (Fin 1);
     mentions := S (mentions e) |}.

(** [entities.find(...)] and what follows it: the first entity whose name
    is the noun up to letter case is counted once more, in place; with
    none, a new entity is pushed. *)
Fixpoint recordNoun (noun : string) (entities : list EntityAnalysis)
  : list EntityAnalysis :=
  match entities with
  | [] => [ {| name := noun; type := PERSON; salience := Fin 0.5; mentions := 1 |} ]
  | e :: rest =>
      if String.eqb (toLowerCase (name e)) (toLowerCase noun)
      then mentionedAgain e :: rest
      else e :: recordNoun noun rest
  end.

(** One round of [properNouns.forEach]. *)
Definition noteNoun (entities : list EntityAnalysis) (noun : string)
  : list EntityAnalysis :=
  if Nat.ltb 1 (String.length noun) then recordNoun noun entities else entities.

(** [entities.sort((a, b) => b.mentions - a.mentions)] : the sort is
    stable, so the entities come by mentions, larger first, and those
    with equal mentions in the order of the array. *)
Fixpoint insertByMentions (e : EntityAnalysis) (sorted : list EntityAnalysis)
  : list EntityAnalysis :=
  match sorted with
  | [] => [e]
  | y :: ys =>
      if Nat.ltb (mentions e) (mentions y) then y :: insertByMentions e ys
      else e :: y :: ys
  end.

Definition sortByMentions (entities : list EntityAnalysis) : list EntityAnalysis :=
  fold_right insertByMentions [] entities.

(** [extractEntities]; its word-frequency table is filled and never
    read. *)
Definition extractEntities (text : string) : list EntityAnalysis :=
  let entities := fold_left noteNoun (properNouns text) [] in
  firstn 5 (sortByMentions entities).

End Entities.

(* ===================================================================== *)
(** ** nlpUtils: key phrases *)
(* ===================================================================== *)

Module KeyPhrases.

Import Resources.

Record KeyPhraseAnalysis : Type := {
  phrase : string;
  score : num
}.

(** [s.trim()] : white space is taken off both ends. *)
Fixpoint trimStart (s : string) : string :=
  match s with
  | EmptyString => EmptyString
  | String c s' => if isSpace c then trimStart s' else s
  end.

Fixpoint trimEnd (s : string) : string :=
  match s with
  | EmptyString => EmptyString
  | String c s' =>
      let t := trimEnd s' in
      if isEmpty t && isSpace c then EmptyString else String c t
  end.

Definition trim (s : string) : string := trimEnd (trimStart s).

(** One round of [sentences.forEach]: a sentence of three to ten tokens is
    pushed with a score drawn from [0.5, 0.8). *)
Definition considerSentence (state : list KeyPhraseAnalysis * Rng)
    (sentence : string) : list KeyPhraseAnalysis * Rng :=
  let (phrases, rng) := state in
  let words := splitRuns isSpace (trim sentence) in
  if Nat.leb 3 (length words) && Nat.leb (length words) 10 then
    let (r, rng') := draw rng in
    ((phrases ++ [ {| phrase := trim sentence;
                      score := add (Fin 0.5) (mul (Fin r) (Fin 0.3)) |} ])%list,
     rng')
  else state.

(** [phrases.sort((a, b) => b.score - a.score)] : stable, larger score
    first. *)
Fixpoint insertByScore (e : KeyPhraseAnalysis) (sorted : list KeyPhraseAnalysis)
  : list KeyPhraseAnalysis :=
  match sorted with
  | [] => [e]
  | y :: ys =>
      if lt (score e) (score y) then y :: insertByScore e ys
      else e :: y :: ys
  end.

Definition sortByScore (phrases : list KeyPhraseAnalysis) : list KeyPhraseAnalysis :=
  fold_right insertByScore [] phrases.

(** [extractKeyPhrases], with the draws that are left. *)
Definition extractKeyPhrases (text : string) (rng : Rng)
  : list KeyPhraseAnalysis * Rng :=
  let sentences := List.filter trimNonEmpty (splitRuns isTerminator text) in
  let (phrases, rng') := fold_left considerSentence sentences ([], rng) in
  (firstn 3 (sortByScore phrases), rng').

End KeyPhrases.

(* ===================================================================== *)
(** ** apiUtils: the exercises, strategies and resources added to a reply *)
(* ===================================================================== *)

Module Enhance.

Import Therapist.

Record MeditationExercise : Type := {
  exerciseName : string;
  exerciseDescription : string;
  duration : string;
  exerciseCategory : string
}.

Record CopingStrategy : Type := {
  strategy : string;
  strategyDescription : string;
  strategyCategory : string
}.

Record MentalHealthResource : Type := {
  resourceName : string;
  resourceDescription : string;
  url : option string;
  phone : option string;
  resourceCategory : string
}.

(** The texts of [getBreathingExercise]. *)
Definition breathing_anxiety : string :=
  "Try this 4-7-8 breathing technique: Inhale quietly through your nose for 4 seconds, hold your breath for 7 seconds, then exhale completely through your mouth for 8 seconds. Repeat 4 times.".

Definition breathing_stress : string :=
  "Practice box breathing: Inhale for 4 counts, hold for 4 counts, exhale for 4 counts, hold for 4 counts. Visualize tracing a square as you breathe. Continue for 2 minutes.".

Definition breathing_anger : string :=
  "Try this cooling breath: Inhale deeply through your nose, then exhale slowly through your mouth as if you're blowing through a straw. Feel the heat leaving your body with each exhale. Repeat 6 times.".

Definition breathing_sadness : string :=
  "Practice this grounding breath: Place one hand on your chest and one on your belly. Breathe deeply into your belly for 5 seconds, hold briefly, then exhale for 6 seconds. Continue for 3 minutes.".

Definition breathing_default : string :=
  "Take a moment for a simple breathing exercise: Breathe in slowly through your nose for 5 seconds, then out through your mouth for 5 seconds. Notice how your body feels as you breathe. Continue for 1 minute.".

(** The table of [getMindfulnessExercise]. *)
Definition exercises_grounding : list MeditationExercise :=
  [
    {| exerciseName := "5-4-3-2-1 Technique";
       exerciseDescription := "Notice 5 things you can see, 4 things you can touch, 3 things you can hear, 2 things you can smell, and 1 thing you can taste. This helps bring you back to the present moment.";
       duration := "3-5 minutes";
       exerciseCategory := "grounding" |};
    {| exerciseName := "Body Scan";
       exerciseDescription := "Starting from your toes and moving up to your head, pay attention to each part of your body, noticing any sensations without judgment.";
       duration := "5-10 minutes";
       exerciseCategory := "grounding" |} ].

Definition exercises_anxiety : list MeditationExercise :=
  [
    {| exerciseName := "Mindful Breathing";
       exerciseDescription := "Focus your attention on your breath. Notice the sensation of air flowing in and out of your body. When your mind wanders, gently bring it back to your breath.";
       duration := "5-10 minutes";
       exerciseCategory := "anxiety" |};
    {| exerciseName := "Worry Time";
       exerciseDescription := "Set aside 10 minutes to write down all your worries. When the time is up, put the list away and remind yourself that you've given your worries attention and can now focus on other things.";
       duration := "10 minutes";
       exerciseCategory := "anxiety" |} ].

Definition exercises_depression : list MeditationExercise :=
  [
    {| exerciseName := "Gratitude Practice";
       exerciseDescription := "Write down or mentally note three things you're grateful for today, no matter how small. Try to find new things each day.";
       duration := "5 minutes";
       exerciseCategory := "depression" |};
    {| exerciseName := "Pleasant Activity Scheduling";
       exerciseDescription := "Choose one small activity that usually brings you joy and commit to doing it today, even if you don't feel motivated. Notice any positive feelings that arise.";
       duration := "varies";
       exerciseCategory := "depression" |} ].

Definition exercises_sleep : list MeditationExercise :=
  [
    {| exerciseName := "Progressive Muscle Relaxation";
       exerciseDescription := "Tense and then release each muscle group in your body, starting from your toes and working up to your head. Hold each tension for 5 seconds, then release and notice the relaxation.";
       duration := "10-15 minutes";
       exerciseCategory := "sleep" |};
    {| exerciseName := "Bedtime Body Scan";
       exerciseDescription := "Lying in bed, bring awareness to each part of your body from toes to head, consciously relaxing each area as you go.";
       duration := "10 minutes";
       exerciseCategory := "sleep" |} ].

Definition exercises_general : list MeditationExercise :=
  [
    {| exerciseName := "Mindful Observation";
       exerciseDescription := "Choose an object in your environment and focus all your attention on it for two minutes. Notice its colors, textures, shapes, and other qualities without judgment.";
       duration := "2-3 minutes";
       exerciseCategory := "general" |};
    {| exerciseName := "Three Mindful Breaths";
       exerciseDescription := "Pause what you're doing and take three slow, deep breaths. Focus completely on the sensation of breathing, letting go of thoughts with each exhale.";
       duration := "1 minute";
       exerciseCategory := "general" |} ].

Definition exercises_table : list (string * list MeditationExercise) :=
  [ ("grounding", exercises_grounding);
    ("anxiety", exercises_anxiety);
    ("depression", exercises_depression);
    ("sleep", exercises_sleep);
    ("general", exercises_general) ].

(** The table of [getCopingStrategy]. *)
Definition strategies_anxiety : list CopingStrategy :=
  [
    {| strategy := "Grounding Technique";
       strategyDescription := "Find 5 things you can see, 4 things you can touch, 3 things you can hear, 2 things you can smell, and 1 thing you can taste.";
       strategyCategory := "anxiety" |};
    {| strategy := "Worry Box";
       strategyDescription := "Write down your worries on paper, put them in a box, and set a specific time to review them later. This helps contain anxiety to a specific time.";
       strategyCategory := "anxiety" |} ].

Definition strategies_depression : list CopingStrategy :=
  [
    {| strategy := "Behavioral Activation";
       strategyDescription := "Choose one small activity that you used to enjoy and do it today, even if you don't feel motivated. Notice how your mood shifts afterward.";
       strategyCategory := "depression" |};
    {| strategy := "Achievement Journal";
       strategyDescription := "Each evening, write down three things you accomplished today, no matter how small. This helps counter negative thoughts about self-worth.";
       strategyCategory := "depression" |} ].

Definition strategies_anger : list CopingStrategy :=
  [
    {| strategy := "Time-Out";
       strategyDescription := "When you feel anger rising, give yourself permission to take a 10-minute break before responding. Use this time to cool down and gather your thoughts.";
       strategyCategory := "anger" |};
    {| strategy := "Physical Release";
       strategyDescription := "Channel anger energy into a physical activity like brisk walking, running, or even tearing up paper. Physical movement helps process the emotion.";
       strategyCategory := "anger" |} ].

Definition strategies_grief : list CopingStrategy :=
  [
    {| strategy := "Memory Box";
       strategyDescription := "Create a special box or digital folder for mementos that remind you of what you've lost. Visit it when you want to connect with those memories.";
       strategyCategory := "grief" |};
    {| strategy := "Grief Journaling";
       strategyDescription := "Write a letter to the person, opportunity, or thing you've lost. Express your feelings openly without judgment.";
       strategyCategory := "grief" |} ].

Definition strategies_general : list CopingStrategy :=
  [
    {| strategy := "Self-Compassion Break";
       strategyDescription := "When struggling, place your hand on your heart and say: 'This is a moment of suffering. Suffering is part of life. May I be kind to myself in this moment.'";
       strategyCategory := "general" |};
    {| strategy := "Values Reflection";
       strategyDescription := "Take a moment to reflect on what matters most to you. Choose one small action aligned with your values that you can take today.";
       strategyCategory := "general" |} ].

Definition strategies_table : list (string * list CopingStrategy) :=
  [ ("anxiety", strategies_anxiety);
    ("depression", strategies_depression);
    ("anger", strategies_anger);
    ("grief", strategies_grief);
    ("general", strategies_general) ].

(** The table of [getMentalHealthResource]. *)
Definition resources_crisis : list MentalHealthResource :=
  [
    {| resourceName := "National Suicide Prevention Lifeline";
       resourceDescription := "24/7, free and confidential support for people in distress, prevention and crisis resources.";
       url := Some "https://suicidepreventionlifeline.org";
       phone := Some "988 or 1-800-273-8255";
       resourceCategory := "crisis" |};
    {| resourceName := "Crisis Text Line";
       resourceDescription := "Free 24/7 support for those in crisis. Text with a trained crisis counselor.";
       url := Some "https://www.crisistextline.org";
       phone := Some "Text HOME to 741741";
       resourceCategory := "crisis" |} ].

Definition resources_anxiety : list MentalHealthResource :=
  [
    {| resourceName := "Anxiety and Depression Association of America";
       resourceDescription := "Information, resources, and support for anxiety disorders.";
       url := Some "https://adaa.org";
       phone := None;
       resourceCategory := "anxiety" |};
    {| resourceName := "MindShift App";
       resourceDescription := "Free app with strategies to deal with anxiety, including tools for relaxation and developing more helpful ways of thinking.";
       url := Some "https://www.anxietycanada.com/resources/mindshift-cbt";
       phone := None;
       resourceCategory := "anxiety" |} ].

Definition resources_depression : list MentalHealthResource :=
  [
    {| resourceName := "Depression and Bipolar Support Alliance";
       resourceDescription := "Support groups, education, and tools for depression and bipolar disorder.";
       url := Some "https://www.dbsalliance.org";
       phone := None;
       resourceCategory := "depression" |};
    {| resourceName := "7 Cups";
       resourceDescription := "Free emotional support through online chat with trained listeners.";
       url := Some "https://www.7cups.com";
       phone := None;
       resourceCategory := "depression" |} ].

Definition resources_general : list MentalHealthResource :=
  [
    {| resourceName := "Mental Health America";
       resourceDescription := "Tools, screening, information, and resources for various mental health concerns.";
       url := Some "https://www.mhanational.org";
       phone := None;
       resourceCategory := "general" |};
    {| resourceName := "NAMI (National Alliance on Mental Illness)";
       resourceDescription := "Education, support groups, and resources for individuals and families affected by mental illness.";
       url := Some "https://www.nami.org";
       phone := None;
       resourceCategory := "general" |} ].

Definition resources_table : list (string * list MentalHealthResource) :=
  [ ("crisis", resources_crisis);
    ("anxiety", resources_anxiety);
    ("depression", resources_depression);
    ("general", resources_general) ].

(** [getBreathingExercise] *)
Definition getBreathingExercise (emotion : string) : string :=
  let lowerEmotion := toLowerCase emotion in
  if includes lowerEmotion "anx" then breathing_anxiety
  else if includes lowerEmotion "stress" then breathing_stress
  else if includes lowerEmotion "anger" || includes lowerEmotion "frustrat"
  then breathing_anger
  else if includes lowerEmotion "sad" || includes lowerEmotion "depress"
  then breathing_sadness
  else breathing_default.

(** [table[key] || general]: an array is truthy, also an empty one. *)
Definition tableAt {A} (table : list (string * list A)) (key : string)
    (general : list A) : list A :=
  match Entries.get key table with
  | Some entries => entries
  | None => general
  end.

(** The [categoryKey] of [getMindfulnessExercise]. *)
Definition exerciseKey (category : string) : string :=
  let lowerCategory := toLowerCase category in
  if includes lowerCategory "ground" then "grounding"
  else if includes lowerCategory "anx" then "anxiety"
  else if includes lowerCategory "depress" || includes lowerCategory "sad"
  then "depression"
  else if includes lowerCategory "sleep" then "sleep"
  else "general".

(** [getMindfulnessExercise]; an index outside the array reads as
    [undefined], here [None]. *)
Definition getMindfulnessExercise (category : string) (rng : Resources.Rng)
  : option MeditationExercise :=
  let categoryExercises :=
    tableAt exercises_table (exerciseKey category) exercises_general in
  let (r, _) := Resources.draw rng in
  Resources.pick categoryExercises r.

(** The [emotionKey] of [getCopingStrategy]. *)
Definition strategyKey (emotion : string) : string :=
  let lowerEmotion := toLowerCase emotion in
  if includes lowerEmotion "anx" then "anxiety"
  else if includes lowerEmotion "depress" || includes lowerEmotion "sad"
  then "depression"
  else if includes lowerEmotion "anger" || includes lowerEmotion "mad"
          || includes lowerEmotion "frustrat"
  then "anger"
  else if includes lowerEmotion "grief" || includes lowerEmotion "loss"
  then "grief"
  else "general".

(** [getCopingStrategy] *)
Definition getCopingStrategy (emotion : string) (rng : Resources.Rng)
  : option CopingStrategy :=
  let emotionStrategies :=
    tableAt strategies_table (strategyKey emotion) strategies_general in
  let (r, _) := Resources.draw rng in
  Resources.pick emotionStrategies r.

(** The [categoryKey] of [getMentalHealthResource]. *)
Definition resourceKey (category : string) : string :=
  let lowerCategory := toLowerCase category in
  if includes lowerCategory "crisis" || includes lowerCategory "suicid"
  then "crisis"
  else if includes lowerCategory "anx" then "anxiety"
  else if includes lowerCategory "depress" then "depression"
  else "general".

(** [getMentalHealthResource] *)
Definition getMentalHealthResource (category : string) (rng : Resources.Rng)
  : option MentalHealthResource :=
  let categoryResources :=
    tableAt resources_table (resourceKey category) resources_general in
  let (r, _) := Resources.draw rng in
  Resources.pick categoryResources r.

(** What the quote service answers to the one request of
    [fetchInspirationalQuote]: the request fails, or a response arrives
    whose body is not JSON, is [null], or is an object, of which the
    properties [content] and [author] are read. *)
Inductive QuoteBody : Type :=
| NotJson
| JsonNull
| JsonObject (content author : option string).

Inductive QuoteFetch : Type :=
| Rejected
| Responded (ok : bool) (body : QuoteBody).

Record QuoteResponse : Type := {
  content : option string;
  author : option string
}.

(** [fetchInspirationalQuote]: every failure ends as [null]. *)
Definition fetchInspirationalQuote (api : QuoteFetch) : option QuoteResponse :=
  match api with
  | Rejected => None
  | Responded false _ => None
  | Responded true NotJson => None
  | Responded true JsonNull => None
  | Responded true (JsonObject c a) => Some {| content := c; author := a |}
  end.

(** The second argument of [enhanceResponseWithExternalData], typed [any]:
    an emotion string, a session state, a user profile, or none of them
    ([null], [undefined]). *)
Inductive Subject : Type :=
| OfEmotion (emotion : string)
| OfSession (sessionState : TherapySessionState)
| OfProfile (h : Heap) (profile : UserProfile)
| NoSubject.

(** Its third argument, typed [any]: a boolean, a string, or neither. *)
Inductive Flag : Type :=
| OfBoolean (b : bool)
| OfTopic (topic : string)
| NoFlag.

Definition emotionName (e : EmotionCategory) : string :=
  match e with
  | anxiety => "anxiety"
  | depression => "depression"
  | anger => "anger"
  | grief => "grief"
  | joy => "joy"
  | confusion => "confusion"
  | neutral => "neutral"
  end.

(** [Object.keys(concerns).includes(key)] *)
Definition hasKey (d : gmap string num) (key : string) : bool :=
  match d !! key with Some _ => true | None => false end.

(** The first block of [enhanceResponseWithExternalData]: the values of
    [emotion] and [isCrisis] after the second argument was looked at. *)
Definition readSubject (userProfile : Subject) : string * bool :=
  match userProfile with
  | OfEmotion emotion => (emotion, false)
  | OfSession s =>
      match dominantEmotions s with
      | e :: _ => (emotionName e, crisisDetected s)
      | [] => ("neutral", false)
      end
  | OfProfile h p =>
      let concerns := dictAt h (Store.concerns p) in
      if hasKey concerns "anxiety" then ("anxiety", false)
      else if hasKey concerns "sadness" then ("depression", false)
      else if hasKey concerns "anger" then ("anger", false)
      else ("neutral", false)
  | NoSubject => ("neutral", false)
  end.

(** The second block: the value of [isCrisis] after the third argument. *)
Definition readFlag (topicOrCrisis : Flag) (isCrisis : bool) : bool :=
  match topicOrCrisis with
  | OfBoolean b => b
  | OfTopic topic => if String.eqb topic "crisis" then true else isCrisis
  | NoFlag => isCrisis
  end.

Definition nl2 : string := Llama.nl ++ Llama.nl.

(** The text returned for a crisis. *)
Definition crisisText (baseResponse : string) (res : MentalHealthResource)
  : string :=
  baseResponse ++ nl2 ++ "Resource: " ++ resourceName res ++ " - "
  ++ resourceDescription res ++ " "
  ++ (if Llama.truthy (phone res)
      then "Contact: " ++ Format.shown (phone res) else EmptyString)
  ++ " "
  ++ (if Llama.truthy (url res)
      then "Website: " ++ Format.shown (url res) else EmptyString).

(** The body of the [try]: [Return (Some text)] is a [return] inside the
    [switch], [Return None] is leaving the [switch] without one. *)
Definition enhancement (baseResponse emotion : string) (api : QuoteFetch)
    (rng : Resources.Rng) : completion (option string) :=
  let (r, rng1) := Resources.draw rng in
  let enhancementType := Qfloor (r * 5) in
  if (enhancementType =? 0)%Z then
    match fetchInspirationalQuote api with
    | Some quote =>
        Return (Some (baseResponse ++ nl2 ++ Format.dquote
                      ++ Format.shown (content quote) ++ Format.dquote
                      ++ " - " ++ Format.shown (author quote)))
    | None => Return None
    end
  else if (enhancementType =? 1)%Z then
    Return (Some (baseResponse ++ nl2 ++ "Breathing Exercise: "
                  ++ getBreathingExercise emotion))
  else if (enhancementType =? 2)%Z then
    match getMindfulnessExercise emotion rng1 with
    | Some practice =>
        Return (Some (baseResponse ++ nl2 ++ "Mindfulness Practice - "
                      ++ exerciseName practice ++ ": "
                      ++ exerciseDescription practice
                      ++ " (" ++ duration practice ++ ")"))
    | None => Throw TypeError
    end
  else if (enhancementType =? 3)%Z then
    match getCopingStrategy emotion rng1 with
    | Some s =>
        Return (Some (baseResponse ++ nl2 ++ "Coping Strategy - "
                      ++ strategy s ++ ": " ++ strategyDescription s))
    | None => Throw TypeError
    end
  else if (enhancementType =? 4)%Z then
    match getMentalHealthResource emotion rng1 with
    | Some res =>
        Return (Some (baseResponse ++ nl2 ++ "Resource: " ++ resourceName res
                      ++ " - " ++ resourceDescription res ++ " "
                      ++ (if Llama.truthy (url res)
                          then Llama.nl ++ "Website: " ++ Format.shown (url res)
                          else EmptyString)))
    | None => Throw TypeError
    end
  else Return None.

(** [enhanceResponseWithExternalData].  The crisis branch stands before
    the [try]; what is thrown inside the [try] is caught. *)
Definition enhanceResponseWithExternalData (baseResponse : string)
    (userProfile : Subject) (topicOrCrisis : Flag) (api : QuoteFetch)
    (rng : Resources.Rng) : completion string :=
  let (emotion, isCrisis) := readSubject userProfile in
  let isCrisis := readFlag topicOrCrisis isCrisis in
  if isCrisis then
    match getMentalHealthResource "crisis" rng with
    | Some res => Return (crisisText baseResponse res)
    | None => Throw TypeError
    end
  else
    match enhancement baseResponse emotion api rng with
    | Return (Some text) => Return text
    | Return None => Return baseResponse
    | Throw _ => Return baseResponse
    end.

End Enhance.

(* ===================================================================== *)
(** ** Predicates used in the statements *)
(* ===================================================================== *)

(** [sub] occurs in [s]: [s] is [pre ++ sub ++ post]. *)
Definition occursIn (sub s : string) : Prop :=
  exists pre post : string, s = pre ++ sub ++ post.

(** Finite and not negative. *)
Definition nonNegative (a : num) : Prop :=
  match a with Fin x => (0 <= x)%Q | _ => False end.

(** While [detectEmotions] counts the words of category [emotion], the
    intensity of that category may pass 1; every other one is final. *)
Definition countingFor (emotion : string) (kv : string * num) : Prop :=
  if String.eqb (fst kv) emotion then nonNegative (snd kv)
  else within 0 1 (snd kv).

Definition settled (kv : string * num) : Prop := within 0 1 (snd kv).

(** Neither an infinity nor [NaN]. *)
Definition finite (a : num) : Prop := exists x : Q, a = Fin x.

(** How many of the [words] occur in the lower-cased text. *)
Definition occurrences (lowerText : string) (words : list string) : nat :=
  length (List.filter (includes lowerText) words).

(** The keywords of an emotion category of [detectEmotions]. *)
Definition keywordsOf (emotion : string) : list string :=
  default [] (Entries.get emotion Nlp.emotionWords).

(** The substrings that [detectEmotions] of the session takes for grief. *)
Definition griefIndicators : list string :=
  [ "grief"; "loss"; "miss"; "gone"; "died"; "death" ].

(** At least three keywords of the category occur in the lower-cased
    text. *)
Definition threeKeywords (emotion text : string) : Prop :=
  (3 <= occurrences (toLowerCase text) (keywordsOf emotion))%nat.

(** Store [h'] differs from [h] at most in what [updateUserProfile] may
    write for profile [p]: three style axes and three traits of the
    profile's own objects, its interests and concerns, and its array of
    discussed topics. *)
Definition touchesOnly (p : UserProfile) (h h' : Heap) : Prop :=
  (forall l, historyAt h' l = historyAt h l)
  /\ (forall l, conscientiousness (traitsAt h' l) = conscientiousness (traitsAt h l)
                /\ neuroticism (traitsAt h' l) = neuroticism (traitsAt h l))
  /\ (forall l, concrete (styleAt h' l) = concrete (styleAt h l)
                /\ abstract_ (styleAt h' l) = abstract_ (styleAt h l))
  /\ (forall l, l <> personalityTraits p -> traitsAt h' l = traitsAt h l)
  /\ (forall l, l <> communicationStyle p -> styleAt h' l = styleAt h l)
  /\ (forall l, l <> interests p -> l <> concerns p -> dictAt h' l = dictAt h l)
  /\ (forall l, l <> topicsDiscussed (historyAt h (learningHistory p)) ->
                arrayAt h' l = arrayAt h l).

(** The array of discussed topics that profile [p] shows in store [h]. *)
Definition discussed (h : Heap) (p : UserProfile) : list string :=
  arrayAt h (topicsDiscussed (historyAt h (learningHistory p))).



(** The sentiment label read off the two counters: [p] positive and [n]
    negative words. *)
Definition labelOfCounts (p n : nat) : Nlp.SentimentLabel :=
  if Nat.eqb (p + n) 0 then Nlp.neutral
  else if Nat.leb (4 * p) n then Nlp.very_negative
  else if Nat.leb (3 * p) (2 * n) then Nlp.negative
  else if Nat.leb (4 * n) p then Nlp.very_positive
  else if Nat.leb (3 * n) (2 * p) then Nlp.positive
  else Nlp.neutral.

(** What every entity of [extractEntities] satisfies. *)
Definition wellFormedEntity (e : Entities.EntityAnalysis) : Prop :=
  Entities.type e = Entities.PERSON
  /\ within 0.5 1 (Entities.salience e)
  /\ (1 <= Entities.mentions e)%nat
  /\ Entities.isProperNoun (Entities.name e) = true.

(** Larger mentions first. *)
Definition byMentions (a b : Entities.EntityAnalysis) : Prop :=
  (Entities.mentions b <= Entities.mentions a)%nat.

(** What every key phrase of [extractKeyPhrases] on [text] satisfies. *)
Definition wellFormedPhrase (text : string) (kp : KeyPhrases.KeyPhraseAnalysis) : Prop :=
  (exists q : Q, KeyPhrases.score kp = Fin q /\ (0.5 <= q < 0.8)%Q)
  /\ (exists sentence : string,
         In sentence (splitRuns isTerminator text)
         /\ KeyPhrases.phrase kp = KeyPhrases.trim sentence)
  /\ (3 <= length (splitRuns isSpace (KeyPhrases.phrase kp)) <= 10)%nat.

(** Larger score first. *)
Definition byScore (a b : KeyPhrases.KeyPhraseAnalysis) : Prop :=
  le (KeyPhrases.score b) (KeyPhrases.score a) = true.

(** Profile [p] shows a concern under key [k] in store [h]. *)
Definition hasConcern (h : Heap) (p : UserProfile) (k : string) : Prop :=
  is_Some (dictAt h (concerns p) !! k).

(** The analysis gives the negative emotion [k] an intensity above one
    half. *)
Definition concernRaised (a : Nlp.NLPAnalysisResult) (k : string) : Prop :=
  In k Profile.negativeEmotions
  /\ exists v, In (k, v) (Nlp.emotions a) /\ gt v (Fin 0.5) = true.

(** Two sessions that agree on every property [updateSessionState] reads
    of the state it is given. *)
Definition agreeOnRead (s s' : Therapist.TherapySessionState) : Prop :=
  Therapist.recentTopics s = Therapist.recentTopics s'
  /\ Therapist.questionTypes s = Therapist.questionTypes s'
  /\ Therapist.sessionDepth s = Therapist.sessionDepth s'
  /\ Therapist.lastQuestionType s = Therapist.lastQuestionType s'
  /\ Therapist.userInsights s = Therapist.userInsights s'
  /\ Therapist.userProfile s = Therapist.userProfile s'.

(** The draws lie in the range of [Math.random]. *)
Definition unitDraws (rng : Resources.Rng) : Prop :=
  forall n : nat, (0 <= rng n < 1)%Q.

Definition traitsInRange (t : PersonalityTraits) : Prop :=
  within 0 1 (openness t) /\ within 0 1 (conscientiousness t)
  /\ within 0 1 (extraversion t) /\ within 0 1 (agreeableness t)
  /\ within 0 1 (neuroticism t).

Definition styleInRange (s : CommunicationStyle) : Prop :=
  within 0 1 (verbose s) /\ within 0 1 (emotional s)
  /\ within 0 1 (analytical s) /\ within 0 1 (concrete s)
  /\ within 0 1 (abstract_ s).

Definition dictInRange (d : gmap string num) : Prop :=
  forall (k : string) (v : num), d !! k = Some v -> within 0 1 v.

(** Every numeric scalar that profile [p] shows in store [h] lies in
    [0,1]. *)
Definition profileInRange (h : Heap) (p : UserProfile) : Prop :=
  traitsInRange (traitsAt h (personalityTraits p))
  /\ styleInRange (styleAt h (communicationStyle p))
  /\ dictInRange (dictAt h (interests p))
  /\ dictInRange (dictAt h (concerns p)).

(** The concrete session used in the examples: a fresh session in an
    otherwise empty store. *)
Definition freshSession : Heap * Therapist.TherapySessionState :=
  Therapist.createInitialSessionState Profile.emptyHeap 1%positive.

Definition freshProfile : Heap * UserProfile :=
  Profile.createInitialUserProfile Profile.emptyHeap 1%positive.

(** The same session with the crisis flag set, as a crisis turn leaves
    it. *)
Definition crisisSession : Therapist.TherapySessionState :=
  let s := snd freshSession in
  {| Therapist.dominantEmotions := Therapist.dominantEmotions s;
     Therapist.recentTopics := Therapist.recentTopics s;
     Therapist.approachUsed := Therapist.approachUsed s;
     Therapist.questionTypes := Therapist.questionTypes s;
     Therapist.sessionDepth := Therapist.sessionDepth s;
     Therapist.crisisDetected := true;
     Therapist.lastQuestionType := Therapist.lastQuestionType s;
     Therapist.userInsights := Therapist.userInsights s;
     Therapist.userProfile := Therapist.userProfile s;
     Therapist.lastAnalysis := Therapist.lastAnalysis s |}.

(** Three surroundings: no key configured; a far end that answers 500; a
    far end that answers 200 with an empty list of choices. *)
Definition keylessEnv : Llama.Env :=
  {| Llama.LLAMA_API_KEY := None;
     Llama.hostname := "localhost";
     Llama.fetch := fun _ _ => Llama.NetworkFailure |}.

Definition failingEnv : Llama.Env :=
  {| Llama.LLAMA_API_KEY := Some "sk-test";
     Llama.hostname := "localhost";
     Llama.fetch := fun _ _ =>
       Llama.Response false 500 "Internal Server Error" Llama.Unparsable |}.

Definition speechlessEnv : Llama.Env :=
  {| Llama.LLAMA_API_KEY := Some "sk-test";
     Llama.hostname := "localhost";
     Llama.fetch := fun _ _ =>
       Llama.Response true 200 "{}" (Llama.JsonObject (Some [])) |}.

(** A far end that answers 200 with one choice. *)
Definition answeringEnv : Llama.Env :=
  {| Llama.LLAMA_API_KEY := Some "sk-test";
     Llama.hostname := "example.org";
     Llama.fetch := fun _ _ =>
       Llama.Response true 200 "{}"
         (Llama.JsonObject (Some [ {| Llama.message := Some "Tell me more." |} ])) |}.

(** A stream of draws that are all one half. *)
Definition halfDraws : Resources.Rng := fun _ => 0.5%Q.

Definition crisisInput : string := "I want to end my life.".

Definition anxiousInput : string := "I feel so anxious about work and can't sleep".

(** The end-to-end scenario, as the specification words it, for a session
    [s] in store [h]. *)
Definition anxiousScenario (h : Heap) (s : Therapist.TherapySessionState) : Prop :=
  let s' := snd (Therapist.updateSessionState h s anxiousInput) in
  In "work" (Therapist.extractTopics anxiousInput)
  /\ gt (ofLookup (Entries.get "anxiety" (Nlp.emotions (Nlp.analyzeText anxiousInput))))
        (Fin 0) = true
  /\ In Therapist.anxiety (Therapist.dominantEmotions s')
  /\ Therapist.approachUsed s' = [Therapist.cbt; Therapist.mindfulness].

(* ===================================================================== *)
(** ** Strings: substring search *)
(* ===================================================================== *)

Section StringFacts.

Lemma prefix_occurs (a b : string) :
  String.prefix a b = true <-> exists post, b = a ++ post.
Proof.
  revert b. induction a as [| c a IH]; intros b.
  - split; [intros _; exists b; reflexivity | intros _; destruct b; reflexivity].
  - destruct b as [| d b]; simpl.
    + split; [discriminate | intros [post H]; discriminate].
    + destruct (Ascii.ascii_dec c d) as [-> | Hne].
      * rewrite IH. split; intros [post H]; exists post.
        -- now rewrite H.
        -- now inversion H.
      * split; [discriminate |].
        intros [post H]. inversion H. congruence.
Qed.

Lemma includes_occurs (s sub : string) :
  includes s sub = true <-> occursIn sub s.
Proof.
  unfold occursIn. induction s as [| c s IH].
  - cbn [includes]. rewrite orb_false_r, prefix_occurs. split.
    + intros [post H]. exists EmptyString, post. exact H.
    + intros [pre [post H]]. destruct pre; simpl in H.
      * exists post. exact H.
      * discriminate.
  - cbn [includes]. rewrite orb_true_iff, prefix_occurs, IH. split.
    + intros [[post H] | [pre [post H]]].
      * exists EmptyString, post. exact H.
      * exists (String c pre), post. simpl. now rewrite H.
    + intros [pre [post H]]. destruct pre as [| d pre]; simpl in H.
      * left. exists post. exact H.
      * right. exists pre, post. now inversion H.
Qed.

Lemma includes_absent (s sub : string) :
  includes s sub = false <-> ~ occursIn sub s.
Proof.
  rewrite <- includes_occurs. destruct (includes s sub); split; congruence.
Qed.

End StringFacts.

(* ===================================================================== *)
(** ** The session state machine *)
(* ===================================================================== *)

Section SessionFacts.

Import Therapist.


Lemma updateSessionState_crisis (h : Heap) (S : TherapySessionState) (text : string) :
  crisisDetected (snd (updateSessionState h S text))
  = Api.containsCrisisIndicators text.
Proof.
  unfold updateSessionState.
  destruct (Profile.updateUserProfile h (userProfile S) (Nlp.analyzeText text) text).
  reflexivity.
Qed.

Lemma updateSessionState_emotions (h : Heap) (S : TherapySessionState) (text : string) :
  dominantEmotions (snd (updateSessionState h S text)) = detectEmotions text
  /\ approachUsed (snd (updateSessionState h S text))
     = selectApproach (detectEmotions text)
  /\ recentTopics (snd (updateSessionState h S text))
     = firstn 3 (extractTopics text ++ recentTopics S)%list
  /\ lastAnalysis (snd (updateSessionState h S text))
     = Some (Nlp.analyzeText text).
Proof.
  unfold updateSessionState.
  destruct (Profile.updateUserProfile h (userProfile S) (Nlp.analyzeText text) text).
  repeat split.
Qed.

Lemma runTurns_snoc (h : Heap) (S : TherapySessionState)
    (inputs : list string) (text : string) :
  runTurns h S (inputs ++ [text])%list
  = updateSessionState (fst (runTurns h S inputs)) (snd (runTurns h S inputs)) text.
Proof. unfold runTurns. now rewrite fold_left_app. Qed.


(** The flag is the substring test, stated on the text itself. *)
Lemma containsCrisisIndicators_true (text : string) :
  Api.containsCrisisIndicators text = true
  <-> exists k, In k Api.crisisKeywords /\ occursIn k (toLowerCase text).
Proof.
  unfold Api.containsCrisisIndicators. rewrite existsb_exists.
  split; intros [k [Hk H]]; exists k; split; try exact Hk;
    now apply includes_occurs.
Qed.

Lemma containsCrisisIndicators_false (text : string) :
  Api.containsCrisisIndicators text = false
  <-> forall k, In k Api.crisisKeywords -> ~ occursIn k (toLowerCase text).
Proof.
  split.
  - intros Hf k Hk Hocc.
    assert (Api.containsCrisisIndicators text = true) as Ht
      by (apply containsCrisisIndicators_true; eauto).
    congruence.
  - intros Hno. destruct (Api.containsCrisisIndicators text) eqn:E; [| reflexivity].
    apply containsCrisisIndicators_true in E as [k [Hk Hocc]].
    now destruct (Hno k Hk).
Qed.

End SessionFacts.

(* ===================================================================== *)
(** ** Numbers: ranges *)
(* ===================================================================== *)

Section NumFacts.

Local Open Scope Q_scope.

Lemma within_nonNegative (a : num) : within 0 1 a -> nonNegative a.
Proof. destruct a; simpl; tauto. Qed.

Lemma add_fifth_nonNegative (a : num) :
  nonNegative a -> nonNegative (add a (Fin 0.2)).
Proof. destruct a; simpl; try tauto. intros H. lra. Qed.

Lemma min_one_within (a : num) : nonNegative a -> within 0 1 (min a (Fin 1)).
Proof.
  destruct a as [x | | |]; simpl; try tauto. intros H.
  destruct (Qle_bool x 1) eqn:E; simpl.
  - apply Qle_bool_iff in E. lra.
  - lra.
Qed.

Lemma weightedAverage_within (a b : num) :
  within 0 1 a -> within 0 1 b -> within 0 1 (Nlp.weightedAverage a b).
Proof.
  destruct a as [x | | |], b as [y | | |]; simpl; try tauto.
  intros Hx Hy. lra.
Qed.

Lemma bucket_within (metric hi lo : num) : within 0 1 (Profile.bucket metric hi lo).
Proof.
  unfold Profile.bucket.
  destruct (gt metric hi); [| destruct (gt metric lo)]; simpl; lra.
Qed.

Lemma gt_half_within (a : num) :
  within 0 1 a -> gt a (Fin 0.5) = true -> within 0 1 a /\ falsy a = false.
Proof.
  destruct a as [x | | |]; simpl; try tauto.
  intros Hx Hgt. split; [exact Hx |].
  unfold qzero. destruct (Qeq_bool x 0) eqn:E; [| reflexivity].
  apply Qeq_bool_iff in E. apply negb_true_iff in Hgt.
  assert (~ x <= 0.5) as Hn
    by (intros Hle; apply Qle_bool_iff in Hle; congruence).
  lra.
Qed.

Lemma ofNat_nonNegative (n : nat) : (0 <= inject_Z (Z.of_nat n))%Q.
Proof.
  change 0 with (inject_Z 0). rewrite <- Zle_Qle. lia.
Qed.

Lemma qzero_ofNat (n : nat) : qzero (inject_Z (Z.of_nat n)) = Nat.eqb n 0.
Proof.
  unfold qzero. destruct (Nat.eqb n 0) eqn:E.
  - apply Nat.eqb_eq in E. subst. reflexivity.
  - apply Nat.eqb_neq in E.
    destruct (Qeq_bool (inject_Z (Z.of_nat n)) 0) eqn:Q; [| reflexivity].
    apply Qeq_bool_iff in Q. unfold Qeq in Q. simpl in Q. lia.
Qed.

(** The quotient that [analyzeSentiment] forms from its two counters. *)
Lemma ratio_within (p n : nat) :
  (p + n)%nat <> 0%nat ->
  within (-1) 1 (div (sub (ofNat p) (ofNat n)) (ofNat (p + n))).
Proof.
  intros Hne. unfold sub, ofNat. simpl.
  rewrite qzero_ofNat. destruct (Nat.eqb (p + n) 0) eqn:E.
  { apply Nat.eqb_eq in E. contradiction. }
  simpl.
  pose proof (ofNat_nonNegative p) as Hp.
  pose proof (ofNat_nonNegative n) as Hn.
  assert (inject_Z (Z.of_nat (p + n)) == inject_Z (Z.of_nat p) + inject_Z (Z.of_nat n)) as Hsum
    by (rewrite Nat2Z.inj_add, inject_Z_plus; reflexivity).
  assert (0 < inject_Z (Z.of_nat (p + n))) as Hpos.
  { change 0 with (inject_Z 0). rewrite <- Zlt_Qlt. lia. }
  split.
  - apply Qle_shift_div_l; [exact Hpos |]. rewrite Hsum. lra.
  - apply Qle_shift_div_r; [exact Hpos |]. rewrite Hsum. lra.
Qed.

End NumFacts.

(* ===================================================================== *)
(** ** The lexical analyzer *)
(* ===================================================================== *)

Section AnalyzerFacts.

Import Nlp.

Lemma existsb_In (l : list string) (k : string) :
  existsb (String.eqb k) l = true -> In k l.
Proof.
  intros H. apply existsb_exists in H as (k' & Hin & Heq).
  apply String.eqb_eq in Heq. now subst.
Qed.

Lemma get_set_same {V} (k : string) (v : V) (o : Entries.t V) :
  Entries.get k (Entries.set k v o) = Some v.
Proof.
  induction o as [| [k' v'] o IH]; simpl.
  - now rewrite String.eqb_refl.
  - destruct (String.eqb k k') eqn:E; simpl; rewrite E; [reflexivity | exact IH].
Qed.

Lemma keys_set {V} (k : string) (v : V) (o : Entries.t V) :
  In k (Entries.keys o) -> Entries.keys (Entries.set k v o) = Entries.keys o.
Proof.
  induction o as [| [k' v'] o IH]; simpl; [tauto |].
  intros Hin. destruct (String.eqb k k') eqn:E; simpl; [reflexivity |].
  f_equal. apply IH. destruct Hin as [-> | Hin]; [| exact Hin].
  rewrite String.eqb_refl in E. discriminate.
Qed.

Lemma get_present {V} (k : string) (o : Entries.t V) :
  In k (Entries.keys o) -> exists v, Entries.get k o = Some v.
Proof.
  induction o as [| [k' v'] o IH]; simpl; [tauto |].
  intros Hin. destruct (String.eqb k k') eqn:E; [eauto |].
  apply IH. destruct Hin as [-> | Hin]; [| exact Hin].
  rewrite String.eqb_refl in E. discriminate.
Qed.

Lemma get_Forall {V} (P : string * V -> Prop) (k : string) (v : V) (o : Entries.t V) :
  Forall P o -> Entries.get k o = Some v -> P (k, v).
Proof.
  induction 1 as [| [k' v'] o HP _ IH]; simpl; [discriminate |].
  destruct (String.eqb k k') eqn:E; [| exact IH].
  apply String.eqb_eq in E. subst. now intros [= <-].
Qed.

Lemma set_Forall {V} (P : string * V -> Prop) (k : string) (v : V) (o : Entries.t V) :
  Forall P o -> P (k, v) -> Forall P (Entries.set k v o).
Proof.
  intros Ho Hv. induction Ho as [| [k' v'] o HP Ho IH]; simpl.
  - now constructor.
  - destruct (String.eqb k k') eqn:E.
    + apply String.eqb_eq in E. subst. now constructor.
    + now constructor.
Qed.

Lemma settled_counting (emotion : string) (o : Entries.t num) :
  Forall settled o -> Forall (countingFor emotion) o.
Proof.
  apply Forall_impl. intros [k v]. unfold settled, countingFor. simpl.
  destruct (String.eqb k emotion); [apply within_nonNegative | tauto].
Qed.

Lemma bumpWord_counting (lowerText emotion : string) (o : Entries.t num) (word : string) :
  In emotion (Entries.keys o) -> Forall (countingFor emotion) o ->
  In emotion (Entries.keys (bumpWord lowerText emotion o word))
  /\ Forall (countingFor emotion) (bumpWord lowerText emotion o word).
Proof.
  intros Hin Ho. unfold bumpWord. destruct (includes lowerText word); [| tauto].
  split; [now rewrite keys_set |].
  apply set_Forall; [exact Ho |].
  destruct (get_present emotion o Hin) as [v Hv]. rewrite Hv. simpl.
  pose proof (get_Forall _ _ _ _ Ho Hv) as Hc.
  unfold countingFor in *. simpl in *. rewrite String.eqb_refl in *.
  now apply add_fifth_nonNegative.
Qed.

Lemma bumpWords_counting (lowerText emotion : string) (words : list string)
    (o : Entries.t num) :
  In emotion (Entries.keys o) -> Forall (countingFor emotion) o ->
  In emotion (Entries.keys (fold_left (bumpWord lowerText emotion) words o))
  /\ Forall (countingFor emotion) (fold_left (bumpWord lowerText emotion) words o).
Proof.
  revert o. induction words as [| word words IH]; intros o Hin Ho; simpl.
  - tauto.
  - destruct (bumpWord_counting lowerText emotion o word Hin Ho) as [Hin' Ho'].
    now apply IH.
Qed.

Lemma counting_elsewhere (emotion : string) (o : Entries.t num) :
  ~ In emotion (Entries.keys o) -> Forall (countingFor emotion) o ->
  Forall settled o.
Proof.
  intros Hnot Ho. induction Ho as [| [k' v'] o HP Ho IH]; [constructor |].
  simpl in Hnot. constructor.
  - unfold countingFor in HP. simpl in HP. unfold settled. simpl.
    destruct (String.eqb k' emotion) eqn:E; [| exact HP].
    apply String.eqb_eq in E. tauto.
  - apply IH. tauto.
Qed.

Lemma counting_capped (emotion : string) (v : num) (o : Entries.t num) :
  List.NoDup (Entries.keys o) -> Forall (countingFor emotion) o -> within 0 1 v ->
  Forall settled (Entries.set emotion v o).
Proof.
  intros Hnd Ho Hv. induction Ho as [| [k' v'] o HP Ho IH]; simpl.
  - now constructor.
  - simpl in Hnd. inversion Hnd as [| ? ? Hfresh Hnd']; subst.
    destruct (String.eqb emotion k') eqn:E.
    + apply String.eqb_eq in E. subst k'.
      constructor; [exact Hv |]. now apply (counting_elsewhere emotion).
    + constructor; [| now apply IH].
      unfold countingFor in HP. simpl in HP.
      rewrite String.eqb_sym, E in HP. exact HP.
Qed.

Lemma bumpEmotion_settled (lowerText : string) (o : Entries.t num)
    (entry : string * list string) :
  In (fst entry) (Entries.keys o) -> List.NoDup (Entries.keys o) -> Forall settled o ->
  Entries.keys (bumpEmotion lowerText o entry) = Entries.keys o
  /\ Forall settled (bumpEmotion lowerText o entry).
Proof.
  intros Hin Hnd Ho. unfold bumpEmotion.
  assert (forall words o',
             In (fst entry) (Entries.keys o') ->
             Entries.keys (fold_left (bumpWord lowerText (fst entry)) words o')
             = Entries.keys o') as Hkeys.
  { induction words as [| word words IHw]; intros o' Hin'; simpl; [reflexivity |].
    assert (Entries.keys (bumpWord lowerText (fst entry) o' word) = Entries.keys o') as Hk.
    { unfold bumpWord. destruct (includes lowerText word); [| reflexivity].
      now apply keys_set. }
    rewrite IHw; [exact Hk | now rewrite Hk]. }
  destruct (bumpWords_counting lowerText (fst entry) (snd entry) o Hin
              (settled_counting _ _ Ho)) as [Hin1 Ho1].
  split.
  - rewrite keys_set; [now apply Hkeys | exact Hin1].
  - apply counting_capped; [now rewrite Hkeys | exact Ho1 |].
    destruct (get_present _ _ Hin1) as [v Hv]. rewrite Hv. simpl.
    apply min_one_within.
    pose proof (get_Forall _ _ _ _ Ho1 Hv) as Hc.
    unfold countingFor in Hc. simpl in Hc. now rewrite String.eqb_refl in Hc.
Qed.

Lemma bumpEmotions_settled (lowerText : string) (entries : Entries.t (list string))
    (o : Entries.t num) :
  Forall (fun entry => In (fst entry) (Entries.keys o)) entries ->
  List.NoDup (Entries.keys o) -> Forall settled o ->
  Forall settled (fold_left (bumpEmotion lowerText) entries o).
Proof.
  revert o. induction entries as [| entry entries IH]; intros o Hall Hnd Ho; simpl.
  - exact Ho.
  - inversion Hall as [| ? ? Hin Hall']; subst.
    destruct (bumpEmotion_settled lowerText o entry Hin Hnd Ho) as [Hk Hs].
    apply IH; [now rewrite Hk | now rewrite Hk | exact Hs].
Qed.

Lemma detectEmotions_within (text : string) :
  Forall (within 0 1) (Entries.values (detectEmotions text)).
Proof.
  unfold Entries.values. apply Forall_map.
  apply (bumpEmotions_settled (toLowerCase text) emotionWords initialEmotions).
  - apply Forall_forall. intros entry Hentry.
    apply (existsb_In (Entries.keys initialEmotions)).
    revert entry Hentry. apply Forall_forall.
    repeat (constructor; [vm_compute; reflexivity |]). constructor.
  - repeat (constructor;
            [simpl; intros H;
             repeat (destruct H as [H | H]; [discriminate H |]); exact H |]).
    constructor.
  - repeat (constructor; [unfold settled; simpl; lra |]). constructor.
Qed.

Lemma analyzeSentiment_score_within (text : string) :
  within (-1) 1 (score (analyzeSentiment text)).
Proof.
  unfold analyzeSentiment. cbn [score].
  set (p := countIn positiveWords _). set (n := countIn negativeWords _).
  destruct (Nat.eqb (p + n) 0) eqn:E.
  - simpl. lra.
  - apply ratio_within. now apply Nat.eqb_neq.
Qed.

End AnalyzerFacts.

(* ===================================================================== *)
(** ** The profile updater *)
(* ===================================================================== *)

Section ProfileFacts.

Import Nlp Profile.

Lemma dictInRange_insert (d : gmap string num) (k : string) (v : num) :
  dictInRange d -> within 0 1 v -> dictInRange (<[ k := v ]> d).
Proof.
  intros Hd Hv k' v'. rewrite lookup_insert. case_decide.
  - now intros [= <-].
  - apply Hd.
Qed.

Lemma setStyle_inRange (h : Heap) (p : UserProfile)
    (f : CommunicationStyle -> CommunicationStyle) :
  profileInRange h p ->
  styleInRange (f (styleAt h (communicationStyle p))) ->
  profileInRange (setStyle (communicationStyle p) f h) p.
Proof.
  intros (Ht & Hs & Hi & Hc) Hf. unfold profileInRange. simpl.
  now rewrite fn_lookup_insert.
Qed.

Lemma setTraits_inRange (h : Heap) (p : UserProfile)
    (f : PersonalityTraits -> PersonalityTraits) :
  profileInRange h p ->
  traitsInRange (f (traitsAt h (personalityTraits p))) ->
  profileInRange (setTraits (personalityTraits p) f h) p.
Proof.
  intros (Ht & Hs & Hi & Hc) Hf. unfold profileInRange. simpl.
  now rewrite fn_lookup_insert.
Qed.

(** A write into a dictionary is seen through every reference to it:
    [interests] and [concerns] may be one object. *)
Lemma setDict_inRange (h : Heap) (p : UserProfile) (l : loc)
    (f : gmap string num -> gmap string num) :
  profileInRange h p ->
  dictInRange (f (dictAt h l)) ->
  profileInRange (setDict l f h) p.
Proof.
  intros (Ht & Hs & Hi & Hc) Hf. unfold profileInRange. simpl.
  split; [exact Ht | split; [exact Hs |]].
  split; unfold insert, fn_insert; case_decide; subst; assumption.
Qed.

Lemma setArray_inRange (h : Heap) (p : UserProfile) (l : loc)
    (f : list string -> list string) :
  profileInRange h p -> profileInRange (setArray l f h) p.
Proof. intros H. exact H. Qed.

Lemma lookup_truthy_within (d : gmap string num) (k : string) :
  dictInRange d -> falsyLookup (d !! k) = false -> within 0 1 (ofLookup (d !! k)).
Proof.
  intros Hd. destruct (d !! k) as [v |] eqn:E; simpl; [| discriminate].
  intros _. now apply (Hd k).
Qed.

Lemma bumpInterest_inRange (p : UserProfile) (h : Heap) (topic : string) :
  profileInRange h p -> profileInRange (bumpInterest p h topic) p.
Proof.
  intros Hp. pose proof Hp as (_ & _ & Hi & _). unfold bumpInterest.
  destruct (falsyLookup (dictAt h (interests p) !! topic)) eqn:E;
    apply setDict_inRange; try exact Hp; apply dictInRange_insert; try exact Hi.
  - simpl. lra.
  - apply weightedAverage_within; [now apply lookup_truthy_within | simpl; lra].
Qed.

Lemma bumpConcern_inRange (p : UserProfile) (h : Heap) (entry : string * num) :
  within 0 1 (snd entry) ->
  profileInRange h p -> profileInRange (bumpConcern p h entry) p.
Proof.
  intros Hv Hp. pose proof Hp as (_ & _ & _ & Hc). unfold bumpConcern.
  destruct (gt (snd entry) (Fin 0.5) && arrayIncludes negativeEmotions (fst entry));
    [| exact Hp].
  destruct (falsyLookup (dictAt h (concerns p) !! fst entry)) eqn:E;
    apply setDict_inRange; try exact Hp; apply dictInRange_insert; try exact Hc.
  - exact Hv.
  - apply weightedAverage_within; [now apply lookup_truthy_within | exact Hv].
Qed.

Lemma noteTopic_inRange (p : UserProfile) (h : Heap) (topic : string) :
  profileInRange h p -> profileInRange (noteTopic p h topic) p.
Proof.
  intros Hp. unfold noteTopic.
  destruct (negb (arrayIncludes _ topic)); [apply setArray_inRange |]; exact Hp.
Qed.

Lemma fold_inRange {A} (step : Heap -> A -> Heap) (p : UserProfile)
    (ok : A -> Prop) (l : list A) (h : Heap) :
  (forall h a, ok a -> profileInRange h p -> profileInRange (step h a) p) ->
  Forall ok l -> profileInRange h p -> profileInRange (fold_left step l h) p.
Proof.
  intros Hstep Hl. revert h.
  induction Hl as [| a l Ha Hl IH]; intros h Hp; simpl; [exact Hp |].
  apply IH. now apply Hstep.
Qed.

(** The returned profile object holds the references of the argument. *)
Lemma updateUserProfile_aliases (h : Heap) (p : UserProfile)
    (a : NLPAnalysisResult) (text : string) :
  personalityTraits (snd (updateUserProfile h p a text)) = personalityTraits p
  /\ values (snd (updateUserProfile h p a text)) = values p
  /\ interests (snd (updateUserProfile h p a text)) = interests p
  /\ concerns (snd (updateUserProfile h p a text)) = concerns p
  /\ communicationStyle (snd (updateUserProfile h p a text)) = communicationStyle p
  /\ learningHistory (snd (updateUserProfile h p a text)) = learningHistory p.
Proof. repeat split. Qed.

Lemma updateUserProfile_same (h : Heap) (p : UserProfile)
    (a : NLPAnalysisResult) (text : string) :
  snd (updateUserProfile h p a text) = p.
Proof. destruct p. reflexivity. Qed.

Lemma withStyle_inRange (s : CommunicationStyle) (v : num) :
  styleInRange s -> within 0 1 v ->
  styleInRange (withVerbose v s) /\ styleInRange (withEmotional v s)
  /\ styleInRange (withAnalytical v s).
Proof.
  intros (H1 & H2 & H3 & H4 & H5) Hv. unfold styleInRange. simpl. tauto.
Qed.

Lemma withTraits_inRange (t : PersonalityTraits) (v : num) :
  traitsInRange t -> within 0 1 v ->
  traitsInRange (withOpenness v t) /\ traitsInRange (withExtraversion v t)
  /\ traitsInRange (withAgreeableness v t).
Proof.
  intros (H1 & H2 & H3 & H4 & H5) Hv. unfold traitsInRange. simpl. tauto.
Qed.

Lemma updateCommunicationStyle_inRange (p : UserProfile)
    (a : NLPAnalysisResult) (h : Heap) :
  profileInRange h p -> profileInRange (updateCommunicationStyle p p a h) p.
Proof.
  intros Hp. unfold updateCommunicationStyle.
  assert (forall h' (v : num), profileInRange h' p ->
            styleInRange (styleAt h' (communicationStyle p))) as Hs
    by (intros h' _ (_ & Hs & _); exact Hs).
  assert (forall x m hi lo, within 0 1 x ->
            within 0 1 (weightedAverage x (bucket m hi lo))) as Hw
    by (intros; apply weightedAverage_within; [assumption | apply bucket_within]).
  set (h1 := setStyle _ (withVerbose _) h).
  assert (profileInRange h1 p) as Hp1.
  { apply setStyle_inRange; [exact Hp |].
    apply withStyle_inRange; [now apply (Hs h (Fin 0)) |].
    apply Hw. now destruct (Hs h (Fin 0) Hp). }
  set (h2 := setStyle _ (withEmotional _) h1).
  assert (profileInRange h2 p) as Hp2.
  { apply setStyle_inRange; [exact Hp1 |].
    apply withStyle_inRange; [now apply (Hs h1 (Fin 0)) |].
    apply Hw. now destruct (Hs h1 (Fin 0) Hp1) as (_ & ? & _). }
  apply setStyle_inRange; [exact Hp2 |].
  apply withStyle_inRange; [now apply (Hs h2 (Fin 0)) |].
  apply Hw. now destruct (Hs h2 (Fin 0) Hp2) as (_ & _ & ? & _).
Qed.

Lemma updatePersonalityTraits_inRange (p : UserProfile)
    (a : NLPAnalysisResult) (h : Heap) :
  profileInRange h p -> profileInRange (updatePersonalityTraits p a h) p.
Proof.
  intros Hp. unfold updatePersonalityTraits.
  assert (forall h' target (w : num -> PersonalityTraits -> PersonalityTraits)
                 (field : PersonalityTraits -> num),
            (forall t v, traitsInRange t -> within 0 1 v -> traitsInRange (w v t)) ->
            (forall t, traitsInRange t -> within 0 1 (field t)) ->
            within 0 1 target ->
            profileInRange h' p ->
            profileInRange
              (setTraits (personalityTraits p)
                 (fun t => w (weightedAverage (field t) target) t) h') p) as Hstep.
  { intros h' target w field Hw Hfield Htarget Hp'.
    apply setTraits_inRange; [exact Hp' |].
    destruct Hp' as (Ht & _).
    apply Hw; [exact Ht |]. apply weightedAverage_within; auto. }
  set (h1 := if gt (score (sentiment a)) (Fin 0.5) then _ else h).
  assert (profileInRange h1 p) as Hp1.
  { subst h1. destruct (gt (score (sentiment a)) (Fin 0.5)); [| exact Hp].
    apply (Hstep _ (Fin 0.6) withAgreeableness agreeableness);
      [intros; now apply withTraits_inRange
      | now intros t (_ & _ & _ & ? & _) | simpl; lra |].
    apply (Hstep _ (Fin 0.6) withExtraversion extraversion);
      [intros; now apply withTraits_inRange
      | now intros t (_ & _ & ? & _) | simpl; lra | exact Hp]. }
  destruct (gt (complexity a) (Fin 0.6)); [| exact Hp1].
  apply (Hstep _ (Fin 0.7) withOpenness openness);
    [intros; now apply withTraits_inRange
    | now intros t (? & _) | simpl; lra | exact Hp1].
Qed.

Lemma updateUserProfile_inRange (h : Heap) (p : UserProfile)
    (a : NLPAnalysisResult) (text : string) :
  Forall (within 0 1) (Entries.values (emotions a)) ->
  profileInRange h p ->
  profileInRange (fst (updateUserProfile h p a text)) p.
Proof.
  intros Ha Hp. unfold updateUserProfile. cbn [fst]. destruct p as [lt lv li lc ls lh].
  cbn [personalityTraits values interests concerns communicationStyle learningHistory].
  set (p := {| personalityTraits := lt; values := lv; interests := li;
               concerns := lc; communicationStyle := ls; learningHistory := lh |}) in *.
  apply (fold_inRange _ p (fun _ => True));
    [intros; now apply noteTopic_inRange | now apply Forall_forall |].
  apply updatePersonalityTraits_inRange.
  apply (fold_inRange _ p (fun entry => within 0 1 (snd entry))).
  { intros h' entry Hentry Hp'. now apply bumpConcern_inRange. }
  { apply Forall_forall. intros entry Hentry.
    apply (proj1 (Forall_forall _ _) Ha). unfold Entries.values.
    now apply in_map. }
  apply (fold_inRange _ p (fun _ => True));
    [intros; now apply bumpInterest_inRange | now apply Forall_forall |].
  now apply updateCommunicationStyle_inRange.
Qed.

End ProfileFacts.

(* ===================================================================== *)
(** ** The chat request *)
(* ===================================================================== *)

Section LlamaFacts.

Import Llama.

Lemma sendLlamaRequest_returns (env : Env) (w : World)
    (msgs : list LlamaMessage) (systemPrompt : option string) :
  exists (s : string) (w' : World),
    sendLlamaRequest env w msgs systemPrompt = (Return s, w').
Proof.
  unfold sendLlamaRequest, catch_.
  destruct (sendLlamaRequestTry env w msgs systemPrompt) as [[s | e] w']; eauto.
Qed.

Lemma sendLlamaRequest_caught (env : Env) (w w' : World)
    (msgs : list LlamaMessage) (systemPrompt : option string) (e : error) :
  sendLlamaRequestTry env w msgs systemPrompt = (Throw e, w') ->
  sendLlamaRequest env w msgs systemPrompt = (Return fallbackText, w').
Proof. unfold sendLlamaRequest, catch_. now intros ->. Qed.

Lemma generateTherapistResponseTry_returns (env : Env) (w : World)
    (userInput : string) (updatedState : Therapist.TherapySessionState)
    (conversationHistory : list Therapist.Message) :
  exists (r : Therapist.Reply) (w' : World),
    Therapist.generateTherapistResponseTry env w userInput updatedState
      conversationHistory = (Return r, w').
Proof.
  unfold Therapist.generateTherapistResponseTry.
  destruct (sendLlamaRequest_returns env w
              (map Therapist.toLlama (Therapist.lastTen conversationHistory)
               ++ [ {| role := user; content := userInput |} ])%list
              (Some createTherapySystemPrompt)) as (s & w' & ->).
  eauto.
Qed.

End LlamaFacts.

(* ===================================================================== *)
(** ** The resource selector *)
(* ===================================================================== *)

Section ResourceFacts.

Import Resources.
Local Open Scope Q_scope.

Lemma pick_in_range {A} (arr : list A) (r : Q) :
  0 <= r < 1 -> arr <> [] -> exists x, pick arr r = Some x /\ In x arr.
Proof.
  intros [Hlo Hhi] Hne. unfold pick.
  set (len := inject_Z (Z.of_nat (length arr))).
  assert (0 < len) as Hlen.
  { subst len. change 0 with (inject_Z 0). rewrite <- Zlt_Qlt.
    destruct arr; [contradiction | simpl; lia]. }
  assert (0 <= Qfloor (r * len))%Z as Hfloor0.
  { change 0%Z with (Qfloor 0). apply Qfloor_resp_le. nra. }
  assert (Qfloor (r * len) < Z.of_nat (length arr))%Z as Hfloor1.
  { rewrite Zlt_Qlt. fold len.
    apply Qle_lt_trans with (r * len); [apply Qfloor_le | nra]. }
  destruct (Qfloor (r * len) <? 0)%Z eqn:E; [apply Z.ltb_lt in E; lia |].
  destruct (nth_error arr (Z.to_nat (Qfloor (r * len)))) as [x |] eqn:Hx.
  - exists x. split; [reflexivity |]. eapply nth_error_In. exact Hx.
  - apply nth_error_None in Hx. lia.
Qed.

Lemma generateMentalHealthResource_returns (rng : Rng) :
  unitDraws rng ->
  exists e, In e resources
    /\ generateMentalHealthResource rng
       = Return {| type := resource; content := Some (helpContent e);
                   title := Some (helpTitle e); source := helpContact e;
                   url := Some (helpUrl e) |}.
Proof.
  intros Hrng. unfold generateMentalHealthResource, draw.
  destruct (pick_in_range resources (rng 0%nat) (Hrng 0%nat)) as (e & -> & Hin);
    [discriminate |].
  eauto.
Qed.

End ResourceFacts.

(* ===================================================================== *)
(** ** Main results *)
(* ===================================================================== *)

(** C1.  Crisis turns short-circuit the orchestrator.  A crisis keyword that
    occurs anywhere in the lower-cased text sets the flag; whenever the flag
    is set after [updateSessionState], [generateTherapistResponse] is
    fulfilled with the fixed safety string, which names 988, and the list of
    requests sent to the chat service is left as it was; for the input
    "I want to end my life." the test is true and the reply is that
    string. *)
Theorem crisis_short_circuit :
  (forall (h : Heap) (s : Therapist.TherapySessionState) (text k : string),
      In k Api.crisisKeywords -> occursIn k (toLowerCase text) ->
      Therapist.crisisDetected (snd (Therapist.updateSessionState h s text)) = true)
  /\ (forall (env : Llama.Env) (h : Heap) (w : Llama.World) (text : string)
             (s : Therapist.TherapySessionState) (history : list Therapist.Message),
         Therapist.crisisDetected (snd (Therapist.updateSessionState h s text)) = true ->
         Therapist.generateTherapistResponse env h w text s history
         = (Return {| Therapist.response := Therapist.crisisResponse;
                      Therapist.updatedState :=
                        snd (Therapist.updateSessionState h s text) |},
            fst (Therapist.updateSessionState h s text), w))
  /\ occursIn "988" Therapist.crisisResponse
  /\ Api.containsCrisisIndicators crisisInput = true
  /\ (forall (env : Llama.Env) (h : Heap) (w : Llama.World)
             (s : Therapist.TherapySessionState) (history : list Therapist.Message),
         exists s' h',
           Therapist.generateTherapistResponse env h w crisisInput s history
           = (Return {| Therapist.response := Therapist.crisisResponse;
                        Therapist.updatedState := s' |}, h', w)).
Proof.
  assert (forall env h w text s history,
             Therapist.crisisDetected (snd (Therapist.updateSessionState h s text)) = true ->
             Therapist.generateTherapistResponse env h w text s history
             = (Return {| Therapist.response := Therapist.crisisResponse;
                          Therapist.updatedState :=
                            snd (Therapist.updateSessionState h s text) |},
                fst (Therapist.updateSessionState h s text), w)) as Hshort.
  { intros env h w text s history Hflag.
    unfold Therapist.generateTherapistResponse.
    destruct (Therapist.updateSessionState h s text) as [h' s'] eqn:E.
    simpl in Hflag |- *. now rewrite Hflag. }
  split; [| split; [exact Hshort | split; [| split]]].
  - intros h s text k Hk Hocc. rewrite updateSessionState_crisis.
    apply containsCrisisIndicators_true. eauto.
  - apply includes_occurs. vm_compute. reflexivity.
  - vm_compute. reflexivity.
  - intros env h w s history. eexists. eexists. apply Hshort.
    rewrite updateSessionState_crisis. vm_compute. reflexivity.
Qed.

Lemma crisis_short_circuit_witness :
  Therapist.crisisDetected
    (snd (Therapist.updateSessionState (fst freshSession) (snd freshSession)
            "I just WANT TO DIE, really")) = true
  /\ fst (Therapist.generateTherapistResponse failingEnv (fst freshSession) []
            "I just WANT TO DIE, really" (snd freshSession) [])
     = (Return {| Therapist.response := Therapist.crisisResponse;
                  Therapist.updatedState :=
                    snd (Therapist.updateSessionState (fst freshSession)
                           (snd freshSession) "I just WANT TO DIE, really") |},
        fst (Therapist.updateSessionState (fst freshSession) (snd freshSession)
               "I just WANT TO DIE, really")).
Proof.
  destruct crisis_short_circuit as (Hkey & Hshort & _).
  assert (Therapist.crisisDetected
            (snd (Therapist.updateSessionState (fst freshSession) (snd freshSession)
                    "I just WANT TO DIE, really")) = true) as Hflag.
  { apply (Hkey _ _ _ "want to die").
    - simpl. tauto.
    - apply includes_occurs. vm_compute. reflexivity. }
  split; [exact Hflag |].
  now rewrite (Hshort failingEnv _ [] _ _ [] Hflag).
Defined.


(** C9.  The crisis flag is recomputed on every turn: from any session, also
    one whose flag is set, a text in which no crisis keyword occurs (after
    lower-casing) leaves the flag unset. *)
Theorem crisis_flag_not_latched (h : Heap) (s : Therapist.TherapySessionState)
    (text : string) :
  (forall k : string, In k Api.crisisKeywords -> ~ occursIn k (toLowerCase text)) ->
  Therapist.crisisDetected (snd (Therapist.updateSessionState h s text)) = false.
Proof.
  intros Hno. rewrite updateSessionState_crisis.
  now apply containsCrisisIndicators_false.
Qed.

Lemma crisis_flag_not_latched_witness :
  Therapist.crisisDetected crisisSession = true
  /\ Therapist.crisisDetected
       (snd (Therapist.updateSessionState (fst freshSession) crisisSession
               "Thank you, I feel calmer now.")) = false.
Proof.
  split; [reflexivity |].
  apply crisis_flag_not_latched.
  apply containsCrisisIndicators_false. vm_compute. reflexivity.
Defined.

(** C10.  [sendLlamaRequest] always returns: it is fulfilled on every path.
    With no API key it returns the fixed apology without sending anything;
    on a response that is not ok, and on a body without choices, it returns
    the same apology.  So the [try] block of [generateTherapistResponse]
    always returns too, and its [catch] is never entered. *)
Theorem sendLlamaRequest_never_rejects (env : Llama.Env) (w : Llama.World)
    (msgs : list Llama.LlamaMessage) (systemPrompt : option string) :
  (exists (s : string) (w' : Llama.World),
      Llama.sendLlamaRequest env w msgs systemPrompt = (Return s, w'))
  /\ (Llama.truthy (Llama.LLAMA_API_KEY env) = false ->
      Llama.sendLlamaRequest env w msgs systemPrompt
      = (Return Llama.fallbackText, w))
  /\ (forall (status : nat) (text : string) (body : Llama.Body),
         Llama.truthy (Llama.LLAMA_API_KEY env) = true ->
         Llama.fetch env w (Llama.requestFor env msgs systemPrompt)
         = Llama.Response false status text body ->
         fst (Llama.sendLlamaRequest env w msgs systemPrompt)
         = Return Llama.fallbackText)
  /\ (forall (status : nat) (text : string) (choices : option (list Llama.Choice)),
         Llama.truthy (Llama.LLAMA_API_KEY env) = true ->
         Llama.fetch env w (Llama.requestFor env msgs systemPrompt)
         = Llama.Response true status text (Llama.JsonObject choices) ->
         choices = None \/ choices = Some [] ->
         fst (Llama.sendLlamaRequest env w msgs systemPrompt)
         = Return Llama.fallbackText)
  /\ (forall (userInput : string) (updatedState : Therapist.TherapySessionState)
             (history : list Therapist.Message),
         exists (r : Therapist.Reply) (w' : Llama.World),
           Therapist.generateTherapistResponseTry env w userInput updatedState history
           = (Return r, w')).
Proof.
  split; [apply sendLlamaRequest_returns | split; [| split; [| split]]].
  - intros Hkey. unfold Llama.sendLlamaRequest, Llama.sendLlamaRequestTry.
    now rewrite Hkey.
  - intros status text body Hkey Hfetch.
    unfold Llama.sendLlamaRequest, Llama.sendLlamaRequestTry.
    now rewrite Hkey, Hfetch.
  - intros status text choices Hkey Hfetch Hnone.
    unfold Llama.sendLlamaRequest, Llama.sendLlamaRequestTry.
    rewrite Hkey, Hfetch. now destruct Hnone as [-> | ->].
  - intros. apply generateTherapistResponseTry_returns.
Qed.

Lemma sendLlamaRequest_never_rejects_witness :
  Llama.sendLlamaRequest keylessEnv [] [] None = (Return Llama.fallbackText, [])
  /\ fst (Llama.sendLlamaRequest failingEnv [] [] None) = Return Llama.fallbackText
  /\ fst (Llama.sendLlamaRequest speechlessEnv [] [] None) = Return Llama.fallbackText.
Proof.
  split; [| split].
  - apply (sendLlamaRequest_never_rejects keylessEnv [] [] None). reflexivity.
  - apply (proj1 (proj2 (proj2 (sendLlamaRequest_never_rejects failingEnv [] [] None)))
             500%nat "Internal Server Error" Llama.Unparsable); reflexivity.
  - apply (proj1 (proj2 (proj2 (proj2
             (sendLlamaRequest_never_rejects speechlessEnv [] [] None))))
             200%nat "{}" (Some [])); [reflexivity | reflexivity | now right].
Defined.

(** C8.  Resource gating.  [selectAppropriateResource] returns null for a
    turn count below 3 (so for 0, 1 and 2) and for every turn count from 3
    on that 6 does not divide; on a turn count from 3 on that 6 divides, in
    a session whose crisis flag is set, it returns an entry of the
    mental-health resource table, of type ['resource']. *)
Theorem resource_gating (s : Therapist.TherapySessionState) (n : Z)
    (rng : Resources.Rng) :
  ((n < 3)%Z -> Resources.selectAppropriateResource s n rng = Return None)
  /\ ((3 <= n)%Z -> (n mod 6 <> 0)%Z ->
      Resources.selectAppropriateResource s n rng = Return None)
  /\ ((3 <= n)%Z -> (n mod 6 = 0)%Z ->
      Therapist.crisisDetected s = true -> unitDraws rng ->
      exists r e,
        Resources.selectAppropriateResource s n rng = Return (Some r)
        /\ Resources.type r = Resources.resource
        /\ In e Resources.resources
        /\ Resources.title r = Some (Resources.helpTitle e)
        /\ Resources.content r = Some (Resources.helpContent e)).
Proof.
  unfold Resources.selectAppropriateResource. split; [| split].
  - intros Hlt. apply Z.ltb_lt in Hlt. now rewrite Hlt.
  - intros Hge Hrem.
    assert ((n <? 3)%Z = false) as -> by (apply Z.ltb_ge; lia).
    rewrite Z.rem_mod_nonneg by lia.
    apply Z.eqb_neq in Hrem. now rewrite Hrem.
  - intros Hge Hrem Hcrisis Hrng.
    assert ((n <? 3)%Z = false) as -> by (apply Z.ltb_ge; lia).
    rewrite Z.rem_mod_nonneg by lia.
    rewrite Hrem, Hcrisis. simpl.
    destruct (generateMentalHealthResource_returns rng Hrng) as (e & Hin & ->).
    simpl. eexists. exists e. repeat split. exact Hin.
Qed.

Lemma resource_gating_witness :
  Resources.selectAppropriateResource crisisSession 2 halfDraws = Return None
  /\ Resources.selectAppropriateResource crisisSession 7 halfDraws = Return None
  /\ exists r,
       Resources.selectAppropriateResource crisisSession 12 halfDraws = Return (Some r)
       /\ Resources.type r = Resources.resource.
Proof.
  destruct (resource_gating crisisSession 2 halfDraws) as (H2 & _).
  destruct (resource_gating crisisSession 7 halfDraws) as (_ & H7 & _).
  destruct (resource_gating crisisSession 12 halfDraws) as (_ & _ & H12).
  split; [apply H2; lia | split; [apply H7; [lia | discriminate] |]].
  destruct H12 as (r & e & Hr & Ht & _).
  - lia.
  - reflexivity.
  - reflexivity.
  - intros k. unfold halfDraws. split; [discriminate | reflexivity].
  - exists r. split; [exact Hr | exact Ht].
Defined.

(** C5.  For every text, the sentiment score of [analyzeText] lies in
    [-1,1] and every emotion intensity lies in [0,1]. *)
Theorem analyzeText_ranges (text : string) :
  within (-1) 1 (Nlp.score (Nlp.sentiment (Nlp.analyzeText text)))
  /\ Forall (within 0 1) (Entries.values (Nlp.emotions (Nlp.analyzeText text))).
Proof.
  split.
  - apply analyzeSentiment_score_within.
  - apply detectEmotions_within.
Qed.

(** C4.  A profile whose traits, style axes, interests and concerns all lie
    in [0,1] still has them all in [0,1] after [updateUserProfile] with an
    analysis made by [analyzeText]. *)
Theorem updateUserProfile_keeps_unit_range (h : Heap) (p : UserProfile)
    (analysed text : string) :
  profileInRange h p ->
  profileInRange
    (fst (Profile.updateUserProfile h p (Nlp.analyzeText analysed) text))
    (snd (Profile.updateUserProfile h p (Nlp.analyzeText analysed) text)).
Proof.
  intros Hp. rewrite updateUserProfile_same.
  apply updateUserProfile_inRange; [| exact Hp].
  apply detectEmotions_within.
Qed.

Lemma updateUserProfile_keeps_unit_range_witness :
  profileInRange (fst freshProfile) (snd freshProfile)
  /\ profileInRange
       (fst (Profile.updateUserProfile (fst freshProfile) (snd freshProfile)
               (Nlp.analyzeText "I am so anxious, nervous and stressed about work")
               "I am so anxious, nervous and stressed about work"))
       (snd (Profile.updateUserProfile (fst freshProfile) (snd freshProfile)
               (Nlp.analyzeText "I am so anxious, nervous and stressed about work")
               "I am so anxious, nervous and stressed about work")).
Proof.
  assert (profileInRange (fst freshProfile) (snd freshProfile)) as Hfresh.
  { unfold profileInRange, traitsInRange, styleInRange, dictInRange. simpl.
    repeat split; try discriminate; intros k v Hk; vm_compute in Hk; discriminate. }
  split; [exact Hfresh |].
  now apply updateUserProfile_keeps_unit_range.
Defined.

(** C7, as stated, fails: for the anxious input in a fresh session the
    dominant emotions do not include anxiety, and the approach is not
    cbt with mindfulness. *)
Lemma anxiousScenario_fails :
  ~ anxiousScenario (fst freshSession) (snd freshSession).
Proof.
  unfold anxiousScenario. intros (_ & _ & Hdominant & _).
  rewrite (proj1 (updateSessionState_emotions _ _ _)) in Hdominant.
  vm_compute in Hdominant. destruct Hdominant as [H | []]. discriminate.
Qed.

(** C7, amended.  For the input "I feel so anxious about work and can't
    sleep", from any session: the extracted topics are exactly work, which
    also heads the recent topics; the anxiety intensity is 0.2, above 0 but
    not above the 0.4 that the classification asks for; the dominant
    emotions are neutral alone; and the approach becomes supportive with
    solution-focused. *)
Theorem anxiousScenario_amended (h : Heap) (s : Therapist.TherapySessionState) :
  Therapist.extractTopics anxiousInput = ["work"]
  /\ hd_error (Therapist.recentTopics
                 (snd (Therapist.updateSessionState h s anxiousInput))) = Some "work"
  /\ Entries.get "anxiety" (Nlp.emotions (Nlp.analyzeText anxiousInput))
     = Some (Fin 0.2)
  /\ gt (Fin 0.2) (Fin 0) = true
  /\ gt (Fin 0.2) (Fin 0.4) = false
  /\ Therapist.dominantEmotions (snd (Therapist.updateSessionState h s anxiousInput))
     = [Therapist.neutral]
  /\ Therapist.approachUsed (snd (Therapist.updateSessionState h s anxiousInput))
     = [Therapist.supportive; Therapist.solution_focused].
Proof.
  destruct (updateSessionState_emotions h s anxiousInput) as (-> & -> & -> & _).
  split; [| split; [| split; [| split; [| split; [| split]]]]];
    vm_compute; reflexivity.
Qed.

(** C2.  [updateUserProfile] writes into the objects of its argument: on a
    fresh profile and the analysis of "hello", the argument's [verbose]
    axis reads 0.5 before the call and 0.41 after it, so what the caller's
    profile shows has changed; the returned object holds the very same
    references. *)
Theorem updateUserProfile_mutates_argument :
  let h := fst freshProfile in
  let p := snd freshProfile in
  let r := Profile.updateUserProfile h p (Nlp.analyzeText "hello") "hello" in
  verbose (viewStyle (view h p)) = Fin 0.5
  /\ numEq (verbose (viewStyle (view (fst r) p))) (Fin 0.41)
  /\ view (fst r) p <> view h p
  /\ snd r = p.
Proof.
  cbv zeta. split; [| split; [| split]].
  - vm_compute. reflexivity.
  - unfold numEq. vm_compute. reflexivity.
  - intros Heq. apply (f_equal (fun v => verbose (viewStyle v))) in Heq.
    vm_compute in Heq. discriminate.
  - apply updateUserProfile_same.
Qed.

(** C6.  On a text without words the sentiment score is 0, but the
    magnitude is the quotient 0/0: it is [NaN], not zero. *)
Theorem analyzeText_wordless_magnitude :
  Nlp.score (Nlp.sentiment (Nlp.analyzeText "")) = Fin 0
  /\ Nlp.magnitude (Nlp.sentiment (Nlp.analyzeText "")) = NaN
  /\ ~ numEq (Nlp.magnitude (Nlp.sentiment (Nlp.analyzeText ""))) (Fin 0)
  /\ (forall text : string,
         matchWords (toLowerCase text) = [] ->
         Nlp.magnitude (Nlp.sentiment (Nlp.analyzeText text)) = NaN).
Proof.
  split; [| split; [| split]].
  - vm_compute. reflexivity.
  - vm_compute. reflexivity.
  - intros H. vm_compute in H. exact H.
  - intros text Hnone. unfold Nlp.analyzeText, Nlp.analyzeSentiment.
    cbn [Nlp.sentiment Nlp.magnitude]. rewrite Hnone. reflexivity.
Qed.

(* ===================================================================== *)
(** ** Further properties: strings and tokens *)
(* ===================================================================== *)

Section TokenFacts.

Lemma toLowerCase_app (a b : string) :
  toLowerCase (a ++ b) = toLowerCase a ++ toLowerCase b.
Proof. induction a as [| c a IH]; simpl; [reflexivity | now rewrite IH]. Qed.

Lemma lowerChar_idempotent (c : ascii) : lowerChar (lowerChar c) = lowerChar c.
Proof. destruct c as [[] [] [] [] [] [] [] []]; reflexivity. Qed.

Lemma toLowerCase_idempotent (s : string) :
  toLowerCase (toLowerCase s) = toLowerCase s.
Proof.
  induction s as [| c s IH]; simpl; [reflexivity |].
  now rewrite lowerChar_idempotent, IH.
Qed.

Lemma toLowerCase_length (s : string) :
  String.length (toLowerCase s) = String.length s.
Proof. induction s as [| c s IH]; simpl; [reflexivity | now rewrite IH]. Qed.

Lemma splitFrom_nonempty (sep : ascii -> bool) (inSep : bool) (cur s : string) :
  splitFrom sep inSep cur s <> [].
Proof.
  revert inSep cur. induction s as [| c s IH]; intros inSep cur; simpl.
  - discriminate.
  - destruct (sep c); [destruct inSep; [apply IH | discriminate] | apply IH].
Qed.

Lemma splitRuns_length (sep : ascii -> bool) (s : string) :
  (1 <= length (splitRuns sep s))%nat.
Proof.
  unfold splitRuns. pose proof (splitFrom_nonempty sep false EmptyString s) as H.
  destruct (splitFrom sep false EmptyString s); [contradiction | simpl; lia].
Qed.

End TokenFacts.

(** X1.  A crisis keyword is found in whatever letter case it is written:
    if some stretch of the text lower-cases to a keyword, the test is
    true, whatever stands before and after it. *)
Theorem containsCrisisIndicators_any_case (pre written post k : string) :
  In k Api.crisisKeywords -> toLowerCase written = k ->
  Api.containsCrisisIndicators (pre ++ written ++ post) = true.
Proof.
  intros Hk Hw. apply containsCrisisIndicators_true. exists k. split; [exact Hk |].
  exists (toLowerCase pre), (toLowerCase post).
  now rewrite !toLowerCase_app, Hw.
Qed.

Lemma containsCrisisIndicators_any_case_witness :
  Api.containsCrisisIndicators ("Some days I feel " ++ "Better Off DEAD" ++ "!!") = true.
Proof.
  apply (containsCrisisIndicators_any_case _ _ _ "better off dead").
  - simpl. tauto.
  - reflexivity.
Defined.

(** X2.  The recent topics are a window of three: after a turn they are the
    first three of the new topics followed by the old ones, so never more
    than three; and a turn that brings three topics or more leaves none of
    the earlier ones. *)
Theorem recentTopics_window (h : Heap) (s : Therapist.TherapySessionState)
    (text : string) :
  Therapist.recentTopics (snd (Therapist.updateSessionState h s text))
  = firstn 3 (Nlp.extractTopics text ++ Therapist.recentTopics s)%list
  /\ (length (Therapist.recentTopics (snd (Therapist.updateSessionState h s text)))
      <= 3)%nat
  /\ ((3 <= length (Nlp.extractTopics text))%nat ->
      Therapist.recentTopics (snd (Therapist.updateSessionState h s text))
      = firstn 3 (Nlp.extractTopics text)).
Proof.
  destruct (updateSessionState_emotions h s text) as (_ & _ & -> & _).
  unfold Therapist.extractTopics. cbn [Nlp.topics Nlp.analyzeText].
  split; [reflexivity | split].
  - apply firstn_le_length.
  - intros Hlen. rewrite firstn_app.
    replace (3 - length (Nlp.extractTopics text))%nat with 0%nat by lia.
    simpl. apply app_nil_r.
Qed.

Lemma recentTopics_window_witness :
  Therapist.recentTopics
    (snd (Therapist.updateSessionState (fst freshSession) crisisSession
            "My boss, my partner and my mother all worry about my health"))
  = ["work"; "relationships"; "family"].
Proof.
  rewrite (proj2 (proj2 (recentTopics_window (fst freshSession) crisisSession
             "My boss, my partner and my mother all worry about my health"))).
  - vm_compute. reflexivity.
  - vm_compute. lia.
Defined.

(* ===================================================================== *)
(** ** Further properties: emotion categories and topics *)
(* ===================================================================== *)

(** X3.  The emotion categories of a text are never empty and hold no
    category twice; they list, in the fixed order anxiety, depression,
    anger, joy, grief, confusion, those that were detected, and neutral
    stands only alone, when none was. *)
Theorem detectEmotions_shape (text : string) :
  Therapist.detectEmotions text <> []
  /\ List.NoDup (Therapist.detectEmotions text)
  /\ (Therapist.detectEmotions text = [Therapist.neutral]
      \/ Therapist.detectEmotions text
         = filter (Therapist.emotionsInclude (Therapist.detectEmotions text))
             [Therapist.anxiety; Therapist.depression; Therapist.anger;
              Therapist.joy; Therapist.grief; Therapist.confusion]
         /\ ~ In Therapist.neutral (Therapist.detectEmotions text)).
Proof.
  assert (forall b1 b2 b3 b4 b5 b6 : bool,
             let result :=
               Therapist.pushIf b6 Therapist.confusion
                 (Therapist.pushIf b5 Therapist.grief
                    (Therapist.pushIf b4 Therapist.joy
                       (Therapist.pushIf b3 Therapist.anger
                          (Therapist.pushIf b2 Therapist.depression
                             (Therapist.pushIf b1 Therapist.anxiety []))))) in
             let r := if Nat.eqb (length result) 0 then [Therapist.neutral] else result in
             r <> [] /\ List.NoDup r
             /\ (r = [Therapist.neutral]
                 \/ r = filter (Therapist.emotionsInclude r)
                          [Therapist.anxiety; Therapist.depression; Therapist.anger;
                           Therapist.joy; Therapist.grief; Therapist.confusion]
                    /\ ~ In Therapist.neutral r)) as Hcases.
  { intros b1 b2 b3 b4 b5 b6.
    destruct b1, b2, b3, b4, b5, b6; vm_compute;
      (split; [discriminate | split;
         [ repeat (constructor;
                   [intros H;
                    repeat (destruct H as [H | H]; [discriminate H |]); exact H |]);
           constructor
         | first [ left; reflexivity
                 | right; split;
                   [ reflexivity
                   | intros H;
                     repeat (destruct H as [H | H]; [discriminate H |]); exact H ] ] ]]). }
  unfold Therapist.detectEmotions. cbv zeta. apply Hcases.
Qed.

(** The arrays' [filter] is the list filter. *)
Lemma filter_bool {A} (f : A -> bool) (l : list A) :
  filter (fun x => f x) l = List.filter f l.
Proof.
  induction l as [| x l IH]; [reflexivity |].
  rewrite filter_cons, IH. simpl.
  destruct (f x) eqn:E; case_decide as H; try reflexivity.
  - exfalso. apply H. exact I.
  - exfalso. exact H.
Qed.

Lemma NoDup_map_fst_filter {A B} (f : A * B -> bool) (l : list (A * B)) :
  List.NoDup (map fst l) -> List.NoDup (map fst (List.filter f l)).
Proof.
  induction l as [| x l IH]; simpl; [intros; constructor |].
  intros Hnd. inversion Hnd as [| ? ? Hfresh Hnd']; subst.
  destruct (f x); simpl; [| now apply IH].
  constructor; [| now apply IH].
  intros Hin. apply Hfresh.
  apply in_map_iff in Hin as (y & Hy & Hin).
  apply filter_In in Hin as (Hin & _).
  apply in_map_iff. eauto.
Qed.

(** X4.  A topic is extracted exactly when one of its keywords occurs in the
    lower-cased text; no topic is extracted twice, and there are at most
    ten. *)
Theorem extractTopics_spec (text : string) :
  (forall topic : string,
      In topic (Nlp.extractTopics text)
      <-> exists keywords keyword,
            In (topic, keywords) Nlp.topicKeywords
            /\ In keyword keywords
            /\ occursIn keyword (toLowerCase text))
  /\ List.NoDup (Nlp.extractTopics text)
  /\ (length (Nlp.extractTopics text) <= 10)%nat.
Proof.
  unfold Nlp.extractTopics, Entries.t. cbv zeta. rewrite filter_bool. split; [| split].
  - intros topic. rewrite in_map_iff. split.
    + intros ([t kws] & <- & Hin). apply filter_In in Hin as (Hin & Hex).
      apply existsb_exists in Hex as (kw & Hkw & Hinc).
      exists kws, kw. simpl in *. now rewrite <- includes_occurs.
    + intros (kws & kw & Hin & Hkw & Hocc). exists (topic, kws).
      split; [reflexivity |]. apply filter_In. split; [exact Hin |].
      apply existsb_exists. exists kw. now rewrite includes_occurs.
  - apply NoDup_map_fst_filter.
    repeat (constructor;
            [simpl; intros H;
             repeat (destruct H as [H | H]; [discriminate H |]); exact H |]).
    constructor.
  - rewrite length_map.
    etransitivity; [apply filter_length_le |]. simpl. lia.
Qed.

(* ===================================================================== *)
(** ** Further properties: the numbers of an analysis *)
(* ===================================================================== *)

Section MeasureFacts.

Local Open Scope Q_scope.

Lemma div_ofNat (a n : nat) :
  n <> 0%nat ->
  div (ofNat a) (ofNat n) = Fin (inject_Z (Z.of_nat a) / inject_Z (Z.of_nat n)).
Proof.
  intros Hn. unfold div, ofNat. rewrite qzero_ofNat.
  destruct (Nat.eqb n 0) eqn:E; [apply Nat.eqb_eq in E; contradiction | reflexivity].
Qed.

Lemma clamp_within (x : Q) : within 0 1 (max (Fin 0) (min (Fin x) (Fin 1))).
Proof.
  unfold min, max, le.
  destruct (Qle_bool x 1) eqn:E1.
  - destruct (Qle_bool 0 x) eqn:E0; simpl.
    + apply Qle_bool_iff in E0, E1. lra.
    + lra.
  - change (Qle_bool 0 1) with true. simpl. lra.
Qed.

Lemma countIn_filter (table words : list string) :
  Nlp.countIn table words = length (List.filter (arrayIncludes table) words).
Proof. unfold Nlp.countIn. now rewrite filter_bool. Qed.

Lemma arrayIncludes_In (table : list string) (w : string) :
  arrayIncludes table w = true -> In w table.
Proof. apply existsb_In. Qed.

(** No word is in two of the three word lists. *)
Lemma word_lists_disjoint (w : string) :
  (Nat.b2n (arrayIncludes Nlp.positiveWords w)
   + Nat.b2n (arrayIncludes Nlp.negativeWords w)
   + Nat.b2n (arrayIncludes Nlp.intensifiers w) <= 1)%nat.
Proof.
  destruct (arrayIncludes Nlp.positiveWords w) eqn:Ep.
  - apply arrayIncludes_In in Ep. simpl in Ep.
    repeat (destruct Ep as [<- | Ep]; [vm_compute; lia |]). contradiction.
  - destruct (arrayIncludes Nlp.negativeWords w) eqn:En.
    + apply arrayIncludes_In in En. simpl in En.
      repeat (destruct En as [<- | En]; [vm_compute; lia |]). contradiction.
    + destruct (arrayIncludes Nlp.intensifiers w); simpl; lia.
Qed.

Lemma counts_bounded (words : list string) :
  (Nlp.countIn Nlp.positiveWords words + Nlp.countIn Nlp.negativeWords words
   + Nlp.countIn Nlp.intensifiers words <= length words)%nat.
Proof.
  rewrite !countIn_filter. induction words as [| w words IH]; [simpl; lia |].
  assert (forall f : string -> bool,
             length (List.filter f (w :: words))
             = (Nat.b2n (f w) + length (List.filter f words))%nat) as Hcons
    by (intros f; cbn [List.filter]; destruct (f w); reflexivity).
  rewrite !Hcons. pose proof (word_lists_disjoint w) as Hw.
  cbn [length]. lia.
Qed.

Lemma magnitude_bound (t i l : nat) :
  (t + i <= l)%nat -> l <> 0%nat ->
  within 0 1
    (mul (div (ofNat t) (ofNat l)) (add (Fin 1) (div (ofNat i) (ofNat l)))).
Proof.
  intros Hsum Hl. rewrite !div_ofNat by exact Hl. simpl.
  set (T := inject_Z (Z.of_nat t)). set (I := inject_Z (Z.of_nat i)).
  set (L := inject_Z (Z.of_nat l)).
  assert (0 <= T) as HT by apply ofNat_nonNegative.
  assert (0 <= I) as HI by apply ofNat_nonNegative.
  assert (0 < L) as HL.
  { subst L. change 0 with (inject_Z 0). rewrite <- Zlt_Qlt. lia. }
  assert (T + I <= L) as HTI.
  { subst T I L. rewrite <- inject_Z_plus, <- Zle_Qle. lia. }
  assert (L * (T / L) == T) as Ha by (apply Qmult_div_r; lra).
  assert (L * (I / L) == I) as Hb by (apply Qmult_div_r; lra).
  set (a := T / L) in *. set (b := I / L) in *.
  assert (0 <= a) as Ha0 by nra.
  assert (0 <= b) as Hb0 by nra.
  assert (a + b <= 1) as Hab by nra.
  split; nra.
Qed.

End MeasureFacts.

(** X5.  The complexity of every text is a number in [0,1] and its token
    count is at least 1: splitting on white space never gives an empty
    array, so the averages are never a quotient by zero. *)
Theorem analyzeText_complexity_range (text : string) :
  within 0 1 (Nlp.complexity (Nlp.analyzeText text))
  /\ exists n : nat,
       Nlp.tokenCount (Nlp.analyzeText text) = ofNat n /\ (1 <= n)%nat.
Proof.
  split.
  - unfold Nlp.analyzeText, Nlp.rawComplexity. cbn [Nlp.complexity].
    pose proof (splitRuns_length isSpace text) as Hlen.
    rewrite !div_ofNat.
    + cbn [sub neg add div mul qzero]. apply clamp_within.
    + unfold Nlp.orOne. destruct (Nat.eqb _ 0) eqn:E; [lia |].
      now apply Nat.eqb_neq in E.
    + lia.
  - exists (length (splitRuns isSpace text)). split; [reflexivity |].
    apply splitRuns_length.
Qed.

(** X6.  When the text holds at least one word, the sentiment magnitude is
    a number in [0,1]: a word counts as positive, negative or intensifier,
    never as two of them. *)
Theorem analyzeSentiment_magnitude_range (text : string) :
  matchWords (toLowerCase text) <> [] ->
  within 0 1 (Nlp.magnitude (Nlp.analyzeSentiment text)).
Proof.
  intros Hwords. unfold Nlp.analyzeSentiment. cbn [Nlp.magnitude].
  apply magnitude_bound.
  - pose proof (counts_bounded (matchWords (toLowerCase text))). lia.
  - destruct (matchWords (toLowerCase text)); [contradiction | discriminate].
Qed.

Lemma analyzeSentiment_magnitude_range_witness :
  within 0 1 (Nlp.magnitude (Nlp.analyzeSentiment "I am so very happy"))
  /\ numEq (Nlp.magnitude (Nlp.analyzeSentiment "I am so very happy")) (Fin 0.28).
Proof.
  split.
  - apply analyzeSentiment_magnitude_range. vm_compute. discriminate.
  - vm_compute. reflexivity.
Defined.

(* ===================================================================== *)
(** ** Further properties: emotion intensities in closed form *)
(* ===================================================================== *)

Section IntensityFacts.

Local Open Scope Q_scope.

Lemma get_set_other {V} (k k' : string) (v : V) (o : Entries.t V) :
  k <> k' -> Entries.get k (Entries.set k' v o) = Entries.get k o.
Proof.
  intros Hne. induction o as [| [k2 v2] o IH]; simpl.
  - destruct (String.eqb k k') eqn:E; [apply String.eqb_eq in E; contradiction |].
    reflexivity.
  - destruct (String.eqb k' k2) eqn:E2; simpl.
    + apply String.eqb_eq in E2. subst k2.
      destruct (String.eqb k k') eqn:E; [apply String.eqb_eq in E; contradiction |].
      reflexivity.
    + now rewrite IH.
Qed.

Lemma occurrences_cons (lowerText word : string) (words : list string) :
  occurrences lowerText (word :: words)
  = (Nat.b2n (includes lowerText word) + occurrences lowerText words)%nat.
Proof.
  unfold occurrences. cbn [List.filter].
  destruct (includes lowerText word); reflexivity.
Qed.

Lemma bumpWords_get_same (lowerText emotion : string) (words : list string)
    (o : Entries.t num) (x : Q) :
  Entries.get emotion o = Some (Fin x) ->
  exists y : Q,
    Entries.get emotion (fold_left (Nlp.bumpWord lowerText emotion) words o)
    = Some (Fin y)
    /\ y == x + 0.2 * inject_Z (Z.of_nat (occurrences lowerText words)).
Proof.
  revert o x. induction words as [| word words IH]; intros o x Hget.
  - exists x. split; [exact Hget |].
    change (inject_Z (Z.of_nat (occurrences lowerText []))) with 0. lra.
  - cbn [fold_left]. rewrite occurrences_cons. unfold Nlp.bumpWord at 2.
    destruct (includes lowerText word); cbn [Nat.b2n].
    + destruct (IH (Entries.set emotion
                      (add (ofLookup (Entries.get emotion o)) (Fin 0.2)) o)
                   (x + 0.2)) as (y & Hy & Heq).
      { rewrite get_set_same, Hget. reflexivity. }
      exists y. split; [exact Hy |].
      change (1 + occurrences lowerText words)%nat
        with (S (occurrences lowerText words)).
      rewrite Heq, Nat2Z.inj_succ. unfold Z.succ. rewrite inject_Z_plus.
      change (inject_Z 1) with 1. lra.
    + destruct (IH o x Hget) as (y & Hy & Heq).
      exists y. split; [exact Hy |].
      change (0 + occurrences lowerText words)%nat
        with (occurrences lowerText words).
      exact Heq.
Qed.

Lemma bumpWords_get_other (lowerText emotion k : string) (words : list string)
    (o : Entries.t num) :
  k <> emotion ->
  Entries.get k (fold_left (Nlp.bumpWord lowerText emotion) words o)
  = Entries.get k o.
Proof.
  intros Hne. revert o. induction words as [| word words IH]; intros o;
    [reflexivity |].
  cbn [fold_left]. rewrite IH. unfold Nlp.bumpWord.
  destruct (includes lowerText word); [now apply get_set_other | reflexivity].
Qed.

Lemma bumpEmotion_get_same (lowerText emotion : string) (words : list string)
    (o : Entries.t num) (x : Q) :
  Entries.get emotion o = Some (Fin x) ->
  exists y : Q,
    Entries.get emotion (Nlp.bumpEmotion lowerText o (emotion, words))
    = Some (min (Fin y) (Fin 1))
    /\ y == x + 0.2 * inject_Z (Z.of_nat (occurrences lowerText words)).
Proof.
  intros Hget. unfold Nlp.bumpEmotion. cbn [fst snd].
  destruct (bumpWords_get_same lowerText emotion words o x Hget) as (y & Hy & Heq).
  exists y. split; [| exact Heq]. now rewrite get_set_same, Hy.
Qed.

Lemma bumpEmotion_get_other (lowerText k : string) (o : Entries.t num)
    (entry : string * list string) :
  k <> fst entry ->
  Entries.get k (Nlp.bumpEmotion lowerText o entry) = Entries.get k o.
Proof.
  intros Hne. unfold Nlp.bumpEmotion.
  rewrite get_set_other by exact Hne. now apply bumpWords_get_other.
Qed.

Lemma bumpEmotions_get_other (lowerText k : string)
    (entries : Entries.t (list string)) (o : Entries.t num) :
  ~ In k (map fst entries) ->
  Entries.get k (fold_left (Nlp.bumpEmotion lowerText) entries o) = Entries.get k o.
Proof.
  revert o. induction entries as [| entry entries IH]; intros o Hnot;
    [reflexivity |].
  cbn [fold_left]. simpl in Hnot. rewrite IH by tauto.
  apply bumpEmotion_get_other. intros ->. tauto.
Qed.

Lemma bumpEmotions_get (lowerText emotion : string) (words : list string)
    (entries : Entries.t (list string)) (o : Entries.t num) (x : Q) :
  List.NoDup (map fst entries) -> In (emotion, words) entries ->
  Entries.get emotion o = Some (Fin x) ->
  exists y : Q,
    Entries.get emotion (fold_left (Nlp.bumpEmotion lowerText) entries o)
    = Some (min (Fin y) (Fin 1))
    /\ y == x + 0.2 * inject_Z (Z.of_nat (occurrences lowerText words)).
Proof.
  revert o. induction entries as [| entry entries IH]; intros o Hnd Hin Hget;
    [contradiction |].
  simpl in Hnd. inversion Hnd as [| ? ? Hfresh Hnd']; subst.
  cbn [fold_left]. destruct Hin as [-> | Hin].
  - destruct (bumpEmotion_get_same lowerText emotion words o x Hget) as (y & Hy & Heq).
    exists y. split; [| exact Heq].
    rewrite bumpEmotions_get_other; [exact Hy | exact Hfresh].
  - apply IH; [exact Hnd' | exact Hin |].
    rewrite bumpEmotion_get_other; [exact Hget |].
    intros Heq. apply Hfresh. rewrite <- Heq.
    apply in_map_iff. exists (emotion, words). tauto.
Qed.

Lemma emotionWords_keys :
  List.NoDup (map fst Nlp.emotionWords)
  /\ forall emotion words,
       In (emotion, words) Nlp.emotionWords ->
       Entries.get emotion Nlp.initialEmotions = Some (Fin 0)
       /\ keywordsOf emotion = words.
Proof.
  split.
  - repeat (constructor;
            [simpl; intros H;
             repeat (destruct H as [H | H]; [discriminate H |]); exact H |]).
    constructor.
  - intros emotion words Hin. simpl in Hin.
    repeat (destruct Hin as [[= <- <-] | Hin]; [split; reflexivity |]).
    contradiction.
Qed.

Lemma capped_value (y : Q) (c : nat) :
  y == 0 + 0.2 * inject_Z (Z.of_nat c) ->
  exists v : Q,
    min (Fin y) (Fin 1) = Fin v
    /\ ((c <= 5)%nat -> v == 0.2 * inject_Z (Z.of_nat c))
    /\ ((5 <= c)%nat -> v == 1).
Proof.
  intros Hy. unfold min, le.
  assert ((c <= 5)%nat -> inject_Z (Z.of_nat c) <= 5) as Hle.
  { intros H. change 5 with (inject_Z 5). rewrite <- Zle_Qle. lia. }
  assert ((5 <= c)%nat -> 5 <= inject_Z (Z.of_nat c)) as Hge.
  { intros H. change 5 with (inject_Z 5). rewrite <- Zle_Qle. lia. }
  destruct (Qle_bool y 1) eqn:E.
  - apply Qle_bool_iff in E. exists y. split; [reflexivity | split; intros H].
    + lra.
    + specialize (Hge H). lra.
  - exists 1. split; [reflexivity | split; intros H; [| reflexivity]].
    assert (~ y <= 1) as Hn by (intros Hy1; apply Qle_bool_iff in Hy1; congruence).
    specialize (Hle H). lra.
Qed.

End IntensityFacts.



(* ===================================================================== *)
(** ** Further properties: which categories a text falls in *)
(* ===================================================================== *)

Section CategoryFacts.

Local Open Scope Q_scope.

(** An intensity passes 0.4 exactly from three keywords on. *)
Lemma intensity_threshold (text emotion : string) (words : list string) :
  In (emotion, words) Nlp.emotionWords ->
  gt (ofLookup (Entries.get emotion (Nlp.emotions (Nlp.analyzeText text)))) (Fin 0.4)
  = true
  <-> threeKeywords emotion text.
Proof.
  intros Hin. unfold threeKeywords.
  rewrite (proj2 (proj2 emotionWords_keys emotion words Hin)).
  cbn [Nlp.emotions Nlp.analyzeText].
  assert (exists v : Q,
             Entries.get emotion (Nlp.detectEmotions text) = Some (Fin v)
             /\ ((occurrences (toLowerCase text) words <= 5)%nat ->
                 v == 0.2 * inject_Z (Z.of_nat (occurrences (toLowerCase text) words)))
             /\ ((5 <= occurrences (toLowerCase text) words)%nat -> v == 1))
    as (v & -> & Hsmall & Hbig).
  { destruct emotionWords_keys as (Hnd & Hkeys).
    destruct (Hkeys emotion words Hin) as (Hzero & _).
    destruct (bumpEmotions_get (toLowerCase text) emotion words Nlp.emotionWords
                Nlp.initialEmotions 0 Hnd Hin Hzero) as (y & Hy & Heq).
    destruct (capped_value y _ Heq) as (v & Hv & Hs & Hb).
    exists v. unfold Nlp.detectEmotions. rewrite Hy, Hv. tauto. }
  set (c := occurrences (toLowerCase text) words) in *.
  cbn [ofLookup gt lt]. rewrite negb_true_iff.
  assert (Qle_bool v 0.4 = false <-> ~ v <= 0.4) as ->.
  { rewrite <- Qle_bool_iff. destruct (Qle_bool v 0.4); split; congruence. }
  destruct (Nat.le_ge_cases c 5) as [H5 | H5].
  - specialize (Hsmall H5). rewrite Hsmall. split.
    + intros Hv. destruct (Nat.le_gt_cases 3 c) as [H3 | H3]; [exact H3 |].
      exfalso. apply Hv.
      assert (inject_Z (Z.of_nat c) <= 2) as Hc
        by (change 2 with (inject_Z 2); rewrite <- Zle_Qle; lia).
      lra.
    + intros H3 Hv.
      assert (3 <= inject_Z (Z.of_nat c)) as Hc
        by (change 3 with (inject_Z 3); rewrite <- Zle_Qle; lia).
      lra.
  - specialize (Hbig H5). rewrite Hbig. split; [intros _; lia | intros _ Hv; lra].
Qed.

(** What the six tests of [detectEmotions] put into its result. *)
Lemma pushed_members (b1 b2 b3 b4 b5 b6 : bool) :
  let result :=
    Therapist.pushIf b6 Therapist.confusion
      (Therapist.pushIf b5 Therapist.grief
         (Therapist.pushIf b4 Therapist.joy
            (Therapist.pushIf b3 Therapist.anger
               (Therapist.pushIf b2 Therapist.depression
                  (Therapist.pushIf b1 Therapist.anxiety []))))) in
  let r := if Nat.eqb (length result) 0 then [Therapist.neutral] else result in
  (In Therapist.anxiety r <-> b1 = true)
  /\ (In Therapist.depression r <-> b2 = true)
  /\ (In Therapist.anger r <-> b3 = true)
  /\ (In Therapist.joy r <-> b4 = true)
  /\ (In Therapist.grief r <-> b5 = true)
  /\ (In Therapist.confusion r <-> b6 = true).
Proof.
  destruct b1, b2, b3, b4, b5, b6; vm_compute;
    repeat split; try reflexivity; try discriminate; try tauto;
    intros H; repeat (destruct H as [H | H]; [discriminate H |]); destruct H.
Qed.

Lemma selectApproach_anxiety (emotions : list Therapist.EmotionCategory) :
  Therapist.selectApproach emotions = [Therapist.cbt; Therapist.mindfulness]
  <-> In Therapist.anxiety emotions.
Proof.
  unfold Therapist.selectApproach.
  assert (Therapist.emotionsInclude emotions Therapist.anxiety = true
          <-> In Therapist.anxiety emotions) as Hin.
  { unfold Therapist.emotionsInclude. rewrite existsb_exists. split.
    - intros (e & He & Heq). now destruct e.
    - intros H. exists Therapist.anxiety. tauto. }
  destruct (Therapist.emotionsInclude emotions Therapist.anxiety).
  - tauto.
  - split; [| intros H; apply Hin in H; discriminate].
    repeat match goal with |- context [if ?b then _ else _] => destruct b end;
      discriminate.
Qed.

(** The categories of a text, by the six tests of [detectEmotions]. *)
Lemma detectEmotions_tests (text : string) :
  let intensity k :=
    ofLookup (Entries.get k (Nlp.emotions (Nlp.analyzeText text))) in
  let lowerText := toLowerCase text in
  (In Therapist.anxiety (Therapist.detectEmotions text)
   <-> gt (intensity "anxiety") (Fin 0.4) = true)
  /\ (In Therapist.depression (Therapist.detectEmotions text)
      <-> gt (intensity "sadness") (Fin 0.4) = true)
  /\ (In Therapist.anger (Therapist.detectEmotions text)
      <-> gt (intensity "anger") (Fin 0.4) = true)
  /\ (In Therapist.joy (Therapist.detectEmotions text)
      <-> gt (intensity "joy") (Fin 0.4) = true)
  /\ (In Therapist.grief (Therapist.detectEmotions text)
      <-> (includes lowerText "grief" || includes lowerText "loss"
           || includes lowerText "miss" || includes lowerText "gone"
           || includes lowerText "died" || includes lowerText "death")%bool = true)
  /\ (In Therapist.confusion (Therapist.detectEmotions text)
      <-> (gt (intensity "surprise") (Fin 0.4)
           || includes lowerText "confus" || includes lowerText "unsure")%bool = true).
Proof.
  cbv zeta. unfold Therapist.detectEmotions. cbv zeta.
  match goal with
  | |- context [Therapist.pushIf ?b6 Therapist.confusion
                  (Therapist.pushIf ?b5 Therapist.grief
                     (Therapist.pushIf ?b4 Therapist.joy
                        (Therapist.pushIf ?b3 Therapist.anger
                           (Therapist.pushIf ?b2 Therapist.depression
                              (Therapist.pushIf ?b1 Therapist.anxiety [])))))] =>
      exact (pushed_members b1 b2 b3 b4 b5 b6)
  end.
Qed.

End CategoryFacts.

(** X8.  Which categories [detectEmotions] of the session gives a text:
    anxiety, depression, anger and joy each exactly when at least three
    keywords of the analyzer's category (anxiety, sadness, anger, joy)
    occur; grief exactly when one of its six indicators occurs; confusion
    exactly when three surprise keywords occur or "confus" or "unsure"
    does. *)
Theorem detectEmotions_membership (text : string) :
  (In Therapist.anxiety (Therapist.detectEmotions text)
   <-> threeKeywords "anxiety" text)
  /\ (In Therapist.depression (Therapist.detectEmotions text)
      <-> threeKeywords "sadness" text)
  /\ (In Therapist.anger (Therapist.detectEmotions text)
      <-> threeKeywords "anger" text)
  /\ (In Therapist.joy (Therapist.detectEmotions text)
      <-> threeKeywords "joy" text)
  /\ (In Therapist.grief (Therapist.detectEmotions text)
      <-> exists k, In k griefIndicators /\ occursIn k (toLowerCase text))
  /\ (In Therapist.confusion (Therapist.detectEmotions text)
      <-> threeKeywords "surprise" text
          \/ occursIn "confus" (toLowerCase text)
          \/ occursIn "unsure" (toLowerCase text)).
Proof.
  assert (forall emotion, In (emotion, keywordsOf emotion) Nlp.emotionWords ->
            gt (ofLookup (Entries.get emotion (Nlp.emotions (Nlp.analyzeText text))))
               (Fin 0.4) = true
            <-> threeKeywords emotion text) as Hthree
    by (intros emotion Hin; now apply (intensity_threshold text emotion _ Hin)).
  destruct (detectEmotions_tests text) as (H1 & H2 & H3 & H4 & H5 & H6).
  cbv zeta in H1, H2, H3, H4, H5, H6.
  rewrite H1, H2, H3, H4, H5, H6.
  rewrite !Hthree by (vm_compute; tauto).
  split; [reflexivity | split; [reflexivity | split; [reflexivity | split;
    [reflexivity | split]]]].
  - rewrite !orb_true_iff, !includes_occurs. unfold griefIndicators. split.
    + intros H. repeat (destruct H as [H | H]);
        eexists; (split; [| exact H]); simpl; tauto.
    + intros (k & Hk & Hocc). simpl in Hk.
      repeat (destruct Hk as [<- | Hk]; [tauto |]). contradiction.
  - rewrite !orb_true_iff, !includes_occurs, Hthree by (vm_compute; tauto). tauto.
Qed.

(** X9.  After a turn the approach is cbt with mindfulness exactly when at
    least three anxiety keywords occur in the text. *)
Theorem approach_cbt_mindfulness (h : Heap) (s : Therapist.TherapySessionState)
    (text : string) :
  Therapist.approachUsed (snd (Therapist.updateSessionState h s text))
  = [Therapist.cbt; Therapist.mindfulness]
  <-> threeKeywords "anxiety" text.
Proof.
  destruct (updateSessionState_emotions h s text) as (_ & -> & _).
  rewrite selectApproach_anxiety.
  rewrite (proj1 (detectEmotions_tests text)).
  apply (intensity_threshold text "anxiety" (keywordsOf "anxiety")).
  vm_compute. tauto.
Qed.

(* ===================================================================== *)
(** ** Further properties: what the profile update writes *)
(* ===================================================================== *)

Section FrameFacts.

Import Profile.

Lemma touchesOnly_refl (p : UserProfile) (h : Heap) : touchesOnly p h h.
Proof. unfold touchesOnly. repeat split; reflexivity. Qed.

Lemma touchesOnly_trans (p : UserProfile) (h1 h2 h3 : Heap) :
  touchesOnly p h1 h2 -> touchesOnly p h2 h3 -> touchesOnly p h1 h3.
Proof.
  intros (A1 & A2 & A3 & A4 & A5 & A6 & A7) (B1 & B2 & B3 & B4 & B5 & B6 & B7).
  unfold touchesOnly. split; [| split; [| split; [| split; [| split; [| split]]]]].
  - intros l. now rewrite B1.
  - intros l. destruct (A2 l), (B2 l). split; congruence.
  - intros l. destruct (A3 l), (B3 l). split; congruence.
  - intros l Hl. now rewrite B4, A4.
  - intros l Hl. now rewrite B5, A5.
  - intros l Hi Hc. now rewrite B6, A6.
  - intros l Hl. rewrite B7, A7; [reflexivity | exact Hl |].
    now rewrite A1.
Qed.

Lemma fn_insert_other {A} (f : loc -> A) (l l' : loc) (v : A) :
  l' <> l -> (<[ l := v ]> f) l' = f l'.
Proof. intros Hne. apply fn_lookup_insert_ne. congruence. Qed.

Lemma fn_insert_cases {A} (P : A -> Prop) (f : loc -> A) (l l' : loc) (v : A) :
  P v -> P (f l') -> P ((<[ l := v ]> f) l').
Proof.
  intros Hv Hf. unfold insert, fn_insert. now case_decide.
Qed.

Lemma setStyle_touches (p : UserProfile) (h : Heap)
    (f : CommunicationStyle -> CommunicationStyle) :
  (forall s, concrete (f s) = concrete s /\ abstract_ (f s) = abstract_ s) ->
  touchesOnly p h (setStyle (communicationStyle p) f h).
Proof.
  intros Hf. unfold touchesOnly, setStyle. simpl.
  split; [| split; [| split; [| split; [| split; [| split]]]]]; try (intros; reflexivity).
  - intros l; split; reflexivity.
  - intros l. unfold insert, fn_insert. case_decide; [subst; apply Hf | tauto].
  - intros l Hl. now apply fn_insert_other.
Qed.

Lemma setTraits_touches (p : UserProfile) (h : Heap)
    (f : PersonalityTraits -> PersonalityTraits) :
  (forall t, conscientiousness (f t) = conscientiousness t
             /\ neuroticism (f t) = neuroticism t) ->
  touchesOnly p h (setTraits (personalityTraits p) f h).
Proof.
  intros Hf. unfold touchesOnly, setTraits. simpl.
  split; [| split; [| split; [| split; [| split; [| split]]]]]; try (intros; reflexivity).
  - intros l. unfold insert, fn_insert. case_decide; [subst; apply Hf | tauto].
  - intros l; split; reflexivity.
  - intros l Hl. now apply fn_insert_other.
Qed.

Lemma setDict_touches (p : UserProfile) (h : Heap) (l : loc)
    (f : gmap string num -> gmap string num) :
  l = interests p \/ l = concerns p ->
  touchesOnly p h (setDict l f h).
Proof.
  intros Hl. unfold touchesOnly, setDict. simpl.
  split; [| split; [| split; [| split; [| split; [| split]]]]]; try (intros; reflexivity).
  - intros l'; split; reflexivity.
  - intros l'; split; reflexivity.
  - intros l' Hi Hc. apply fn_insert_other. destruct Hl; congruence.
Qed.

Lemma setArray_touches (p : UserProfile) (h : Heap)
    (f : list string -> list string) :
  touchesOnly p h (setArray (topicsDiscussed (historyAt h (learningHistory p))) f h).
Proof.
  unfold touchesOnly, setArray. simpl.
  split; [| split; [| split; [| split; [| split; [| split]]]]]; try (intros; reflexivity).
  - intros l'; split; reflexivity.
  - intros l'; split; reflexivity.
  - intros l' Hl. now apply fn_insert_other.
Qed.

Lemma fold_touches {A} (step : Heap -> A -> Heap) (p : UserProfile) (l : list A)
    (h : Heap) :
  (forall h a, touchesOnly p h (step h a)) ->
  touchesOnly p h (fold_left step l h).
Proof.
  intros Hstep. revert h. induction l as [| a l IH]; intros h; simpl.
  - apply touchesOnly_refl.
  - eapply touchesOnly_trans; [apply Hstep | apply IH].
Qed.

Lemma updateCommunicationStyle_touches (p : UserProfile)
    (a : Nlp.NLPAnalysisResult) (h : Heap) :
  touchesOnly p h (updateCommunicationStyle p p a h).
Proof.
  assert (forall h0 v, touchesOnly p h0 (setStyle (communicationStyle p) (withVerbose v) h0)
                       /\ touchesOnly p h0 (setStyle (communicationStyle p) (withEmotional v) h0)
                       /\ touchesOnly p h0 (setStyle (communicationStyle p) (withAnalytical v) h0))
    as Hstyle.
  { intros h0 v. repeat split; apply (setStyle_touches p); intros s; split; reflexivity. }
  unfold updateCommunicationStyle. cbv zeta.
  eapply touchesOnly_trans; [| apply Hstyle].
  eapply touchesOnly_trans; [| apply Hstyle].
  apply Hstyle.
Qed.

Lemma updateInterests_touches (p : UserProfile)
    (a : Nlp.NLPAnalysisResult) (h : Heap) :
  touchesOnly p h (updateInterests p a h).
Proof.
  apply fold_touches. intros h0 topic. unfold bumpInterest.
  destruct (falsyLookup _); apply setDict_touches; now left.
Qed.

Lemma updateConcerns_touches (p : UserProfile)
    (a : Nlp.NLPAnalysisResult) (h : Heap) :
  touchesOnly p h (updateConcerns p a h).
Proof.
  apply fold_touches. intros h0 entry. unfold bumpConcern.
  destruct (_ && _); [| apply touchesOnly_refl].
  destruct (falsyLookup _); apply setDict_touches; now right.
Qed.

Lemma updatePersonalityTraits_touches (p : UserProfile)
    (a : Nlp.NLPAnalysisResult) (h : Heap) :
  touchesOnly p h (updatePersonalityTraits p a h).
Proof.
  assert (forall h0 (g : PersonalityTraits -> num),
             touchesOnly p h0
               (setTraits (personalityTraits p) (fun t => withOpenness (g t) t) h0)
             /\ touchesOnly p h0
                  (setTraits (personalityTraits p) (fun t => withExtraversion (g t) t) h0)
             /\ touchesOnly p h0
                  (setTraits (personalityTraits p) (fun t => withAgreeableness (g t) t) h0))
    as Htraits.
  { intros h0 g. repeat split; apply (setTraits_touches p); intros t; split; reflexivity. }
  unfold updatePersonalityTraits. cbv zeta.
  assert (touchesOnly p h
            (if gt (Nlp.score (Nlp.sentiment a)) (Fin 0.5)
             then setTraits (personalityTraits p)
                    (fun t => withAgreeableness (Nlp.weightedAverage (agreeableness t) (Fin 0.6)) t)
                    (setTraits (personalityTraits p)
                       (fun t => withExtraversion (Nlp.weightedAverage (extraversion t) (Fin 0.6)) t) h)
             else h)) as Hsocial.
  { destruct (gt (Nlp.score _) _); [| apply touchesOnly_refl].
    eapply touchesOnly_trans; [| apply Htraits]. apply Htraits. }
  destruct (gt (Nlp.complexity a) (Fin 0.6)); [| exact Hsocial].
  eapply touchesOnly_trans; [exact Hsocial |]. apply Htraits.
Qed.

Lemma updateLearningHistory_touches (p : UserProfile)
    (a : Nlp.NLPAnalysisResult) (h : Heap) :
  touchesOnly p h (updateLearningHistory p a h).
Proof.
  apply fold_touches. intros h0 topic. unfold noteTopic.
  destruct (negb _); [apply setArray_touches | apply touchesOnly_refl].
Qed.

Lemma updateUserProfile_touches (h : Heap) (p : UserProfile)
    (a : Nlp.NLPAnalysisResult) (text : string) :
  touchesOnly p h (fst (updateUserProfile h p a text)).
Proof.
  unfold updateUserProfile. cbn [fst]. destruct p as [lt lv li lc ls lh].
  cbn [personalityTraits values interests concerns communicationStyle learningHistory].
  set (p := {| personalityTraits := lt; values := lv; interests := li;
               concerns := lc; communicationStyle := ls; learningHistory := lh |}) in *.
  eapply touchesOnly_trans; [| apply updateLearningHistory_touches].
  eapply touchesOnly_trans; [| apply updatePersonalityTraits_touches].
  eapply touchesOnly_trans; [| apply updateConcerns_touches].
  eapply touchesOnly_trans; [| apply updateInterests_touches].
  apply updateCommunicationStyle_touches.
Qed.

End FrameFacts.

(** X10.  What [updateUserProfile] leaves alone.  Of the whole store it
    writes only into the profile's own style object (never its concrete or
    abstract axis), its traits object (never conscientiousness or
    neuroticism), its interests and concerns, and its array of discussed
    topics: every other object, the learning-history records and, unless
    it is one object with the interests or the concerns, the [values]
    dictionary read the same after the call. *)
Theorem updateUserProfile_frame (h : Heap) (p : UserProfile)
    (a : Nlp.NLPAnalysisResult) (text : string) :
  touchesOnly p h (fst (Profile.updateUserProfile h p a text))
  /\ (values p <> interests p -> values p <> concerns p ->
      viewValues (view (fst (Profile.updateUserProfile h p a text)) p)
      = viewValues (view h p)).
Proof.
  pose proof (updateUserProfile_touches h p a text) as Ht.
  split; [exact Ht |].
  intros Hi Hc. destruct Ht as (_ & _ & _ & _ & _ & Hd & _).
  unfold view. cbn [viewValues]. now apply Hd.
Qed.

Lemma updateUserProfile_frame_witness :
  viewValues (view (fst (Profile.updateUserProfile (fst freshProfile) (snd freshProfile)
                           (Nlp.analyzeText "I am so anxious, nervous and stressed about work")
                           "")) (snd freshProfile))
  = viewValues (view (fst freshProfile) (snd freshProfile)).
Proof.
  apply updateUserProfile_frame; vm_compute; discriminate.
Defined.

(* ===================================================================== *)
(** ** Further properties: the learning history and long runs *)
(* ===================================================================== *)

Section HistoryFacts.

Import Profile.

Lemma arrayIncludes_iff (arr : list string) (w : string) :
  arrayIncludes arr w = true <-> In w arr.
Proof.
  unfold arrayIncludes. rewrite existsb_exists. split.
  - intros (x & Hx & Heq). apply String.eqb_eq in Heq. now subst.
  - intros Hin. exists w. split; [exact Hin | apply String.eqb_refl].
Qed.

(** The rounds of the learning-history loop only append to the array; the
    record that points to it stays as it is. *)
Lemma noteTopics_appends (p : UserProfile) (topics : list string) (h : Heap) :
  exists added : list string,
    discussed (fold_left (noteTopic p) topics h) p = (discussed h p ++ added)%list
    /\ (forall t, In t added -> In t topics /\ ~ In t (discussed h p))
    /\ List.NoDup added
    /\ (forall t, In t topics -> In t (discussed h p ++ added)%list).
Proof.
  revert h. induction topics as [| topic topics IH]; intros h.
  - exists []. cbn [fold_left]. rewrite app_nil_r.
    split; [reflexivity | split; [| split]].
    + intros t Ht. destruct Ht.
    + apply List.NoDup_nil.
    + intros t Ht. destruct Ht.
  - cbn [fold_left]. destruct (IH (noteTopic p h topic)) as (added & Heq & Hnew & Hnd & Hall).
    unfold noteTopic in *.
    destruct (arrayIncludes (arrayAt h (topicsDiscussed (historyAt h (learningHistory p)))) topic)
      eqn:E; cbn [negb] in *.
    + exists added. split; [exact Heq | split; [| split; [exact Hnd |]]].
      * intros t Ht. destruct (Hnew t Ht). split; [now right | assumption].
      * intros t [<- | Ht]; [| now apply Hall].
        apply in_or_app. left. now apply arrayIncludes_iff.
    + assert (discussed (setArray (topicsDiscussed (historyAt h (learningHistory p)))
                           (fun a => (a ++ [topic])%list) h) p
              = (discussed h p ++ [topic])%list) as Hd.
      { unfold discussed, setArray. simpl. now rewrite fn_lookup_insert. }
      rewrite Hd in *. exists (topic :: added).
      assert (~ In topic (discussed h p)) as Hfresh.
      { intros Hin. apply arrayIncludes_iff in Hin. unfold discussed in Hin. congruence. }
      split; [now rewrite Heq, <- app_assoc | split; [| split]].
      * intros t [<- | Ht]; [split; [now left | exact Hfresh] |].
        destruct (Hnew t Ht) as (Hin & Hnot). split; [now right |].
        intros Hold. apply Hnot. apply in_or_app. now left.
      * constructor; [| exact Hnd].
        intros Hin. destruct (Hnew topic Hin) as (_ & Hnot).
        apply Hnot. apply in_or_app. right. now left.
      * intros t Ht. rewrite <- app_assoc in Hall. simpl in Hall.
        destruct Ht as [<- | Ht]; [| now apply Hall].
        apply in_or_app. right. now left.
Qed.

(** Before the learning-history loop nothing has written to an array or to
    a learning-history record. *)
Lemma arrays_until_history (p : UserProfile) (a : Nlp.NLPAnalysisResult) (h : Heap) :
  discussed
    (updatePersonalityTraits p a
       (updateConcerns p a (updateInterests p a (updateCommunicationStyle p p a h)))) p
  = discussed h p.
Proof.
  pose proof (touchesOnly_trans p _ _ _
                (touchesOnly_trans p _ _ _
                   (touchesOnly_trans p _ _ _
                      (updateCommunicationStyle_touches p a h)
                      (updateInterests_touches p a _))
                   (updateConcerns_touches p a _))
                (updatePersonalityTraits_touches p a _)) as (Hh & _).
  unfold discussed. rewrite Hh.
  assert (forall h0, arrayAt (updateCommunicationStyle p p a h0) = arrayAt h0) as H1
    by reflexivity.
  assert (forall {A} (step : Heap -> A -> Heap) (l : list A) h0,
             (forall h1 x, arrayAt (step h1 x) = arrayAt h1) ->
             arrayAt (fold_left step l h0) = arrayAt h0) as Hfold.
  { intros A step l. induction l as [| x l IH]; intros h0 Hstep; [reflexivity |].
    cbn [fold_left]. rewrite IH by exact Hstep. apply Hstep. }
  assert (forall h0, arrayAt (updateInterests p a h0) = arrayAt h0) as H2.
  { intros h0. apply Hfold. intros h1 x. unfold bumpInterest.
    destruct (falsyLookup _); reflexivity. }
  assert (forall h0, arrayAt (updateConcerns p a h0) = arrayAt h0) as H3.
  { intros h0. apply Hfold. intros h1 x. unfold bumpConcern.
    destruct (_ && _); [destruct (falsyLookup _) |]; reflexivity. }
  assert (forall h0, arrayAt (updatePersonalityTraits p a h0) = arrayAt h0) as H4.
  { intros h0. unfold updatePersonalityTraits.
    destruct (gt (Nlp.score _) _), (gt (Nlp.complexity _) _); reflexivity. }
  now rewrite H4, H3, H2, H1.
Qed.

End HistoryFacts.

(** X11.  The discussed topics only grow.  After [updateUserProfile] the
    array is the old array followed by the topics of the analysis that
    were not in it, each once; so every topic of the analysis is in it,
    nothing is removed or reordered, and an array without repetitions
    stays without. *)
Theorem topicsDiscussed_append_only (h : Heap) (p : UserProfile)
    (a : Nlp.NLPAnalysisResult) (text : string) :
  exists added : list string,
    discussed (fst (Profile.updateUserProfile h p a text)) p
    = (discussed h p ++ added)%list
    /\ (forall t, In t added -> In t (Nlp.topics a) /\ ~ In t (discussed h p))
    /\ List.NoDup added
    /\ (forall t, In t (Nlp.topics a) ->
                  In t (discussed (fst (Profile.updateUserProfile h p a text)) p))
    /\ (List.NoDup (discussed h p) ->
        List.NoDup (discussed (fst (Profile.updateUserProfile h p a text)) p)).
Proof.
  unfold Profile.updateUserProfile. cbn [fst]. destruct p as [lt lv li lc ls lh].
  cbn [personalityTraits values interests concerns communicationStyle learningHistory].
  set (p := {| personalityTraits := lt; values := lv; interests := li;
               concerns := lc; communicationStyle := ls; learningHistory := lh |}) in *.
  unfold Profile.updateLearningHistory.
  destruct (noteTopics_appends p (Nlp.topics a)
              (Profile.updatePersonalityTraits p a
                 (Profile.updateConcerns p a
                    (Profile.updateInterests p a
                       (Profile.updateCommunicationStyle p p a h)))))
    as (added & Heq & Hnew & Hnd & Hall).
  rewrite arrays_until_history in *.
  exists added. rewrite Heq.
  split; [reflexivity | split; [exact Hnew | split; [exact Hnd | split; [exact Hall |]]]].
  intros Hold. apply List.NoDup_app; [exact Hold | exact Hnd |].
  intros t Hin Hadd. now destruct (Hnew t Hadd).
Qed.

Lemma topicsDiscussed_append_only_witness :
  discussed (fst (Profile.updateUserProfile (fst freshProfile) (snd freshProfile)
                    (Nlp.analyzeText "work, work and my family") "")) (snd freshProfile)
  = ["work"; "family"]
  /\ List.NoDup
       (discussed (fst (Profile.updateUserProfile (fst freshProfile) (snd freshProfile)
                          (Nlp.analyzeText "work, work and my family") ""))
          (snd freshProfile)).
Proof.
  destruct (topicsDiscussed_append_only (fst freshProfile) (snd freshProfile)
              (Nlp.analyzeText "work, work and my family") "")
    as (added & Heq & _ & _ & _ & Hnd).
  split.
  - vm_compute. reflexivity.
  - apply Hnd. vm_compute. constructor.
Defined.

Section RunFacts.

Lemma fresh_profile_inRange (h : Heap) (base : loc) :
  profileInRange (fst (Profile.createInitialUserProfile h base))
                 (snd (Profile.createInitialUserProfile h base)).
Proof.
  unfold Profile.createInitialUserProfile, profileInRange. simpl.
  rewrite !fn_lookup_insert.
  assert (dictInRange (∅ : gmap string num)) as Hempty
    by (intros k v Hk; rewrite lookup_empty in Hk; discriminate).
  split; [| split; [| split]].
  - unfold traitsInRange. simpl. lra.
  - unfold styleInRange. simpl. lra.
  - rewrite fn_lookup_insert_ne by lia. now rewrite fn_lookup_insert.
  - rewrite !fn_lookup_insert_ne by lia. now rewrite fn_lookup_insert.
Qed.

Lemma updateSessionState_profile (h : Heap) (s : Therapist.TherapySessionState)
    (text : string) :
  Therapist.userProfile (snd (Therapist.updateSessionState h s text))
  = Therapist.userProfile s
  /\ fst (Therapist.updateSessionState h s text)
     = fst (Profile.updateUserProfile h (Therapist.userProfile s)
              (Nlp.analyzeText text) text).
Proof.
  unfold Therapist.updateSessionState.
  pose proof (updateUserProfile_same h (Therapist.userProfile s)
                (Nlp.analyzeText text) text) as Hsame.
  destruct (Profile.updateUserProfile h (Therapist.userProfile s)
              (Nlp.analyzeText text) text) as [h' p'].
  simpl in *. now subst.
Qed.

End RunFacts.

(** X12.  The unit range is an invariant of the whole session: a new
    session's profile has all its traits, style axes, interests and
    concerns in [0,1], and they are still in [0,1] after any sequence of
    user turns. *)
Theorem session_profile_in_range :
  (forall (h : Heap) (base : loc),
      profileInRange (fst (Therapist.createInitialSessionState h base))
        (Therapist.userProfile (snd (Therapist.createInitialSessionState h base))))
  /\ (forall (h : Heap) (s : Therapist.TherapySessionState) (inputs : list string),
         profileInRange h (Therapist.userProfile s) ->
         profileInRange (fst (Therapist.runTurns h s inputs))
           (Therapist.userProfile (snd (Therapist.runTurns h s inputs)))).
Proof.
  split.
  - intros h base. unfold Therapist.createInitialSessionState.
    pose proof (fresh_profile_inRange h base) as Hfresh.
    destruct (Profile.createInitialUserProfile h base) as [h' p]. exact Hfresh.
  - intros h s inputs Hp.
    induction inputs as [| text inputs IH] using rev_ind; [exact Hp |].
    rewrite runTurns_snoc.
    destruct (updateSessionState_profile (fst (Therapist.runTurns h s inputs))
                (snd (Therapist.runTurns h s inputs)) text) as (-> & ->).
    apply updateUserProfile_inRange; [apply detectEmotions_within | exact IH].
Qed.

Lemma session_profile_in_range_witness :
  profileInRange
    (fst (Therapist.runTurns (fst freshSession) (snd freshSession)
            ["I am anxious, nervous and full of worry"; "So happy today"; ""]))
    (Therapist.userProfile
       (snd (Therapist.runTurns (fst freshSession) (snd freshSession)
               ["I am anxious, nervous and full of worry"; "So happy today"; ""]))).
Proof.
  destruct session_profile_in_range as (Hinit & Hrun).
  apply Hrun. apply (Hinit Profile.emptyHeap 1%positive).
Defined.

Section SmoothingFacts.

Local Open Scope Q_scope.


End SmoothingFacts.



(* ===================================================================== *)
(** ** Further properties: the orchestrator *)
(* ===================================================================== *)

Section OrchestratorFacts.

Import Llama.

Lemma lastTen_suffix {A} (l : list A) :
  (length (Therapist.lastTen l) <= 10)%nat
  /\ exists older, l = (older ++ Therapist.lastTen l)%list.
Proof.
  unfold Therapist.lastTen. split.
  - rewrite length_skipn. lia.
  - exists (firstn (length l - 10) l). symmetry. apply firstn_skipn.
Qed.

Lemma sendLlamaRequest_log (env : Env) (w : World)
    (msgs : list LlamaMessage) (systemPrompt : option string) :
  snd (sendLlamaRequest env w msgs systemPrompt)
  = if truthy (LLAMA_API_KEY env)
    then (w ++ [requestFor env msgs systemPrompt])%list
    else w.
Proof.
  unfold sendLlamaRequest, sendLlamaRequestTry, catch_.
  destruct (truthy (LLAMA_API_KEY env)); cbn [negb]; [| reflexivity].
  destruct (fetch env w (requestFor env msgs systemPrompt))
    as [| ok status text body]; [reflexivity |].
  destruct ok; cbn [negb]; [| reflexivity].
  destruct body as [| | [[| c cs] |]]; try reflexivity.
  destruct (message c); reflexivity.
Qed.

End OrchestratorFacts.

(** X14.  [generateTherapistResponse] never rejects, and the session update
    does not depend on how the request ends: the promise is always
    fulfilled, with the state and the store that [updateSessionState]
    gave, and the call sends no request in a crisis or without an API key,
    and exactly one otherwise. *)
Theorem generateTherapistResponse_commits (env : Llama.Env) (h : Heap)
    (w : Llama.World) (text : string) (s : Therapist.TherapySessionState)
    (history : list Therapist.Message) :
  exists (reply : string) (w' : Llama.World),
    Therapist.generateTherapistResponse env h w text s history
    = (Return {| Therapist.response := reply;
                 Therapist.updatedState :=
                   snd (Therapist.updateSessionState h s text) |},
       fst (Therapist.updateSessionState h s text), w')
    /\ w' = (if Api.containsCrisisIndicators text
                || negb (Llama.truthy (Llama.LLAMA_API_KEY env))
             then w
             else w ++ [Llama.requestFor env
                          (map Therapist.toLlama (Therapist.lastTen history)
                           ++ [ {| Llama.role := Llama.user;
                                   Llama.content := text |} ])
                          (Some Llama.createTherapySystemPrompt)])%list.
Proof.
  unfold Therapist.generateTherapistResponse.
  pose proof (updateSessionState_crisis h s text) as Hflag.
  destruct (Therapist.updateSessionState h s text) as [h' s'].
  cbn [fst snd] in *. rewrite Hflag.
  destruct (Api.containsCrisisIndicators text); cbn [orb].
  - eauto.
  - unfold Therapist.generateTherapistResponseTry.
    pose proof (sendLlamaRequest_log env w
                  (map Therapist.toLlama (Therapist.lastTen history)
                   ++ [ {| Llama.role := Llama.user; Llama.content := text |} ])%list
                  (Some Llama.createTherapySystemPrompt)) as Hlog.
    destruct (sendLlamaRequest_returns env w
                (map Therapist.toLlama (Therapist.lastTen history)
                 ++ [ {| Llama.role := Llama.user; Llama.content := text |} ])%list
                (Some Llama.createTherapySystemPrompt)) as (reply & w' & Hsend).
    rewrite Hsend in *. cbn [snd catch_] in *.
    exists reply, w'. split; [reflexivity |].
    rewrite Hlog. now destruct (Llama.truthy (Llama.LLAMA_API_KEY env)).
Qed.

(** X15.  The request of a turn carries the fixed system prompt first, then
    at most the last ten messages of the history, in order, entries as
    user and responses as assistant, then the user's text; it goes to the
    fixed URL and model with temperature 0.7 and at most 800 tokens. *)
Theorem request_shape (env : Llama.Env) (text : string)
    (history : list Therapist.Message) :
  let request :=
    Llama.requestFor env
      (map Therapist.toLlama (Therapist.lastTen history)
       ++ [ {| Llama.role := Llama.user; Llama.content := text |} ])%list
      (Some Llama.createTherapySystemPrompt) in
  exists older recent : list Therapist.Message,
    history = (older ++ recent)%list
    /\ (length recent <= 10)%nat
    /\ (older <> [] -> length recent = 10%nat)
    /\ Llama.messages request
       = ({| Llama.role := Llama.system;
             Llama.content := Llama.createTherapySystemPrompt |}
          :: map (fun m => {| Llama.role :=
                                match Therapist.type m with
                                | Therapist.entry => Llama.user
                                | Therapist.response_ => Llama.assistant
                                end;
                              Llama.content := Therapist.text m |}) recent
          ++ [ {| Llama.role := Llama.user; Llama.content := text |} ])%list
    /\ Llama.url request = "https://openrouter.ai/api/v1/chat/completions"
    /\ Llama.model request = "meta-llama/llama-3-8b-instruct"
    /\ (Llama.temperature request == 0.7)%Q
    /\ Llama.max_tokens request = 800%nat.
Proof.
  cbv zeta. destruct (lastTen_suffix history) as (Hlen & older & Hsplit).
  exists older, (Therapist.lastTen history).
  split; [exact Hsplit | split; [exact Hlen | split; [| repeat split]]].
  intros Holder. unfold Therapist.lastTen in *.
  rewrite length_skipn.
  assert (length history = (length older + length (skipn (length history - 10) history))%nat)
    as Hl by (rewrite Hsplit at 1; apply length_app).
  rewrite length_skipn in Hl.
  destruct older; [contradiction | simpl in Hl; lia].
Qed.

Lemma request_shape_witness :
  length (Llama.messages
            (Llama.requestFor failingEnv
               (map Therapist.toLlama
                  (Therapist.lastTen
                     (repeat {| Therapist.type := Therapist.entry;
                                Therapist.text := "hello" |} 25))
                ++ [ {| Llama.role := Llama.user; Llama.content := "bye" |} ])%list
               (Some Llama.createTherapySystemPrompt))) = 12%nat.
Proof.
  destruct (request_shape failingEnv "bye"
              (repeat {| Therapist.type := Therapist.entry;
                         Therapist.text := "hello" |} 25))
    as (older & recent & Hsplit & Hlen & Hfull & Hmsgs & _).
  rewrite Hmsgs. cbn [length]. rewrite length_app, length_map. cbn [length].
  assert (older <> []) as Holder.
  { intros ->. apply (f_equal (@length _)) in Hsplit.
    rewrite repeat_length in Hsplit. cbn [app] in Hsplit. lia. }
  rewrite (Hfull Holder). reflexivity.
Defined.

(** X16.  When a key is configured and the service answers ok with a body
    whose first choice has a message, the reply of a turn that is no
    crisis is that message's content, word for word. *)
Theorem reply_verbatim (env : Llama.Env) (h : Heap) (w : Llama.World)
    (text : string) (s : Therapist.TherapySessionState)
    (history : list Therapist.Message)
    (status : nat) (raw answer : string) (others : list Llama.Choice) :
  Api.containsCrisisIndicators text = false ->
  Llama.truthy (Llama.LLAMA_API_KEY env) = true ->
  Llama.fetch env w
    (Llama.requestFor env
       (map Therapist.toLlama (Therapist.lastTen history)
        ++ [ {| Llama.role := Llama.user; Llama.content := text |} ])%list
       (Some Llama.createTherapySystemPrompt))
  = Llama.Response true status raw
      (Llama.JsonObject (Some ({| Llama.message := Some answer |} :: others))) ->
  exists s' h' w',
    Therapist.generateTherapistResponse env h w text s history
    = (Return {| Therapist.response := answer; Therapist.updatedState := s' |},
       h', w').
Proof.
  intros Hcalm Hkey Hfetch. unfold Therapist.generateTherapistResponse.
  pose proof (updateSessionState_crisis h s text) as Hflag.
  destruct (Therapist.updateSessionState h s text) as [h' s'].
  cbn [fst snd] in *. rewrite Hflag, Hcalm.
  unfold Therapist.generateTherapistResponseTry, Llama.sendLlamaRequest,
    Llama.sendLlamaRequestTry.
  rewrite Hkey. cbn [negb]. rewrite Hfetch. cbn. eauto.
Qed.

Lemma reply_verbatim_witness :
  exists s' h' w',
    Therapist.generateTherapistResponse answeringEnv (fst freshSession) []
      "Work was fine today" (snd freshSession) []
    = (Return {| Therapist.response := "Tell me more.";
                 Therapist.updatedState := s' |}, h', w').
Proof.
  apply (reply_verbatim answeringEnv _ [] _ _ [] 200%nat "{}" "Tell me more." []);
    reflexivity.
Defined.

(* ===================================================================== *)
(** ** Further properties: the resource selector on qualifying turns *)
(* ===================================================================== *)

Section SelectorFacts.

Import Resources.
Local Open Scope Q_scope.

Lemma shifted_unitDraws (rng : Rng) :
  unitDraws rng -> unitDraws (snd (draw rng)).
Proof. intros H n. apply (H (S n)). Qed.

Lemma titled_returns (t : ResourceType) (table : list (string * string)) (rng : Rng) :
  unitDraws rng -> table <> [] ->
  exists r, titled t table rng = Return r /\ type r = t
            /\ (exists e, In e table /\ title r = Some (fst e)
                          /\ content r = Some (snd e)).
Proof.
  intros Hrng Hne. unfold titled, draw.
  destruct (pick_in_range table (rng 0%nat) (Hrng 0%nat) Hne) as (e & -> & Hin).
  eexists. split; [reflexivity | split; [reflexivity |]]. exists e. tauto.
Qed.

Lemma generateQuote_returns (rng : Rng) :
  unitDraws rng ->
  exists r, generateQuote rng = Return r /\ type r = quote
            /\ (exists e, In e quotes /\ content r = Some (fst e)
                          /\ source r = Some (snd e)).
Proof.
  intros Hrng. unfold generateQuote, draw.
  destruct (pick_in_range quotes (rng 0%nat) (Hrng 0%nat)) as (e & -> & Hin);
    [discriminate |].
  eexists. split; [reflexivity | split; [reflexivity |]]. exists e. tauto.
Qed.

Lemma generateCopingStrategy_returns (emotion : option Therapist.EmotionCategory)
    (rng : Rng) :
  unitDraws rng ->
  exists r, generateCopingStrategy emotion rng = Return r /\ type r = coping
            /\ content r <> None.
Proof.
  intros Hrng. unfold generateCopingStrategy.
  set (table := match emotion with Some e => _ | None => _ end).
  assert (table <> []) as Hne.
  { subst table. destruct emotion as [[] |]; discriminate. }
  destruct (titled_returns coping table rng Hrng Hne) as (r & Hr & Ht & e & _ & _ & Hc).
  exists r. split; [exact Hr | split; [exact Ht |]]. rewrite Hc. discriminate.
Qed.

(** Every generator returns a resource with a content. *)
Lemma generators_return (rng : Rng) :
  unitDraws rng ->
  (exists r, generateQuote rng = Return r /\ type r = quote /\ content r <> None)
  /\ (exists r, generateBreathingExercise rng = Return r /\ type r = breathing
                /\ content r <> None)
  /\ (exists r, generateMindfulnessPractice rng = Return r /\ type r = mindfulness
                /\ content r <> None)
  /\ (exists r, generateMentalHealthResource rng = Return r /\ type r = resource
                /\ content r <> None).
Proof.
  intros Hrng. split; [| split; [| split]].
  - destruct (generateQuote_returns rng Hrng) as (r & Hr & Ht & e & _ & Hc & _).
    exists r. rewrite Hc. repeat split; try assumption. discriminate.
  - destruct (titled_returns breathing exercises rng Hrng) as (r & Hr & Ht & e & _ & _ & Hc);
      [discriminate |].
    exists r. rewrite Hc. repeat split; try assumption. discriminate.
  - destruct (titled_returns mindfulness practices rng Hrng) as (r & Hr & Ht & e & _ & _ & Hc);
      [discriminate |].
    exists r. rewrite Hc. repeat split; try assumption. discriminate.
  - destruct (generateMentalHealthResource_returns rng Hrng) as (e & _ & ->).
    eexists. repeat split. discriminate.
Qed.

End SelectorFacts.

(** X17.  On a qualifying turn (a count from 3 on that 6 divides), with
    draws in the range of [Math.random], [selectAppropriateResource]
    never returns null and never throws: it returns a resource that has a
    content.  Without a crisis, when the first draw is below 0.6 the type
    follows the dominant emotion: breathing or mindfulness for anxiety,
    coping or quote for depression, breathing or coping for anger, coping
    for grief. *)
Theorem resource_on_qualifying_turn (s : Therapist.TherapySessionState) (n : Z)
    (rng : Resources.Rng) :
  (3 <= n)%Z -> (n mod 6 = 0)%Z -> unitDraws rng ->
  exists r : Resources.Resource,
    Resources.selectAppropriateResource s n rng = Return (Some r)
    /\ Resources.content r <> None
    /\ (Therapist.crisisDetected s = false -> (rng 0%nat < 0.6)%Q ->
        match hd Therapist.neutral (Therapist.dominantEmotions s) with
        | Therapist.anxiety =>
            Resources.type r = Resources.breathing
            \/ Resources.type r = Resources.mindfulness
        | Therapist.depression =>
            Resources.type r = Resources.coping \/ Resources.type r = Resources.quote
        | Therapist.anger =>
            Resources.type r = Resources.breathing \/ Resources.type r = Resources.coping
        | Therapist.grief => Resources.type r = Resources.coping
        | _ => True
        end).
Proof.
  intros Hge Hmod Hrng. unfold Resources.selectAppropriateResource.
  assert ((n <? 3)%Z = false) as -> by (apply Z.ltb_ge; lia).
  rewrite Z.rem_mod_nonneg by lia. rewrite Hmod. cbn [Z.eqb negb].
  pose proof (shifted_unitDraws rng Hrng) as Hrng1.
  pose proof (shifted_unitDraws _ Hrng1) as Hrng2.
  destruct (generators_return rng Hrng) as (_ & _ & _ & (rc & Hrc & Htc & Hcc)).
  destruct (generators_return (snd (Resources.draw rng)) Hrng1)
    as (_ & _ & _ & _).
  destruct (generators_return (snd (Resources.draw (snd (Resources.draw rng)))) Hrng2)
    as ((rq & Hrq & Htq & Hcq) & (rb & Hrb & Htb & Hcb) & (rm & Hrm & Htm & Hcm)
        & (rr & Hrr & Htr & Hcr)).
  assert (forall e, exists r,
             Resources.generateCopingStrategy e
               (snd (Resources.draw (snd (Resources.draw rng)))) = Return r
             /\ Resources.type r = Resources.coping /\ Resources.content r <> None)
    as Hcope2 by (intros e; now apply generateCopingStrategy_returns).
  assert (forall e, exists r,
             Resources.generateCopingStrategy e (snd (Resources.draw rng)) = Return r
             /\ Resources.type r = Resources.coping /\ Resources.content r <> None)
    as Hcope1 by (intros e; now apply generateCopingStrategy_returns).
  destruct (Therapist.crisisDetected s).
  { rewrite Hrc. exists rc. repeat split; [exact Hcc | discriminate]. }
  assert (Resources.qlt (rng 0%nat) 0.6 = true <-> (rng 0%nat < 0.6)%Q) as Hlt.
  { unfold Resources.qlt. rewrite negb_true_iff.
    destruct (Qle_bool 0.6 (rng 0%nat)) eqn:E.
    - apply Qle_bool_iff in E. split; [discriminate | intros H; lra].
    - split; [intros _ | reflexivity].
      apply Qnot_le_lt. intros Hle. apply Qle_bool_iff in Hle. congruence. }
  cbn [Resources.draw fst snd] in *.
  destruct (Hcope2 (Some Therapist.depression)) as (rd & Hrd & Htd & Hcd).
  destruct (Hcope2 (Some Therapist.anger)) as (ra & Hra & Hta & Hca).
  destruct (Hcope1 (Some Therapist.grief)) as (rg & Hrg & Htg & Hcg).
  destruct (Hcope2 (Some (hd Therapist.neutral (Therapist.dominantEmotions s))))
    as (rx & Hrx & Htx & Hcx).
  destruct (Resources.qlt (rng 0%nat) 0.6) eqn:Efirst.
  - destruct (hd Therapist.neutral (Therapist.dominantEmotions s)) eqn:Edom;
      cbn [Therapist.emotionEqb andb];
      try (destruct (Resources.qlt (rng 1%nat) 0.5));
      rewrite ?Hrb, ?Hrm, ?Hrd, ?Hrq, ?Hra, ?Hrg;
      try (eexists; split; [reflexivity | split; [eassumption | intros _ _; tauto]]).
    all: destruct (Resources.pick Resources.resourceTypes (rng 1%nat)) as [[] |];
      rewrite ?Hrb, ?Hrm, ?Hrq, ?Hrr, ?Hrx;
      eexists; (split; [reflexivity | split; [eassumption | intros _ _; exact I]]).
  - assert (forall b, (b && false)%bool = false) as Hf by (intros []; reflexivity).
    rewrite !Hf.
    destruct (Resources.pick Resources.resourceTypes (rng 1%nat)) as [[] |];
      rewrite ?Hrb, ?Hrm, ?Hrq, ?Hrr, ?Hrx;
      eexists; (split; [reflexivity | split; [eassumption |]]);
      intros _ Hsmall; apply Hlt in Hsmall; discriminate.
Qed.

Lemma resource_on_qualifying_turn_witness :
  exists r : Resources.Resource,
    Resources.selectAppropriateResource (snd freshSession) 6 halfDraws = Return (Some r)
    /\ Resources.content r <> None.
Proof.
  destruct (resource_on_qualifying_turn (snd freshSession) 6 halfDraws)
    as (r & Hr & Hc & _).
  - lia.
  - reflexivity.
  - intros k. unfold halfDraws. split; [discriminate | reflexivity].
  - exists r. split; [exact Hr | exact Hc].
Defined.

(* ===================================================================== *)
(** ** Further properties: the sentiment label *)
(* ===================================================================== *)

Section LabelFacts.

Local Open Scope Q_scope.

Lemma Qle_bool_div (x s c : Q) :
  0 < s -> Qle_bool (x / s) c = Qle_bool x (c * s).
Proof.
  intros Hs. apply Bool.eq_iff_eq_true. rewrite !Qle_bool_iff. split; intros H.
  - assert (s * (x / s) == x) as Hx by (apply Qmult_div_r; lra). nra.
  - apply Qle_shift_div_r; assumption.
Qed.

Lemma Qge_bool_div (x s c : Q) :
  0 < s -> Qle_bool c (x / s) = Qle_bool (c * s) x.
Proof.
  intros Hs. apply Bool.eq_iff_eq_true. rewrite !Qle_bool_iff. split; intros H.
  - assert (s * (x / s) == x) as Hx by (apply Qmult_div_r; lra). nra.
  - apply Qle_shift_div_l; assumption.
Qed.

Lemma natle_Qle (a b : nat) (x y : Q) :
  x == inject_Z (Z.of_nat a) -> y == inject_Z (Z.of_nat b) ->
  Qle_bool x y = Nat.leb a b.
Proof.
  intros Hx Hy. apply Bool.eq_iff_eq_true.
  rewrite Qle_bool_iff, Nat.leb_le, Hx, Hy, <- Zle_Qle. lia.
Qed.

Lemma scaled_le (a b p n : nat) :
  inject_Z (Z.of_nat a) * inject_Z (Z.of_nat p)
  <= inject_Z (Z.of_nat b) * inject_Z (Z.of_nat n)
  <-> (a * p <= b * n)%nat.
Proof.
  rewrite <- !inject_Z_mult, <- Zle_Qle, <- !Nat2Z.inj_mul. lia.
Qed.

(** The four threshold tests on the quotient (P - N) / (P + N). *)
Lemma threshold_tests (p n : nat) :
  (p + n)%nat <> 0%nat ->
  let P := inject_Z (Z.of_nat p) in
  let N := inject_Z (Z.of_nat n) in
  let S := inject_Z (Z.of_nat (p + n)) in
  Qle_bool ((P + - N) / S) (-0.6) = Nat.leb (4 * p) n
  /\ Qle_bool ((P + - N) / S) (-0.2) = Nat.leb (3 * p) (2 * n)
  /\ Qle_bool 0.6 ((P + - N) / S) = Nat.leb (4 * n) p
  /\ Qle_bool 0.2 ((P + - N) / S) = Nat.leb (3 * n) (2 * p).
Proof.
  intros Hne P N S.
  assert (S == P + N) as HS
    by (subst S P N; rewrite Nat2Z.inj_add, inject_Z_plus; reflexivity).
  assert (0 < S) as Hpos.
  { subst S. change 0 with (inject_Z 0). rewrite <- Zlt_Qlt. lia. }
  pose proof (scaled_le 4 1 p n) as H41.
  pose proof (scaled_le 3 2 p n) as H32.
  pose proof (scaled_le 4 1 n p) as H41'.
  pose proof (scaled_le 3 2 n p) as H32'.
  change (inject_Z (Z.of_nat 4)) with 4 in *.
  change (inject_Z (Z.of_nat 3)) with 3 in *.
  change (inject_Z (Z.of_nat 2)) with 2 in *.
  change (inject_Z (Z.of_nat 1)) with 1 in *.
  fold P N in H41, H32, H41', H32'.
  rewrite !Nat.mul_1_l in *.
  rewrite !Qle_bool_div, !Qge_bool_div by exact Hpos.
  repeat split; apply Bool.eq_iff_eq_true; rewrite Qle_bool_iff, Nat.leb_le.
  - rewrite <- H41. split; intros H; lra.
  - rewrite <- H32. split; intros H; lra.
  - rewrite <- H41'. split; intros H; lra.
  - rewrite <- H32'. split; intros H; lra.
Qed.

End LabelFacts.

(** X18.  The sentiment label in whole numbers.  With p positive and n
    negative words found, the label is neutral when there is none, and
    otherwise very_negative when n is at least 4p, negative when 2n is at
    least 3p, very_positive when p is at least 4n, positive when 2p is at
    least 3n, and neutral in between. *)
Theorem analyzeSentiment_label (text : string) :
  Nlp.label (Nlp.analyzeSentiment text)
  = labelOfCounts
      (Nlp.countIn Nlp.positiveWords (matchWords (toLowerCase text)))
      (Nlp.countIn Nlp.negativeWords (matchWords (toLowerCase text))).
Proof.
  unfold Nlp.analyzeSentiment, labelOfCounts. cbn [Nlp.label].
  set (p := Nlp.countIn Nlp.positiveWords _).
  set (n := Nlp.countIn Nlp.negativeWords _).
  destruct (Nat.eqb (p + n) 0) eqn:E; [reflexivity |].
  apply Nat.eqb_neq in E.
  unfold sub, ofNat, neg, add, div. rewrite qzero_ofNat.
  destruct (Nat.eqb (p + n) 0) eqn:E'; [apply Nat.eqb_eq in E'; contradiction |].
  unfold Nlp.labelOf, ge, le.
  destruct (threshold_tests p n E) as (H1 & H2 & H3 & H4).
  cbv zeta in H1, H2, H3, H4. rewrite H1, H2, H3, H4.
  reflexivity.
Qed.

(* ===================================================================== *)
(** ** Further properties: delay, greeting and resource text *)
(* ===================================================================== *)



(** X20.  [getInitialGreeting] is always fulfilled with just what
    [sendLlamaRequest] gave for the opening message, so its own fallback
    greeting is never used: without an API key the greeting is the apology
    text and no request is sent. *)
Theorem getInitialGreeting_never_falls_back (env : Llama.Env) (w : Llama.World) :
  Greeting.getInitialGreeting env w
  = Llama.sendLlamaRequest env w [Greeting.initialMessage]
      (Some Llama.createTherapySystemPrompt)
  /\ (exists (s : string) (w' : Llama.World),
         Greeting.getInitialGreeting env w = (Return s, w'))
  /\ (Llama.truthy (Llama.LLAMA_API_KEY env) = false ->
      Greeting.getInitialGreeting env w = (Return Llama.fallbackText, w)).
Proof.
  assert (Greeting.getInitialGreeting env w
          = Llama.sendLlamaRequest env w [Greeting.initialMessage]
              (Some Llama.createTherapySystemPrompt)) as Hsame.
  { unfold Greeting.getInitialGreeting.
    destruct (sendLlamaRequest_returns env w [Greeting.initialMessage]
                (Some Llama.createTherapySystemPrompt)) as (s & w' & ->).
    reflexivity. }
  split; [exact Hsame | split].
  - rewrite Hsame. apply sendLlamaRequest_returns.
  - intros Hkey. rewrite Hsame.
    unfold Llama.sendLlamaRequest, Llama.sendLlamaRequestTry. now rewrite Hkey.
Qed.

Lemma getInitialGreeting_never_falls_back_witness :
  Greeting.getInitialGreeting keylessEnv [] = (Return Llama.fallbackText, []).
Proof.
  apply (getInitialGreeting_never_falls_back keylessEnv []). reflexivity.
Defined.

Section FormatFacts.

Lemma occursIn_middle (a b c : string) : occursIn b (a ++ b ++ c).
Proof. exists a, c. reflexivity. Qed.

Lemma append_assoc (a b c : string) : (a ++ b) ++ c = a ++ (b ++ c).
Proof.
  induction a as [| x a IH]; [reflexivity |].
  change (String x ((a ++ b) ++ c) = String x (a ++ (b ++ c))). now rewrite IH.
Qed.

Lemma append_empty_r (a : string) : a ++ "" = a.
Proof.
  induction a as [| x a IH]; [reflexivity |].
  change (String x (a ++ "") = String x a). now rewrite IH.
Qed.

Lemma occursIn_end (a b : string) : occursIn b (a ++ b).
Proof. exists a, "". now rewrite append_empty_r. Qed.

Lemma occursIn_append_l (k a b : string) : occursIn k a -> occursIn k (a ++ b).
Proof.
  intros (pre & post & ->). exists pre, (post ++ b).
  now rewrite !append_assoc.
Qed.

Lemma occursIn_append_r (k a b : string) : occursIn k b -> occursIn k (a ++ b).
Proof.
  intros (pre & post & ->). exists (a ++ pre), post.
  now rewrite !append_assoc.
Qed.

Lemma occursIn_refl (a : string) : occursIn a a.
Proof. exists "", "". now rewrite append_empty_r. Qed.

Lemma occursIn_start (a b : string) : occursIn a (a ++ b).
Proof. exists "", b. reflexivity. Qed.

End FormatFacts.

Ltac find_occurrence :=
  repeat first [ apply occursIn_refl | apply occursIn_start
               | apply occursIn_end | apply occursIn_append_r ].

(** X21.  The text of a resource.  [formatResourceForMessage] gives the
    empty string for null; for a resource that has a content the text is
    not empty and the content stands in it; and on a qualifying crisis
    turn the text of the selected resource starts with "Resource: ",
    names the title of an entry of the help table and gives its web
    address after "Website: ". *)
Theorem formatResourceForMessage_text :
  Format.formatResourceForMessage None = ""
  /\ (forall (r : Resources.Resource) (c : string),
         Resources.content r = Some c ->
         Format.formatResourceForMessage (Some r) <> ""
         /\ occursIn c (Format.formatResourceForMessage (Some r)))
  /\ (forall (s : Therapist.TherapySessionState) (n : Z) (rng : Resources.Rng),
         (3 <= n)%Z -> (n mod 6 = 0)%Z -> Therapist.crisisDetected s = true ->
         unitDraws rng ->
         exists r e,
           Resources.selectAppropriateResource s n rng = Return (Some r)
           /\ In e Resources.resources
           /\ String.prefix ("Resource: " ++ Resources.helpTitle e ++ " - ")
                (Format.formatResourceForMessage (Some r)) = true
           /\ occursIn ("Website: " ++ Resources.helpUrl e)
                (Format.formatResourceForMessage (Some r))).
Proof.
  split; [reflexivity | split].
  - intros r c Hc. unfold Format.formatResourceForMessage. rewrite Hc.
    cbn [Format.shown].
    destruct (Resources.type r); split; try discriminate; try find_occurrence;
      destruct (Resources.title r); discriminate.
  - intros s n rng Hge Hmod Hcrisis Hrng.
    unfold Resources.selectAppropriateResource.
    assert ((n <? 3)%Z = false) as Hn by (apply Z.ltb_ge; lia).
    rewrite Hn, Z.rem_mod_nonneg, Hmod, Hcrisis by lia. cbn [Z.eqb negb].
    destruct (generateMentalHealthResource_returns rng Hrng) as (e & Hin & ->).
    cbn [mapReturn]. eexists. exists e. split; [reflexivity | split; [exact Hin |]].
    unfold Format.formatResourceForMessage.
    cbn [Resources.type Resources.title Resources.content Resources.url
         Resources.source Format.shown].
    assert (Llama.truthy (Some (Resources.helpUrl e)) = true) as ->.
    { simpl in Hin. repeat (destruct Hin as [<- | Hin]; [reflexivity |]). contradiction. }
    split.
    + apply prefix_occurs.
      exists (Resources.helpContent e ++ Llama.nl
              ++ ("Website: " ++ Resources.helpUrl e)
              ++ (if Llama.truthy (Resources.helpContact e)
                  then Llama.nl ++ "Contact: " ++ Format.shown (Resources.helpContact e)
                  else "")).
      now rewrite !append_assoc.
    + find_occurrence.
Qed.

(* ===================================================================== *)
(** ** Further properties: the therapeutic question *)
(* ===================================================================== *)

Section QuestionFacts.

Import Question.

Lemma availableTypes_nonempty (last : string) :
  List.filter (fun t => negb (String.eqb t last)) questionTypes <> [].
Proof.
  destruct (String.eqb "emotion-exploration" last) eqn:E.
  - apply String.eqb_eq in E. subst last. vm_compute. discriminate.
  - unfold questionTypes. cbn [List.filter]. rewrite E. discriminate.
Qed.

Lemma questionFor_known (qt : string) (e : Therapist.EmotionCategory)
    (topic : option string) :
  In qt questionTypes -> questionFor (Some qt) e topic <> defaultQuestion.
Proof.
  intros Hin. simpl in Hin.
  repeat (destruct Hin as [<- | Hin];
          [ unfold questionFor; cbn [isType String.eqb Ascii.eqb Bool.eqb];
            try (destruct e; discriminate);
            repeat match goal with
                   | |- context [isTopic topic ?t] => destruct (isTopic topic t)
                   end;
            cbn [orb]; try discriminate; destruct e; discriminate
          | ]).
  contradiction.
Qed.

End QuestionFacts.

(** X22.  The therapeutic question.  In a crisis it is the fixed safety
    question, which names 988, whatever the draw, the emotion and the
    topic.  Otherwise, with a draw in the range of [Math.random], a
    question type is always chosen, it is one of the nine types and never
    the last one used, and the question asked is never the default of the
    [switch]. *)
Theorem generateTherapeuticQuestion_choice (s : Therapist.TherapySessionState)
    (e : Therapist.EmotionCategory) (topic : option string) (rng : Resources.Rng) :
  (Therapist.crisisDetected s = true ->
   Question.generateTherapeuticQuestion s e topic rng = Question.crisisQuestion)
  /\ occursIn "988" Question.crisisQuestion
  /\ (Therapist.crisisDetected s = false -> unitDraws rng ->
      exists qt : string,
        Question.chooseQuestionType s rng = Some qt
        /\ In qt Question.questionTypes
        /\ qt <> Therapist.lastQuestionType s
        /\ Question.generateTherapeuticQuestion s e topic rng
           = Question.questionFor (Some qt) e topic
        /\ Question.generateTherapeuticQuestion s e topic rng
           <> Question.defaultQuestion).
Proof.
  unfold Question.generateTherapeuticQuestion. split; [| split].
  - now intros ->.
  - apply includes_occurs. vm_compute. reflexivity.
  - intros -> Hrng. unfold Question.chooseQuestionType. cbv zeta.
    destruct (pick_in_range _ (fst (Resources.draw rng)) (Hrng 0%nat)
                (availableTypes_nonempty (Therapist.lastQuestionType s)))
      as (qt & Hpick & Hin).
    apply filter_In in Hin as (Hin & Hne).
    exists qt. rewrite Hpick.
    split; [reflexivity | split; [exact Hin | split; [| split; [reflexivity |]]]].
    + intros ->. rewrite String.eqb_refl in Hne. discriminate.
    + now apply questionFor_known.
Qed.

Lemma generateTherapeuticQuestion_choice_witness :
  Question.generateTherapeuticQuestion crisisSession Therapist.joy None halfDraws
  = Question.crisisQuestion
  /\ Question.chooseQuestionType (snd freshSession) halfDraws <> Some "opening".
Proof.
  split.
  - apply generateTherapeuticQuestion_choice. reflexivity.
  - destruct (generateTherapeuticQuestion_choice (snd freshSession) Therapist.joy
                None halfDraws) as (_ & _ & H).
    destruct H as (qt & Hqt & _ & Hne & _).
    + reflexivity.
    + intros k. unfold halfDraws. split; [discriminate | reflexivity].
    + rewrite Hqt. intros [= ->]. now apply Hne.
Defined.

(* ===================================================================== *)
(** ** Further properties: entities *)
(* ===================================================================== *)

Section EntityFacts.

Import Entities.
Local Open Scope Q_scope.

Lemma mentionedAgain_wellFormed (e : EntityAnalysis) :
  wellFormedEntity e -> wellFormedEntity (mentionedAgain e).
Proof.
  intros (Ht & Hs & Hm & Hn). unfold wellFormedEntity, mentionedAgain. simpl.
  split; [exact Ht | split; [| split; [lia | exact Hn]]].
  destruct (salience e) as [x | | |]; simpl in *; try contradiction.
  destruct (Qle_bool (x + 0.1) 1) eqn:E; simpl.
  - apply Qle_bool_iff in E. lra.
  - lra.
Qed.

Lemma recordNoun_wellFormed (noun : string) (entities : list EntityAnalysis) :
  isProperNoun noun = true -> Forall wellFormedEntity entities ->
  Forall wellFormedEntity (recordNoun noun entities).
Proof.
  intros Hnoun Hall. induction Hall as [| e rest He Hrest IH]; simpl.
  - constructor; [| constructor]. unfold wellFormedEntity. simpl.
    repeat split; try lra; try lia. exact Hnoun.
  - destruct (String.eqb _ _); constructor; auto using mentionedAgain_wellFormed.
Qed.

(** The names stay distinct, even up to letter case. *)
Lemma recordNoun_names (noun : string) (entities : list EntityAnalysis) :
  List.NoDup (map (fun e => toLowerCase (name e)) entities) ->
  List.NoDup (map (fun e => toLowerCase (name e)) (recordNoun noun entities))
  /\ (forall k, In k (map (fun e => toLowerCase (name e)) (recordNoun noun entities)) ->
                k = toLowerCase noun
                \/ In k (map (fun e => toLowerCase (name e)) entities)).
Proof.
  induction entities as [| e rest IH]; intros Hnd; simpl.
  - split; [repeat constructor; intros [] | intros k [<- | []]; now left].
  - inversion Hnd as [| ? ? Hfresh Hnd']; subst.
    destruct (String.eqb (toLowerCase (name e)) (toLowerCase noun)) eqn:E; simpl.
    + split; [exact Hnd | intros k Hk; now right].
    + destruct (IH Hnd') as (IHnd & IHin).
      split.
      * constructor; [| exact IHnd].
        intros Hin. destruct (IHin _ Hin) as [Heq | Hold]; [| contradiction].
        rewrite Heq, String.eqb_refl in E. discriminate.
      * intros k [<- | Hk]; [right; now left |].
        destruct (IHin k Hk); [now left | right; now right].
Qed.

Lemma Forall_perm {A} (P : A -> Prop) (l l' : list A) :
  Permutation l l' -> Forall P l -> Forall P l'.
Proof.
  intros Hp Hl. apply Forall_forall. intros x Hx.
  apply (proj1 (Forall_forall _ _) Hl).
  apply (Permutation_in x (Permutation_sym Hp) Hx).
Qed.

Lemma insertByMentions_perm (e : EntityAnalysis) (sorted : list EntityAnalysis) :
  Permutation (insertByMentions e sorted) (e :: sorted).
Proof.
  induction sorted as [| y ys IH]; simpl; [reflexivity |].
  destruct (Nat.ltb (mentions e) (mentions y)); [| reflexivity].
  rewrite IH. apply perm_swap.
Qed.

Lemma sortByMentions_perm (entities : list EntityAnalysis) :
  Permutation (sortByMentions entities) entities.
Proof.
  induction entities as [| e rest IH]; simpl; [reflexivity |].
  rewrite insertByMentions_perm. now constructor.
Qed.

Lemma insertByMentions_sorted (e : EntityAnalysis) (sorted : list EntityAnalysis) :
  StronglySorted byMentions sorted ->
  StronglySorted byMentions (insertByMentions e sorted).
Proof.
  induction 1 as [| y ys Hys IH Hy]; simpl.
  - repeat constructor.
  - destruct (Nat.ltb (mentions e) (mentions y)) eqn:E.
    + apply Nat.ltb_lt in E. constructor; [exact IH |].
      apply (Forall_perm _ (e :: ys));
        [symmetry; apply insertByMentions_perm |].
      constructor; [unfold byMentions; lia | exact Hy].
    + apply Nat.ltb_ge in E. constructor; [now constructor |].
      constructor; [exact E |].
      revert Hy. apply Forall_impl. unfold byMentions. intros z Hz. lia.
Qed.

Lemma sortByMentions_sorted (entities : list EntityAnalysis) :
  StronglySorted byMentions (sortByMentions entities).
Proof.
  induction entities as [| e rest IH]; simpl; [constructor |].
  now apply insertByMentions_sorted.
Qed.

Lemma firstn_In {A} (n : nat) (l : list A) (x : A) :
  In x (firstn n l) -> In x l.
Proof.
  intros Hx. rewrite <- (firstn_skipn n l). apply in_or_app. now left.
Qed.

Lemma firstn_sorted {A} (R : A -> A -> Prop) (n : nat) (l : list A) :
  StronglySorted R l -> StronglySorted R (firstn n l).
Proof.
  intros Hs. revert n. induction Hs as [| x l Hl IH Hx]; intros [| n]; simpl;
    try constructor; [apply IH |].
  apply Forall_forall. intros y Hy.
  apply (proj1 (Forall_forall _ _) Hx). eapply firstn_In. exact Hy.
Qed.

Lemma firstn_NoDup {A} (n : nat) (l : list A) :
  List.NoDup l -> List.NoDup (firstn n l).
Proof.
  intros Hnd. rewrite <- (firstn_skipn n l) in Hnd.
  now apply List.NoDup_app_remove_r in Hnd.
Qed.

Lemma collected_entities (nouns : list string) (entities : list EntityAnalysis) :
  Forall (fun w => isProperNoun w = true) nouns ->
  Forall wellFormedEntity entities ->
  List.NoDup (map (fun e => toLowerCase (name e)) entities) ->
  Forall wellFormedEntity (fold_left noteNoun nouns entities)
  /\ List.NoDup (map (fun e => toLowerCase (name e)) (fold_left noteNoun nouns entities)).
Proof.
  intros Hnouns. revert entities.
  induction Hnouns as [| noun nouns Hnoun Hrest IH]; intros entities Hwf Hnd;
    [simpl; tauto |].
  cbn [fold_left]. apply IH; unfold noteNoun;
    destruct (Nat.ltb 1 (String.length noun)); try assumption.
  - now apply recordNoun_wellFormed.
  - now apply recordNoun_names.
Qed.

End EntityFacts.

(** X23.  [extractEntities] returns at most five entities; each is a
    PERSON whose name is a capitalised word of the text, with a salience
    in [0.5,1] and at least one mention; they come by mentions, larger
    first; and no two have the same name, even up to letter case. *)
Theorem extractEntities_shape (text : string) :
  (length (Entities.extractEntities text) <= 5)%nat
  /\ Forall wellFormedEntity (Entities.extractEntities text)
  /\ Forall (fun e => In (Entities.name e) (matchWords text))
            (Entities.extractEntities text)
  /\ StronglySorted byMentions (Entities.extractEntities text)
  /\ List.NoDup (map (fun e => toLowerCase (Entities.name e))
                     (Entities.extractEntities text)).
Proof.
  unfold Entities.extractEntities. cbv zeta.
  assert (Forall (fun w => Entities.isProperNoun w = true) (Entities.properNouns text))
    as Hnouns.
  { apply Forall_forall. intros w Hw. unfold Entities.properNouns in Hw.
    now apply filter_In in Hw. }
  destruct (collected_entities (Entities.properNouns text) [] Hnouns
              (Forall_nil _) (List.NoDup_nil _)) as (Hwf & Hnd).
  set (entities := fold_left Entities.noteNoun (Entities.properNouns text) []) in *.
  pose proof (sortByMentions_perm entities) as Hperm.
  assert (forall (P : Entities.EntityAnalysis -> Prop) l,
             Forall P l -> Forall P (firstn 5 l)) as Hfirst.
  { intros P l Hl. apply Forall_forall. intros x Hx.
    apply (proj1 (Forall_forall _ _) Hl). eapply firstn_In. exact Hx. }
  split; [apply firstn_le_length | split; [| split; [| split]]].
  - apply Hfirst. apply (Forall_perm _ entities); [now symmetry | exact Hwf].
  - apply Hfirst. apply (Forall_perm _ entities); [now symmetry |].
    subst entities.
    assert (forall nouns acc,
               Forall (fun e => In (Entities.name e) (matchWords text)) acc ->
               Forall (fun w => In w (matchWords text)) nouns ->
               Forall (fun e => In (Entities.name e) (matchWords text))
                      (fold_left Entities.noteNoun nouns acc)) as Hnames.
    { induction nouns as [| noun nouns IH]; intros acc Hacc Hin; [exact Hacc |].
      inversion Hin as [| ? ? Hnoun Hrest]; subst. cbn [fold_left].
      apply IH; [| exact Hrest]. unfold Entities.noteNoun.
      destruct (Nat.ltb 1 (String.length noun)); [| exact Hacc].
      clear IH Hin Hrest. induction Hacc as [| e rest He Hrest' IHacc]; simpl.
      - now repeat constructor.
      - destruct (String.eqb _ _); constructor; auto. }
    apply Hnames; [constructor |].
    apply Forall_forall. intros w Hw. unfold Entities.properNouns in Hw.
    now apply filter_In in Hw.
  - apply firstn_sorted, sortByMentions_sorted.
  - rewrite <- firstn_map. apply firstn_NoDup.
    apply (Permutation_NoDup (l := map (fun e => toLowerCase (Entities.name e)) entities));
      [| exact Hnd].
    symmetry. now apply Permutation_map.
Qed.

(* ===================================================================== *)
(** ** Further properties: key phrases *)
(* ===================================================================== *)

Section PhraseFacts.

Import KeyPhrases.
Local Open Scope Q_scope.

Lemma considerSentence_wellFormed (text sentence : string)
    (phrases : list KeyPhraseAnalysis) (rng : Resources.Rng) :
  In sentence (splitRuns isTerminator text) -> unitDraws rng ->
  Forall (wellFormedPhrase text) phrases ->
  Forall (wellFormedPhrase text) (fst (considerSentence (phrases, rng) sentence))
  /\ unitDraws (snd (considerSentence (phrases, rng) sentence)).
Proof.
  intros Hin Hrng Hall. unfold considerSentence.
  destruct (Nat.leb 3 _ && Nat.leb _ 10) eqn:E; [| simpl; tauto].
  apply andb_true_iff in E as (E3 & E10).
  apply Nat.leb_le in E3, E10. simpl. split; [| intros n; apply (Hrng (S n))].
  apply Forall_app. split; [exact Hall |]. constructor; [| constructor].
  unfold wellFormedPhrase. simpl. split; [| split].
  - eexists. split; [reflexivity |]. pose proof (Hrng 0%nat). lra.
  - exists sentence. tauto.
  - lia.
Qed.

Lemma considered_wellFormed (text : string) (sentences : list string)
    (phrases : list KeyPhraseAnalysis) (rng : Resources.Rng) :
  Forall (fun s => In s (splitRuns isTerminator text)) sentences ->
  unitDraws rng -> Forall (wellFormedPhrase text) phrases ->
  Forall (wellFormedPhrase text)
         (fst (fold_left considerSentence sentences (phrases, rng)))
  /\ unitDraws (snd (fold_left considerSentence sentences (phrases, rng))).
Proof.
  intros Hs. revert phrases rng.
  induction Hs as [| sentence sentences Hin Hrest IH]; intros phrases rng Hrng Hall;
    [simpl; tauto |].
  cbn [fold_left].
  destruct (considerSentence_wellFormed text sentence phrases rng Hin Hrng Hall)
    as (Hall' & Hrng').
  destruct (considerSentence (phrases, rng) sentence) as [phrases' rng'].
  now apply IH.
Qed.

Lemma insertByScore_perm (e : KeyPhraseAnalysis) (sorted : list KeyPhraseAnalysis) :
  Permutation (insertByScore e sorted) (e :: sorted).
Proof.
  induction sorted as [| y ys IH]; simpl; [reflexivity |].
  destruct (lt (score e) (score y)); [| reflexivity].
  rewrite IH. apply perm_swap.
Qed.

Lemma sortByScore_perm (phrases : list KeyPhraseAnalysis) :
  Permutation (sortByScore phrases) phrases.
Proof.
  induction phrases as [| e rest IH]; simpl; [reflexivity |].
  rewrite insertByScore_perm. now constructor.
Qed.

Lemma insertByScore_sorted (e : KeyPhraseAnalysis) (sorted : list KeyPhraseAnalysis) :
  finite (score e) -> Forall (fun y => finite (score y)) sorted ->
  StronglySorted byScore sorted ->
  StronglySorted byScore (insertByScore e sorted).
Proof.
  intros (x & Hx) Hfin Hs. induction Hs as [| y ys Hys IH Hy]; simpl.
  - repeat constructor.
  - inversion Hfin as [| ? ? (v & Hv) Hfin']; subst.
    assert (lt (score e) (score y) = negb (Qle_bool v x)) as ->
      by (rewrite Hx, Hv; reflexivity).
    destruct (Qle_bool v x) eqn:E; cbn [negb].
    + constructor; [now constructor |].
      constructor; [unfold byScore; rewrite Hx, Hv; exact E |].
      apply Forall_forall. intros z Hz.
      pose proof (proj1 (Forall_forall _ _) Hy z Hz) as Hzy.
      destruct (proj1 (Forall_forall _ _) Hfin' z Hz) as (u & Hu).
      unfold byScore in *. rewrite Hx, Hu. rewrite Hu, Hv in Hzy. cbn [le] in *.
      apply Qle_bool_iff in E, Hzy. apply Qle_bool_iff. lra.
    + constructor; [now apply IH |].
      apply (Forall_perm _ (e :: ys)); [symmetry; apply insertByScore_perm |].
      constructor; [| exact Hy].
      unfold byScore. rewrite Hx, Hv. cbn [le]. apply Qle_bool_iff.
      assert (~ v <= x) as Hn by (intros H; apply Qle_bool_iff in H; congruence).
      lra.
Qed.

Lemma sortByScore_sorted (phrases : list KeyPhraseAnalysis) :
  Forall (fun y => finite (score y)) phrases ->
  StronglySorted byScore (sortByScore phrases).
Proof.
  induction 1 as [| e rest He Hrest IH]; simpl; [constructor |].
  apply insertByScore_sorted; [exact He | | exact IH].
  apply (Forall_perm _ rest); [symmetry; apply sortByScore_perm | exact Hrest].
Qed.

End PhraseFacts.

(** X24.  [extractKeyPhrases] returns at most three phrases, the best
    scored first.  With draws in the range of [Math.random], each score
    is in [0.5, 0.8), and each phrase is a sentence of the text (a piece
    between runs of ".", "!" and "?") with the white space taken off its
    ends, of three to ten tokens. *)
Theorem extractKeyPhrases_shape (text : string) (rng : Resources.Rng) :
  unitDraws rng ->
  (length (fst (KeyPhrases.extractKeyPhrases text rng)) <= 3)%nat
  /\ Forall (wellFormedPhrase text) (fst (KeyPhrases.extractKeyPhrases text rng))
  /\ StronglySorted byScore (fst (KeyPhrases.extractKeyPhrases text rng))
  /\ unitDraws (snd (KeyPhrases.extractKeyPhrases text rng)).
Proof.
  intros Hrng. unfold KeyPhrases.extractKeyPhrases. cbv zeta.
  destruct (considered_wellFormed text
              (List.filter trimNonEmpty (splitRuns isTerminator text)) [] rng)
    as (Hall & Hrng'); [| exact Hrng | constructor |].
  { apply Forall_forall. intros s Hs. now apply filter_In in Hs. }
  destruct (fold_left KeyPhrases.considerSentence _ ([], rng)) as [phrases rng'].
  cbn [fst snd] in *.
  assert (Forall (wellFormedPhrase text) (KeyPhrases.sortByScore phrases)) as Hsorted
    by (apply (Forall_perm _ phrases); [symmetry; apply sortByScore_perm | exact Hall]).
  split; [apply firstn_le_length | split; [| split; [| exact Hrng']]].
  - apply Forall_forall. intros kp Hkp.
    apply (proj1 (Forall_forall _ _) Hsorted). eapply firstn_In. exact Hkp.
  - apply firstn_sorted, sortByScore_sorted.
    revert Hall. apply Forall_impl. intros kp ((q & Hq & _) & _). now exists q.
Qed.

Lemma extractKeyPhrases_shape_witness :
  map KeyPhrases.phrase
      (fst (KeyPhrases.extractKeyPhrases "Work is very hard now.  Ok! I feel fine?" halfDraws))
  = ["Work is very hard now"; "I feel fine"]
  /\ Forall (wellFormedPhrase "Work is very hard now.  Ok! I feel fine?")
       (fst (KeyPhrases.extractKeyPhrases "Work is very hard now.  Ok! I feel fine?" halfDraws)).
Proof.
  split; [vm_compute; reflexivity |].
  apply extractKeyPhrases_shape.
  intros k. unfold halfDraws. split; [discriminate | reflexivity].
Defined.

(* ===================================================================== *)
(** ** The additions to a reply *)
(* ===================================================================== *)

Section EnhanceFacts.

Import Enhance.

Lemma exerciseKey_cases (c : string) :
  In (exerciseKey c) [ "grounding"; "anxiety"; "depression"; "sleep"; "general" ].
Proof.
  unfold exerciseKey. cbv zeta.
  repeat match goal with |- context [if ?b then _ else _] => destruct b end;
    simpl; auto 10.
Qed.

Lemma strategyKey_cases (c : string) :
  In (strategyKey c) [ "anxiety"; "depression"; "anger"; "grief"; "general" ].
Proof.
  unfold strategyKey. cbv zeta.
  repeat match goal with |- context [if ?b then _ else _] => destruct b end;
    simpl; auto 10.
Qed.

Lemma resourceKey_cases (c : string) :
  In (resourceKey c) [ "crisis"; "anxiety"; "depression"; "general" ].
Proof.
  unfold resourceKey. cbv zeta.
  repeat match goal with |- context [if ?b then _ else _] => destruct b end;
    simpl; auto 10.
Qed.

(** A draw in the unit interval picks an entry of a table of two. *)
Lemma pick_pair {A} (a b : A) (r : Q) :
  (0 <= r < 1)%Q ->
  Resources.pick [a; b] r = Some a \/ Resources.pick [a; b] r = Some b.
Proof.
  intros Hr.
  destruct (pick_in_range [a; b] r Hr) as (x & -> & [<- | [<- | []]]);
    [discriminate | auto | auto].
Qed.

Ltac pick_entry Hr :=
  match goal with
  | |- context [Resources.pick (tableAt ?t ?k ?g) ?r] =>
      let l := eval cbv in (length (tableAt t k g)) in
      let e := fresh "e" in
      let E := fresh "E" in
      destruct (pick_in_range (tableAt t k g) r Hr) as (e & -> & E);
      [discriminate
      | exists e; split; [reflexivity |];
        destruct E as [<- | [<- | []]]; reflexivity ]
  end.

Lemma getMindfulnessExercise_some (c : string) (rng : Resources.Rng) :
  (0 <= rng 0%nat < 1)%Q ->
  exists e, getMindfulnessExercise c rng = Some e
            /\ exerciseCategory e = exerciseKey c.
Proof.
  intros Hr. unfold getMindfulnessExercise, Resources.draw.
  pose proof (exerciseKey_cases c) as Hk.
  repeat (destruct Hk as [<- | Hk]); try contradiction; pick_entry Hr.
Qed.

Lemma getCopingStrategy_some (c : string) (rng : Resources.Rng) :
  (0 <= rng 0%nat < 1)%Q ->
  exists e, getCopingStrategy c rng = Some e
            /\ strategyCategory e = strategyKey c.
Proof.
  intros Hr. unfold getCopingStrategy, Resources.draw.
  pose proof (strategyKey_cases c) as Hk.
  repeat (destruct Hk as [<- | Hk]); try contradiction; pick_entry Hr.
Qed.

Lemma getMentalHealthResource_some (c : string) (rng : Resources.Rng) :
  (0 <= rng 0%nat < 1)%Q ->
  exists e, getMentalHealthResource c rng = Some e
            /\ resourceCategory e = resourceKey c.
Proof.
  intros Hr. unfold getMentalHealthResource, Resources.draw.
  pose proof (resourceKey_cases c) as Hk.
  repeat (destruct Hk as [<- | Hk]); try contradiction; pick_entry Hr.
Qed.

(** Every resource of the table has a [url]; those filed under crisis,
    and no others, have a [phone]. *)
Lemma resources_table_contacts (k : string) (e : MentalHealthResource) :
  In e (tableAt resources_table k resources_general) ->
  url e <> None /\ (phone e <> None <-> resourceCategory e = "crisis").
Proof.
  unfold tableAt. cbn [Entries.get resources_table].
  repeat match goal with
         | |- context [if ?b then _ else _] => destruct b
         end;
    cbn [In]; intros H;
    repeat (destruct H as [<- | H]); try contradiction;
    (split; [discriminate |]);
    split; intros H;
    first [reflexivity | discriminate | discriminate H
          | exfalso; apply H; reflexivity].
Qed.

Lemma getMentalHealthResource_crisis (rng : Resources.Rng) :
  (0 <= rng 0%nat < 1)%Q ->
  exists res, In res resources_crisis
              /\ getMentalHealthResource "crisis" rng = Some res.
Proof.
  intros Hr. unfold getMentalHealthResource, Resources.draw.
  change (tableAt resources_table (resourceKey "crisis") resources_general)
    with resources_crisis.
  destruct (pick_in_range resources_crisis (rng 0%nat) Hr) as (e & -> & E);
    [discriminate | eauto].
Qed.

Lemma enhancement_appends (base emotion : string) (api : QuoteFetch)
    (rng : Resources.Rng) :
  match enhancement base emotion api rng with
  | Return (Some text) => exists post, text = base ++ post
  | _ => True
  end.
Proof.
  unfold enhancement, Resources.draw.
  repeat match goal with
         | |- context [if (?a =? ?b)%Z then _ else _] => destruct (a =? b)%Z
         end;
    try exact I.
  - destruct (fetchInspirationalQuote api); [eexists; reflexivity | exact I].
  - eexists; reflexivity.
  - destruct (getMindfulnessExercise _ _); [eexists; reflexivity | exact I].
  - destruct (getCopingStrategy _ _); [eexists; reflexivity | exact I].
  - destruct (getMentalHealthResource _ _); [eexists; reflexivity | exact I].
Qed.

End EnhanceFacts.

(** X25.  [enhanceResponseWithExternalData] only appends.  Whatever the
    second and third argument are, whatever the quote service answers and
    whatever is drawn after the first draw, the promise is fulfilled, and
    with a text that begins with [baseResponse]: what is thrown inside the
    [try] is caught, and the crisis branch before the [try] finds its
    resource. *)
Theorem enhanceResponse_only_appends (baseResponse : string)
    (userProfile : Enhance.Subject) (topicOrCrisis : Enhance.Flag)
    (api : Enhance.QuoteFetch) (rng : Resources.Rng) :
  (0 <= rng 0%nat < 1)%Q ->
  exists text,
    Enhance.enhanceResponseWithExternalData baseResponse userProfile
      topicOrCrisis api rng = Return text
    /\ String.prefix baseResponse text = true.
Proof.
  intros Hr. unfold Enhance.enhanceResponseWithExternalData.
  destruct (Enhance.readSubject userProfile) as [emotion c].
  destruct (Enhance.readFlag topicOrCrisis c).
  - destruct (getMentalHealthResource_crisis rng Hr) as (res & _ & ->).
    eexists. split; [reflexivity |].
    apply prefix_occurs. unfold Enhance.crisisText. eexists. reflexivity.
  - pose proof (enhancement_appends baseResponse emotion api rng) as H.
    destruct (Enhance.enhancement baseResponse emotion api rng) as [[text |] | e].
    + exists text. split; [reflexivity |]. apply prefix_occurs. exact H.
    + exists baseResponse. split; [reflexivity |].
      apply prefix_occurs. exists EmptyString. symmetry. apply append_empty_r.
    + exists baseResponse. split; [reflexivity |].
      apply prefix_occurs. exists EmptyString. symmetry. apply append_empty_r.
Qed.

Lemma enhanceResponse_only_appends_witness :
  exists text,
    Enhance.enhanceResponseWithExternalData "I hear you."
      (Enhance.OfSession crisisSession) Enhance.NoFlag Enhance.Rejected halfDraws
    = Return text
    /\ String.prefix "I hear you." text = true.
Proof.
  apply (enhanceResponse_only_appends "I hear you."
           (Enhance.OfSession crisisSession) Enhance.NoFlag Enhance.Rejected
           halfDraws).
  unfold halfDraws. lra.
Defined.

(** X26.  In a crisis the reply is followed by a crisis line and how to
    reach it.  When the third argument is [true] or the string 'crisis', or
    when it is not a boolean and the second argument is a session state
    with a dominant emotion and its crisis flag set, the text is
    [baseResponse], an empty line, and one of the two resources filed under
    crisis with its name, description, contact and website. *)
Theorem enhanceResponse_crisis_contact (baseResponse : string)
    (userProfile : Enhance.Subject) (topicOrCrisis : Enhance.Flag)
    (api : Enhance.QuoteFetch) (rng : Resources.Rng) :
  topicOrCrisis = Enhance.OfBoolean true
  \/ topicOrCrisis = Enhance.OfTopic "crisis"
  \/ (exists s, userProfile = Enhance.OfSession s
                 /\ Therapist.dominantEmotions s <> []
                 /\ Therapist.crisisDetected s = true
                 /\ forall b, topicOrCrisis <> Enhance.OfBoolean b) ->
  (0 <= rng 0%nat < 1)%Q ->
  exists res contact website,
    In res Enhance.resources_crisis
    /\ Enhance.phone res = Some contact
    /\ Enhance.url res = Some website
    /\ Enhance.enhanceResponseWithExternalData baseResponse userProfile
         topicOrCrisis api rng
       = Return (baseResponse ++ Llama.nl ++ Llama.nl ++ "Resource: "
                 ++ Enhance.resourceName res ++ " - "
                 ++ Enhance.resourceDescription res
                 ++ " Contact: " ++ contact ++ " Website: " ++ website).
Proof.
  intros Hflag Hr. unfold Enhance.enhanceResponseWithExternalData.
  destruct (Enhance.readSubject userProfile) as [emotion c] eqn:Hs.
  assert (Enhance.readFlag topicOrCrisis c = true) as ->.
  { destruct Hflag as [-> | [-> | (s & -> & He & Hc & Hb)]];
      [reflexivity | reflexivity |].
    unfold Enhance.readSubject in Hs.
    destruct (Therapist.dominantEmotions s); [contradiction |].
    rewrite Hc in Hs. injection Hs as _ <-.
    destruct topicOrCrisis as [b | topic |]; simpl.
    - now contradiction (Hb b).
    - now destruct (String.eqb topic "crisis").
    - reflexivity. }
  destruct (getMentalHealthResource_crisis rng Hr) as (res & Hin & ->).
  destruct Hin as [<- | [<- | []]].
  - do 3 eexists. split; [left; reflexivity |].
    split; [reflexivity |]. split; [reflexivity |].
    reflexivity.
  - do 3 eexists. split; [right; left; reflexivity |].
    split; [reflexivity |]. split; [reflexivity |].
    reflexivity.
Qed.

(** X27.  A boolean third argument decides alone whether there is a
    crisis: of a session state given as second argument only the dominant
    emotions are then read, so that a session whose crisis flag is set gets,
    with [false] as third argument, what a session without the flag
    gets. *)
Theorem enhanceResponse_boolean_flag_decides (baseResponse : string)
    (s s' : Therapist.TherapySessionState) (b : bool)
    (api : Enhance.QuoteFetch) (rng : Resources.Rng) :
  Therapist.dominantEmotions s = Therapist.dominantEmotions s' ->
  Enhance.enhanceResponseWithExternalData baseResponse (Enhance.OfSession s)
    (Enhance.OfBoolean b) api rng
  = Enhance.enhanceResponseWithExternalData baseResponse (Enhance.OfSession s')
      (Enhance.OfBoolean b) api rng.
Proof.
  intros He. unfold Enhance.enhanceResponseWithExternalData, Enhance.readSubject.
  rewrite He. destruct (Therapist.dominantEmotions s'); reflexivity.
Qed.

Lemma enhanceResponse_boolean_flag_decides_witness :
  Enhance.enhanceResponseWithExternalData "I hear you."
    (Enhance.OfSession crisisSession) (Enhance.OfBoolean false)
    Enhance.Rejected halfDraws
  = Enhance.enhanceResponseWithExternalData "I hear you."
      (Enhance.OfSession (snd freshSession)) (Enhance.OfBoolean false)
      Enhance.Rejected halfDraws.
Proof.
  apply (enhanceResponse_boolean_flag_decides "I hear you." crisisSession
           (snd freshSession) false Enhance.Rejected halfDraws).
  reflexivity.
Defined.

(** X28.  [getMindfulnessExercise], [getCopingStrategy] and
    [getMentalHealthResource] never return [undefined] on a draw of
    [Math.random]: each returns an entry filed under the key it derived
    from its argument.  Every resource has a [url], and it has a [phone]
    exactly when the key is crisis. *)
Theorem selectors_entry_of_key (emotion : string) (rng : Resources.Rng) :
  (0 <= rng 0%nat < 1)%Q ->
  exists practice strategy res,
    Enhance.getMindfulnessExercise emotion rng = Some practice
    /\ Enhance.getCopingStrategy emotion rng = Some strategy
    /\ Enhance.getMentalHealthResource emotion rng = Some res
    /\ Enhance.exerciseCategory practice = Enhance.exerciseKey emotion
    /\ Enhance.strategyCategory strategy = Enhance.strategyKey emotion
    /\ Enhance.resourceCategory res = Enhance.resourceKey emotion
    /\ Enhance.url res <> None
    /\ (Enhance.phone res <> None <-> Enhance.resourceKey emotion = "crisis").
Proof.
  intros Hr.
  destruct (getMindfulnessExercise_some emotion rng Hr) as (m & Hm & Hmc).
  destruct (getCopingStrategy_some emotion rng Hr) as (c & Hc & Hcc).
  destruct (getMentalHealthResource_some emotion rng Hr) as (r & Hg & Hrc).
  exists m, c, r.
  assert (In r (Enhance.tableAt Enhance.resources_table
                  (Enhance.resourceKey emotion) Enhance.resources_general)) as Hin.
  { unfold Enhance.getMentalHealthResource, Resources.draw in Hg.
    unfold Resources.pick in Hg.
    destruct (_ <? 0)%Z; [discriminate |].
    eapply nth_error_In. exact Hg. }
  destruct (resources_table_contacts _ _ Hin) as (Hu & Hp).
  rewrite Hrc in Hp. auto 10.
Qed.

Lemma selectors_entry_of_key_witness :
  exists practice strategy res,
    Enhance.getMindfulnessExercise "Anxiety" halfDraws = Some practice
    /\ Enhance.getCopingStrategy "Anxiety" halfDraws = Some strategy
    /\ Enhance.getMentalHealthResource "Anxiety" halfDraws = Some res
    /\ Enhance.exerciseCategory practice = Enhance.exerciseKey "Anxiety"
    /\ Enhance.strategyCategory strategy = Enhance.strategyKey "Anxiety"
    /\ Enhance.resourceCategory res = Enhance.resourceKey "Anxiety"
    /\ Enhance.url res <> None
    /\ (Enhance.phone res <> None <-> Enhance.resourceKey "Anxiety" = "crisis").
Proof.
  apply (selectors_entry_of_key "Anxiety" halfDraws).
  unfold halfDraws. lra.
Defined.

Lemma enhanceResponse_crisis_contact_witness :
  exists res contact website,
    In res Enhance.resources_crisis
    /\ Enhance.phone res = Some contact
    /\ Enhance.url res = Some website
    /\ Enhance.enhanceResponseWithExternalData "I hear you."
         (Enhance.OfSession crisisSession) (Enhance.OfTopic "work")
         Enhance.Rejected halfDraws
       = Return ("I hear you." ++ Llama.nl ++ Llama.nl ++ "Resource: "
                 ++ Enhance.resourceName res ++ " - "
                 ++ Enhance.resourceDescription res
                 ++ " Contact: " ++ contact ++ " Website: " ++ website).
Proof.
  apply (enhanceResponse_crisis_contact "I hear you."
           (Enhance.OfSession crisisSession) (Enhance.OfTopic "work")
           Enhance.Rejected halfDraws).
  - right. right. exists crisisSession.
    split; [reflexivity |]. split; [discriminate |].
    split; [reflexivity |]. discriminate.
  - unfold halfDraws. lra.
Defined.

(* ===================================================================== *)
(** ** The concerns of a profile *)
(* ===================================================================== *)

Section ConcernFacts.

Import Profile.

Lemma fn_insert_same {A} (f : loc -> A) (l : loc) (v : A) :
  (<[ l := v ]> f) l = v.
Proof. apply fn_lookup_insert. Qed.

Lemma bumpConcern_keys (p : UserProfile) (h : Heap) (entry : string * num)
    (k : string) :
  hasConcern (bumpConcern p h entry) p k
  <-> hasConcern h p k
      \/ (k = fst entry /\ In k negativeEmotions /\ gt (snd entry) (Fin 0.5) = true).
Proof.
  unfold hasConcern, bumpConcern. destruct entry as [e v]. cbn [fst snd].
  destruct (gt v (Fin 0.5)) eqn:Hv; cbn [andb].
  - destruct (arrayIncludes negativeEmotions e) eqn:Hn.
    + apply arrayIncludes_iff in Hn.
      destruct (falsyLookup _); cbn [setDict dictAt]; rewrite fn_insert_same;
        rewrite lookup_insert_is_Some; split.
      * intros [-> | [_ H]]; [right; auto | left; exact H].
      * intros [H | (-> & _)]; [| left; reflexivity].
        destruct (decide (e = k)) as [-> | Hne]; [left; reflexivity | right; auto].
      * intros [-> | [_ H]]; [right; auto | left; exact H].
      * intros [H | (-> & _)]; [| left; reflexivity].
        destruct (decide (e = k)) as [-> | Hne]; [left; reflexivity | right; auto].
    + split; [auto |]. intros [H | (-> & Hin & _)]; [exact H |].
      apply arrayIncludes_iff in Hin. congruence.
  - split; [auto |]. intros [H | (_ & _ & H)]; [exact H | discriminate].
Qed.

Lemma updateConcerns_keys (p : UserProfile) (a : Nlp.NLPAnalysisResult)
    (h : Heap) (k : string) :
  hasConcern (updateConcerns p a h) p k <-> hasConcern h p k \/ concernRaised a k.
Proof.
  unfold updateConcerns, concernRaised.
  generalize (Nlp.emotions a) as es. intros es. revert h.
  induction es as [| entry es IH]; intros h; cbn [fold_left].
  - split; [auto |]. intros [H | (_ & v & [] & _)]. exact H.
  - rewrite IH, bumpConcern_keys. split.
    + intros [[H | (-> & Hn & Hv)] | (Hn & v & Hin & Hv)].
      * left. exact H.
      * right. split; [exact Hn |]. exists (snd entry).
        split; [left; now destruct entry | exact Hv].
      * right. split; [exact Hn |]. exists v. split; [right; exact Hin | exact Hv].
    + intros [H | (Hn & v & [-> | Hin] & Hv)].
      * left. left. exact H.
      * left. right. auto.
      * right. split; [exact Hn |]. eauto.
Qed.

(** A loop that leaves the dictionary at [l] alone. *)
Lemma fold_dict {A} (step : Heap -> A -> Heap) (l : loc) (xs : list A) (h : Heap) :
  (forall h0 x, dictAt (step h0 x) l = dictAt h0 l) ->
  dictAt (fold_left step xs h) l = dictAt h l.
Proof.
  intros Hstep. revert h.
  induction xs as [| x xs IH]; intros h; [reflexivity |].
  cbn [fold_left]. rewrite IH. apply Hstep.
Qed.

Lemma updateInterests_concerns (p : UserProfile) (a : Nlp.NLPAnalysisResult)
    (h : Heap) :
  interests p <> concerns p ->
  dictAt (updateInterests p a h) (concerns p) = dictAt h (concerns p).
Proof.
  intros Hne. unfold updateInterests. apply fold_dict. intros h0 t.
  unfold bumpInterest.
  destruct (falsyLookup _); cbn [setDict dictAt]; apply fn_insert_other; congruence.
Qed.

End ConcernFacts.

(** X29.  The concerns of a profile only grow, and by negative emotions
    only.  For a profile whose interests and concerns are two objects,
    after [updateUserProfile] a key is among the concerns exactly when it
    was before or when it is one of the negative emotions and the analysis
    gives it an intensity above one half. *)
Theorem updateUserProfile_concerns (h : Heap) (p : UserProfile)
    (a : Nlp.NLPAnalysisResult) (text k : string) :
  interests p <> concerns p ->
  hasConcern (fst (Profile.updateUserProfile h p a text)) p k
  <-> hasConcern h p k \/ concernRaised a k.
Proof.
  intros Hne. unfold Profile.updateUserProfile. cbn [fst].
  destruct p as [lt lv li lc ls lh].
  cbn [personalityTraits values interests concerns communicationStyle
       learningHistory] in *.
  set (p := {| personalityTraits := lt; values := lv; interests := li;
               concerns := lc; communicationStyle := ls; learningHistory := lh |}) in *.
  assert (forall h0, dictAt (Profile.updateLearningHistory p a h0) = dictAt h0) as H5.
  { intros h0. unfold Profile.updateLearningHistory.
    generalize (Nlp.topics a) as ts. intros ts. revert h0.
    induction ts as [| t ts IH]; intros h0; [reflexivity |].
    cbn [fold_left]. rewrite IH. unfold Profile.noteTopic.
    destruct (arrayIncludes _ _); reflexivity. }
  assert (forall h0, dictAt (Profile.updatePersonalityTraits p a h0) = dictAt h0) as H4.
  { intros h0. unfold Profile.updatePersonalityTraits.
    destruct (gt (Nlp.score _) _), (gt (Nlp.complexity _) _); reflexivity. }
  unfold hasConcern at 1. rewrite H5, H4.
  change (hasConcern
            (Profile.updateConcerns p a
               (Profile.updateInterests p a
                  (Profile.updateCommunicationStyle p p a h))) p k
          <-> hasConcern h p k \/ concernRaised a k).
  rewrite updateConcerns_keys. unfold hasConcern at 1.
  rewrite (updateInterests_concerns p a _ Hne). reflexivity.
Qed.

Lemma updateUserProfile_concerns_witness :
  hasConcern
    (fst (Profile.updateUserProfile (fst freshProfile) (snd freshProfile)
            (Nlp.analyzeText "I am so sad and unhappy") "I am so sad and unhappy"))
    (snd freshProfile) "sadness"
  <-> hasConcern (fst freshProfile) (snd freshProfile) "sadness"
      \/ concernRaised (Nlp.analyzeText "I am so sad and unhappy") "sadness".
Proof.
  apply (updateUserProfile_concerns (fst freshProfile) (snd freshProfile)
           (Nlp.analyzeText "I am so sad and unhappy") "I am so sad and unhappy"
           "sadness").
  vm_compute. discriminate.
Defined.

(* ===================================================================== *)
(** ** What the session update does not read *)
(* ===================================================================== *)

(** X30.  [updateSessionState] overwrites the dominant emotions, the
    approach, the crisis flag and the last analysis of the state it is
    given without reading them: two states that agree on the six other
    properties give the same updated state, and [generateTherapistResponse]
    the same reply.  A crisis flag set by the caller before the call has no
    effect. *)
Theorem generateTherapistResponse_overwrites (env : Llama.Env) (h : Heap)
    (w : Llama.World) (userInput : string)
    (s s' : Therapist.TherapySessionState)
    (conversationHistory : list Therapist.Message) :
  agreeOnRead s s' ->
  Therapist.updateSessionState h s userInput
  = Therapist.updateSessionState h s' userInput
  /\ Therapist.generateTherapistResponse env h w userInput s conversationHistory
     = Therapist.generateTherapistResponse env h w userInput s'
         conversationHistory.
Proof.
  intros (H1 & H2 & H3 & H4 & H5 & H6).
  assert (Therapist.updateSessionState h s userInput
          = Therapist.updateSessionState h s' userInput) as Hu.
  { unfold Therapist.updateSessionState. now rewrite H1, H2, H3, H4, H5, H6. }
  split; [exact Hu |].
  unfold Therapist.generateTherapistResponse. now rewrite Hu.
Qed.

Lemma generateTherapistResponse_overwrites_witness :
  Therapist.updateSessionState (fst freshSession) crisisSession "I feel fine"
  = Therapist.updateSessionState (fst freshSession) (snd freshSession) "I feel fine"
  /\ Therapist.generateTherapistResponse keylessEnv (fst freshSession) []
       "I feel fine" crisisSession []
     = Therapist.generateTherapistResponse keylessEnv (fst freshSession) []
         "I feel fine" (snd freshSession) [].
Proof.
  apply (generateTherapistResponse_overwrites keylessEnv (fst freshSession) []
           "I feel fine" crisisSession (snd freshSession) []).
  unfold agreeOnRead. repeat split.
Defined.
